(** * SM_batch_processor.py: the SwissModel batch processor

    A shallow embedding of [SwissModelAPI] (src/SM_batch_processor.py):
    the submission loop, the status monitor, the artifact fetcher with its
    on-disk layout, and the orchestrating loop of [process_sequences].

    Conventions of the embedding.
    - A Python [str] is a [string]; its characters are [ascii] values, so
      identifiers, URLs and file names are taken to be 8-bit text and the
      regular-expression class [\d] is the range [0-9].
    - [bytes] are [list byte].
    - The remote service is an oracle: the replies it gives to the calls of
      one function are arguments of that function.
    - Every function returns, next to its value, the list of events
      (requests, sleeps, printed lines) it performed, in program order.
    - The body of a response is the JSON object of its endpoint, already
      decoded; a key that is absent is [None].
    - The file system is a finite map from paths to contents plus a set of
      directories; paths are joined as [posixpath.join] does. *)

From Stdlib Require Import ZArith Ascii String List Lia Bool.
From Stdlib Require Import DecimalString DecimalNat.
From stdpp Require Import base gmap strings list.
From Equations Require Import Equations.

Local Open Scope Z_scope.

(** ** Python string primitives *)

Module Py.

(** [s.startswith(p)], returning what follows the prefix. *)
Fixpoint strip_prefix (p s : string) : option string :=
  match p, s with
  | EmptyString, _ => Some s
  | String a p', String b s' =>
      if Ascii.eqb a b then strip_prefix p' s' else None
  | String _ _, EmptyString => None
  end.

Definition startswith (s p : string) : bool :=
  match strip_prefix p s with Some _ => true | None => false end.

(** [s.endswith(suf)]: some tail of [s] is [suf]. *)
Fixpoint endswith (s suf : string) : bool :=
  String.eqb s suf ||
  match s with
  | EmptyString => false
  | String _ s' => endswith s' suf
  end.

(** [s.replace(old, "")] for a non-empty [old]: every occurrence,
    scanning from the left, is removed. *)
Fixpoint remove_all (old s : string) (fuel : nat) : string :=
  match fuel with
  | O => s
  | S fuel' =>
      match strip_prefix old s with
      | Some rest => remove_all old rest fuel'
      | None =>
          match s with
          | EmptyString => EmptyString
          | String c s' => String c (remove_all old s' fuel')
          end
      end
  end.

Definition replace_with_empty (s old : string) : string :=
  remove_all old s (S (String.length s)).

(** [s.split("/")[-1]]: what follows the last slash. *)
Fixpoint last_segment_go (cur s : string) : string :=
  match s with
  | EmptyString => cur
  | String c s' =>
      if Ascii.eqb c "/" then last_segment_go s' s' else last_segment_go cur s'
  end.

Definition last_segment (s : string) : string := last_segment_go s s.

(** [str(n)] for a natural number. *)
Definition str_of_nat (n : nat) : string :=
  NilEmpty.string_of_uint (Nat.to_uint n).

Fixpoint zeros (k : nat) : string :=
  match k with
  | O => EmptyString
  | S k' => String "0" (zeros k')
  end.

(** [f"{n:03}"]: decimal, left-padded with zeros to width 3, never
    truncated. *)
Definition format_03 (n : nat) : string :=
  let s := str_of_nat n in
  zeros (3 - String.length s) +:+ s.

(** [os.path.join(a, b)] of [posixpath]. *)
Definition path_join (a b : string) : string :=
  if startswith b "/" then b
  else if String.eqb a "" || endswith a "/" then a +:+ b
  else a +:+ "/" +:+ b.

End Py.

(** ** The two regular expressions of the script *)

Module Re.

Definition in_range (lo hi : N) (c : ascii) : bool :=
  let n := N_of_ascii c in ((lo <=? n) && (n <=? hi))%N.

(** [\d] on a character below U+0100: there the decimal digits are [0-9].
    [Wide.span_digits] takes the digits beyond. *)
Definition is_digit (c : ascii) : bool := in_range 48 57 c.

(** The class [[A-Za-z0-9_.-]]. *)
Definition is_safe_char (c : ascii) : bool :=
  in_range 65 90 c || in_range 97 122 c || in_range 48 57 c
  || Ascii.eqb c "_" || Ascii.eqb c "." || Ascii.eqb c "-".

(** [re.sub(r'[^A-Za-z0-9_.-]', '_', s)] *)
Fixpoint sub_unsafe (s : string) : string :=
  match s with
  | EmptyString => EmptyString
  | String c s' =>
      String (if is_safe_char c then c else "_"%char) (sub_unsafe s')
  end.

(** Greedy [\d*] at the head of [s]: the digits and what follows. *)
Fixpoint span_digits (s : string) : string * string :=
  match s with
  | EmptyString => (EmptyString, EmptyString)
  | String c s' =>
      if is_digit c then
        let (ds, rest) := span_digits s' in (String c ds, rest)
      else (EmptyString, s)
  end.

(** [cluster_(\d+)] anchored at the head of [s]; the value is group 1. *)
Definition match_cluster_here (s : string) : option string :=
  match Py.strip_prefix "cluster_" s with
  | Some rest =>
      match fst (span_digits rest) with
      | EmptyString => None
      | ds => Some ds
      end
  | None => None
  end.

(** [re.search(r'cluster_(\d+)', s)]: the leftmost position where the
    pattern matches; the value is [group(1)] of that match. *)
Fixpoint search_cluster (s : string) : option string :=
  match match_cluster_here s with
  | Some ds => Some ds
  | None =>
      match s with
      | EmptyString => None
      | String _ s' => search_cluster s'
      end
  end.

End Re.

(** ** File-name derivation (lines 145-172) *)

Definition sanitize_filename (filename : string) : string :=
  Re.sub_unsafe filename.

Definition cluster_number (seq_id : string) : string :=
  match Re.search_cluster seq_id with
  | Some ds => ds
  | None => "unknown"
  end.

(** ** The remote service and what the program does to the world *)

(** What [requests.post] / [requests.get] gives back: either the call
    raises a [RequestException] (connection error, timeout, ...), or a
    response with a status code and a body arrives. *)
Inductive Reply (B : Type) : Type :=
| Raises
| Answers (status_code : Z) (body : B).
Arguments Raises {B}.
Arguments Answers {B} status_code body.

(** [response.raise_for_status()] raises [HTTPError], a
    [RequestException], exactly on the client- and server-error codes. *)
Definition raise_for_status (status_code : Z) : bool :=
  (400 <=? status_code) && (status_code <? 600).

(** The JSON object answered by the submission endpoint. *)
Record SubmitJson := { project_id : option string }.

(** One entry of the [models] list of a status summary. *)
Record Model := {
  modelcif_url : option string;
  coordinates_url : option string
}.

(** The JSON object answered by the status endpoint; a key that is absent
    is [None], and so is one whose value is [null]: [Wide.Summary] tells the
    two apart under [models], where the code does. *)
Record StatusJson := {
  status : option string;
  models : option (list Model)
}.

(** The body of a submission request (line 93). *)
Record SubmitPayload := {
  target_sequences : list string;
  template_coordinates : string;
  project_title : string
}.

(** Lines the program prints. *)
Inductive Message : Type :=
| MsgRateLimit (wait_time : Z)
| MsgRequestError (seq_id : string)
| MsgJobStatus (project seq_id status : string)
| MsgStatusError (project : string)
| MsgNoModels (seq_id : string)
| MsgExtracted (filename : string)
| MsgSaved (filename : string)
| MsgDownloadFailed (url : string)
| MsgLoaded (count : nat)
| MsgStarted (project seq_id : string)
| MsgAllProcessed.

Inductive Event : Type :=
| EPost (payload : SubmitPayload)
| EGetStatus (project : string)
| EGet (url : string)
| ESleep (seconds : Z)
| EPrint (m : Message).

(** What a call of [submit_request] evaluates to: the pair
    [(seq_id, project_id)], or Python's [None] when the body of the function
    ends without a [return]. *)
Inductive SubmitReturn : Type :=
| ReturnsPair (seq_id : string) (project : option string)
| ReturnsNone.

(** Truth value of [project_id] in [if project_id:]. *)
Definition truthy (project : option string) : bool :=
  match project with
  | Some p => negb (String.eqb p "")
  | None => false
  end.

(** ** submit_request (lines 85-108) *)

Section Submit.

Variable template : string.
(** [post attempt]: the outcome of the [requests.post] call made while the
    loop variable has the value [attempt]. *)
Variable post : Z -> Reply SubmitJson.
Variables seq_id sequence : string.

Definition submit_payload : SubmitPayload :=
  {| target_sequences := [sequence];
     template_coordinates := template;
     project_title := "Batch Submission - " +:+ seq_id |}.

Equations? submit_loop (attempt : Z) : SubmitReturn * list Event
  by wf (Z.to_nat (6 - attempt)) lt :=
  submit_loop attempt with decide (attempt <= 5) => {
    | right _ => (ReturnsNone, [])
    | left _ with post attempt => {
        | Raises =>
            (ReturnsPair seq_id None,
             [EPost submit_payload; EPrint (MsgRequestError seq_id)])
        | Answers status_code body =>
            if status_code =? 429 then
              let wait_time := attempt * 10 in
              let '(result, events) := submit_loop (attempt + 1) in
              (result,
               EPost submit_payload :: EPrint (MsgRateLimit wait_time)
                 :: ESleep wait_time :: events)
            else if raise_for_status status_code then
              (ReturnsPair seq_id None,
               [EPost submit_payload; EPrint (MsgRequestError seq_id)])
            else
              (ReturnsPair seq_id (project_id body), [EPost submit_payload]) } }.
Proof. lia. Qed.

Definition submit_request : SubmitReturn * list Event := submit_loop 1.

End Submit.

(** ** monitor_job_status (lines 110-126) *)

(** The loop has no exit but its [return]: on a finite list of replies it
    either returns or is still polling when the list ends. *)
Inductive MonitorResult : Type :=
| Returned (status_json : option StatusJson)
| StillPolling.

Definition status_or_unknown (j : StatusJson) : string :=
  match status j with
  | Some s => s
  | None => "UNKNOWN"
  end.

Section Monitor.

Variables seq_id project : string.

(** [replies]: what the status endpoint gives on the first, second, ...
    tick. *)
Fixpoint monitor_job_status (replies : list (Reply StatusJson))
  : MonitorResult * list Event :=
  match replies with
  | [] => (StillPolling, [])
  | reply :: later =>
      let again (events : list Event) :=
        let '(result, rest) := monitor_job_status later in
        (result, ESleep 10 :: EGetStatus project :: events ++ rest) in
      match reply with
      | Raises => again [EPrint (MsgStatusError project)]
      | Answers status_code status_json =>
          if raise_for_status status_code then
            again [EPrint (MsgStatusError project)]
          else
            let status := status_or_unknown status_json in
            let line := EPrint (MsgJobStatus project seq_id status) in
            if String.eqb status "COMPLETED" || String.eqb status "FAILED" then
              (Returned (if String.eqb status "COMPLETED"
                         then Some status_json else None),
               [ESleep 10; EGetStatus project; line])
            else again [line]
      end
  end.

End Monitor.

(** ** The output tree *)

Record FileSystem := {
  dirs : gset string;
  files : gmap string (list Byte.byte)
}.

Definition empty_fs : FileSystem := {| dirs := ∅; files := ∅ |}.

(** [os.makedirs(leaf, exist_ok=True)], where [parents] are the
    directories on the way to [leaf]. *)
Definition makedirs (parents : list string) (leaf : string) (fs : FileSystem)
  : FileSystem :=
  {| dirs := dirs fs ∪ list_to_set parents ∪ {[ leaf ]}; files := files fs |}.

(** [open(path, "wb")] followed by one [write]. *)
Definition write_file (path : string) (content : list Byte.byte) (fs : FileSystem)
  : FileSystem :=
  {| dirs := dirs fs; files := <[ path := content ]> (files fs) |}.

(** [os.remove(path)] *)
Definition remove_file (path : string) (fs : FileSystem) : FileSystem :=
  {| dirs := dirs fs; files := delete path (files fs) |}.

(** ** The artifact fetcher (lines 128-191) *)

(** One tuple of [model_data]: [(seq_id, url, model_number, file_type)]. *)
Definition ModelData : Type := string * string * nat * string.

(** The body of the [enumerate] loop of [fetch_model_results], for the
    models from index [i] on. *)
Fixpoint collect_model_data (seq_id : string) (i : nat) (entries : list Model)
  : list ModelData :=
  match entries with
  | [] => []
  | model :: later =>
      (match modelcif_url model with
       | Some url => [(seq_id, url, i, "modelcif")]
       | None => []
       end)
      ++ (match coordinates_url model with
          | Some url => [(seq_id, url, i, "coordinates")]
          | None => []
          end)
      ++ collect_model_data seq_id (S i) later
  end.

(** [status_json.get("models", [])] enumerated from 1. *)
Definition model_data_of (seq_id : string) (status_json : StatusJson)
  : list ModelData :=
  collect_model_data seq_id 1 (default [] (models status_json)).

Definition sub_folder (file_type : string) : string :=
  if String.eqb file_type "modelcif" then "CIF" else "PDB".

Definition file_extension (file_type : string) : string :=
  if String.eqb file_type "modelcif" then ".cif" else ".pdb".

Section Fetcher.

Variable out_dir : string.
(** [requests.get(url)] with the bytes of [response.content]. *)
Variable http_get : string -> Reply (list Byte.byte).
(** Decompression of a gzip stream: the bytes produced, and whether the
    stream was read to its end without an error. *)
Variable gunzip : list Byte.byte -> list Byte.byte * bool.

(** Line 167 *)
Definition cluster_folder (seq_id file_type : string) : string :=
  Py.path_join
    (Py.path_join out_dir ("cluster_" +:+ cluster_number seq_id +:+ "_model"))
    (sub_folder file_type).

(** Line 171 *)
Definition safe_filename (seq_id : string) (model_number : nat)
  (file_type : string) : string :=
  sanitize_filename
    ("cluster_" +:+ cluster_number seq_id +:+ "_model_"
       +:+ Py.format_03 model_number +:+ file_extension file_type).

(** Line 172: the path the download is written to. *)
Definition destination (model_data : ModelData) : string :=
  let '(seq_id, _, model_number, file_type) := model_data in
  Py.path_join (cluster_folder seq_id file_type)
    (safe_filename seq_id model_number file_type).

(** [raw_filename] of line 152 is computed and never used.  The lock of
    line 174 makes the bodies of concurrent calls run one after another, which
    is how calls compose here.  An error of the decompression is not a
    [RequestException]: it ends the call and stays in the worker's future,
    which nobody reads. *)
Definition _download_and_extract (fs : FileSystem) (model_data : ModelData)
  : FileSystem * list Event :=
  let '(seq_id, url, model_number, file_type) := model_data in
  let raw_filename := Py.last_segment url in
  let folder := cluster_folder seq_id file_type in
  let fs := makedirs
              [out_dir;
               Py.path_join out_dir
                 ("cluster_" +:+ cluster_number seq_id +:+ "_model")]
              folder fs in
  let filename := destination model_data in
  let failed := (fs, [EGet url; EPrint (MsgDownloadFailed url)]) in
  match http_get url with
  | Raises => failed
  | Answers status_code content =>
      if raise_for_status status_code then failed
      else
        let fs := write_file filename content fs in
        if Py.endswith filename ".gz" then
          let extracted_filename := Py.replace_with_empty filename ".gz" in
          let '(plain, complete) := gunzip content in
          let fs := write_file extracted_filename plain fs in
          if complete then
            (remove_file filename fs,
             [EGet url; EPrint (MsgExtracted extracted_filename)])
          else (fs, [EGet url])
        else (fs, [EGet url; EPrint (MsgSaved filename)])
  end.

(** [executor.map(self._download_and_extract, model_data)]: the calls
    taken in the order of [model_data], one of the orders in which the
    workers may take the lock; [Wide.fetch_model_results] has the order as a
    parameter. *)
Fixpoint download_all (fs : FileSystem) (model_data : list ModelData)
  : FileSystem * list Event :=
  match model_data with
  | [] => (fs, [])
  | item :: later =>
      let '(fs, events) := _download_and_extract fs item in
      let '(fs, rest) := download_all fs later in
      (fs, events ++ rest)
  end.

Definition fetch_model_results (fs : FileSystem) (seq_id : string)
  (status_json : StatusJson) : FileSystem * list Event :=
  match model_data_of seq_id status_json with
  | [] => (fs, [EPrint (MsgNoModels seq_id)])
  | model_data => download_all fs model_data
  end.

End Fetcher.

(** ** process_sequences (lines 196-213) *)

Inductive RunResult : Type :=
| Finished
| RaisesValueError
| RaisesTypeError
| PollsForever.

(** Truth value of [status_json] in [if status_json:]: [None] and the empty
    dict are false. *)
Definition truthy_json (status_json : option StatusJson) : bool :=
  match status_json with
  | Some j =>
      match status j, models j with
      | None, None => false
      | _, _ => true
      end
  | None => false
  end.

(** An event of the orchestrating thread, with the sequence identifier of the
    call it belongs to. *)
Definition Tagged : Type := string * Event.

Definition tag (seq_id : string) (events : list Event) : list Tagged :=
  map (pair seq_id) events.

Record Run := {
  result : RunResult;
  disk : FileSystem;
  (** what the pooled tasks did, one entry per task *)
  pool_traces : list (string * list Event);
  (** what happened under the [as_completed] loop, in order *)
  loop_trace : list Tagged;
  (** lines printed outside the loop *)
  summary : list Message
}.

Section Orchestrator.

Variable out_dir : string.
Variable http_get : string -> Reply (list Byte.byte).
Variable gunzip : list Byte.byte -> list Byte.byte * bool.
Variable template : string.
(** The replies to the submission of a sequence, by attempt. *)
Variable post_of : string -> Z -> Reply SubmitJson.
(** The replies of the status endpoint for a project, tick by tick. *)
Variable polls_of : string -> list (Reply StatusJson).

(** Line 203: the callable handed to the pool is [submit_request] alone. *)
Definition pool_task (item : string * string) : SubmitReturn * list Event :=
  submit_request template (post_of item.1) item.1 item.2.

(** Lines 205-211, over the futures in the order they complete. *)
Fixpoint handle_completed (arrival : list (string * string)) (fs : FileSystem)
  : RunResult * FileSystem * list Tagged :=
  match arrival with
  | [] => (Finished, fs, [])
  | item :: later =>
      match (pool_task item).1 with
      | ReturnsNone => (RaisesTypeError, fs, [])
      | ReturnsPair seq_id project =>
          if truthy project then
            let project := default "" project in
            let started := (seq_id, EPrint (MsgStarted project seq_id)) in
            match monitor_job_status seq_id project (polls_of project) with
            | (StillPolling, polled) =>
                (PollsForever, fs, started :: tag seq_id polled)
            | (Returned status_json, polled) =>
                if truthy_json status_json then
                  let '(fs, fetched) :=
                    match status_json with
                    | Some j => fetch_model_results out_dir http_get gunzip fs seq_id j
                    | None => (fs, [])
                    end in
                  let '(outcome, fs, rest) := handle_completed later fs in
                  (outcome, fs,
                   started :: tag seq_id polled ++ tag seq_id fetched ++ rest)
                else
                  let '(outcome, fs, rest) := handle_completed later fs in
                  (outcome, fs, started :: tag seq_id polled ++ rest)
            end
          else handle_completed later fs
      end
  end.

(** [sequences]: the items of [self.sequences]; [arrival]: the same items in
    the order in which their futures complete. *)
Definition process_sequences (sequences arrival : list (string * string))
  (fs : FileSystem) : Run :=
  match sequences with
  | [] =>
      {| result := RaisesValueError; disk := fs; pool_traces := [];
         loop_trace := []; summary := [] |}
  | _ =>
      let '(outcome, fs, trace) := handle_completed arrival fs in
      {| result := outcome; disk := fs;
         pool_traces := map (fun item => (item.1, (pool_task item).2)) sequences;
         loop_trace := trace;
         summary :=
           MsgLoaded (length sequences)
             :: match outcome with
                | Finished => [MsgAllProcessed]
                | _ => []
                end |}
  end.

End Orchestrator.

(** ** _load_fasta_sequences (lines 63-78) *)

Module Text.

(** [str.isspace] on the characters below 256. *)
Definition is_space (c : ascii) : bool :=
  Re.in_range 9 13 c || Re.in_range 28 32 c
  || (N_of_ascii c =? 133)%N || (N_of_ascii c =? 160)%N.

(** [s.lstrip()] *)
Fixpoint lstrip (s : string) : string :=
  match s with
  | EmptyString => EmptyString
  | String c s' => if is_space c then lstrip s' else s
  end.

(** [s.rstrip()] *)
Fixpoint rstrip (s : string) : string :=
  match s with
  | EmptyString => EmptyString
  | String c s' =>
      match rstrip s' with
      | EmptyString => if is_space c then EmptyString else String c EmptyString
      | kept => String c kept
      end
  end.

(** [s.strip()] *)
Definition strip (s : string) : string := rstrip (lstrip s).

(** [s[1:]] *)
Definition tail (s : string) : string :=
  match s with
  | EmptyString => EmptyString
  | String _ s' => s'
  end.

(** The class [[A-Za-z?-]], whose complement is [valid_chars] of line 65. *)
Definition is_residue_char (c : ascii) : bool :=
  Re.in_range 65 90 c || Re.in_range 97 122 c
  || Ascii.eqb c "?" || Ascii.eqb c "-".

(** [re.sub(valid_chars, "", s)]: the characters of the class, in order. *)
Fixpoint sub_invalid (s : string) : string :=
  match s with
  | EmptyString => EmptyString
  | String c s' =>
      if is_residue_char c then String c (sub_invalid s') else sub_invalid s'
  end.

End Text.

(** A Python [dict] from [str] to [str]: the items in insertion order. *)
Definition Dict : Type := list (string * string).

(** [d[key]], [None] standing for [KeyError]. *)
Fixpoint dict_get (key : string) (d : Dict) : option string :=
  match d with
  | [] => None
  | (k, v) :: later => if String.eqb k key then Some v else dict_get key later
  end.

(** [d[key] = value]: a key that is present keeps its place. *)
Fixpoint dict_set (key value : string) (d : Dict) : Dict :=
  match d with
  | [] => [(key, value)]
  | (k, v) :: later =>
      if String.eqb k key then (k, value) :: later
      else (k, v) :: dict_set key value later
  end.

(** The variables of the loop: [seq_id] ([None] before the first header) and
    [sequences]. *)
Definition LoaderState : Type := option string * Dict.

(** The body of the loop of lines 70-76 for one line of the file; [None] is
    a [KeyError] raised by [sequences[seq_id] += ...]. *)
Definition load_line (state : LoaderState) (line : string)
  : option LoaderState :=
  let '(seq_id, sequences) := state in
  let line := Text.strip line in
  if Py.startswith line ">" then
    let seq_id := Text.tail line in
    Some (Some seq_id, dict_set seq_id "" sequences)
  else
    match seq_id with
    | Some id =>
        if negb (String.eqb id "") then
          match dict_get id sequences with
          | Some sequence =>
              Some (seq_id,
                    dict_set id (sequence +:+ Text.sub_invalid line) sequences)
          | None => None
          end
        else Some state
    | None => Some state
    end.

Fixpoint load_lines (state : LoaderState) (lines : list string)
  : option LoaderState :=
  match lines with
  | [] => Some state
  | line :: later =>
      match load_line state line with
      | Some state' => load_lines state' later
      | None => None
      end
  end.

(** [lines]: what iterating over the opened file yields. *)
Definition _load_fasta_sequences (lines : list string) : option Dict :=
  match load_lines (None, []) lines with
  | Some (_, sequences) => Some sequences
  | None => None
  end.

(** ** The artifact fetcher over all of Unicode (lines 128-191) *)

(** The sequence identifiers and the URLs reach the fetcher from outside the
    program as Python [str] values, sequences of code points.  The embedding
    above keeps to code points below 256, where [\d] is [0-9].  This module
    embeds lines 128-191 once more, over all code points, together with what
    the first embedding leaves out: the decimal digits that [\d] matches
    beyond [0-9] (the table of the Unicode database is a parameter), the
    JSON value [null] under [models], a value under a URL key that is not a
    string, and the order in which the workers of the pool take the lock. *)

Module Wide.

(** A Python [str]: its code points. *)
Abbreviation text := (list N).

(** A string literal of the script. *)
Definition of_string (s : string) : list N :=
  map N_of_ascii (list_ascii_of_string s).

(** [s.startswith(p)] *)
Definition startswith (s p : text) : bool := bool_decide (p `prefix_of` s).

(** [s.endswith(suf)] *)
Definition endswith (s suf : text) : bool := bool_decide (suf `suffix_of` s).

Fixpoint strip_prefix (p s : text) : option text :=
  match p, s with
  | [], _ => Some s
  | a :: p', b :: s' => if (a =? b)%N then strip_prefix p' s' else None
  | _ :: _, [] => None
  end.

(** [s.replace(old, "")] for a non-empty [old]. *)
Fixpoint remove_all (old s : text) (fuel : nat) : text :=
  match fuel with
  | O => s
  | S fuel' =>
      match strip_prefix old s with
      | Some rest => remove_all old rest fuel'
      | None =>
          match s with
          | [] => []
          | c :: s' => c :: remove_all old s' fuel'
          end
      end
  end.

Definition replace_with_empty (s old : text) : text :=
  remove_all old s (S (length s)).

(** [s.split("/")[-1]] *)
Fixpoint last_segment_go (cur s : text) : text :=
  match s with
  | [] => cur
  | c :: s' => if (c =? 47)%N then last_segment_go s' s' else last_segment_go cur s'
  end.

Definition last_segment (s : text) : text := last_segment_go s s.

(** [os.path.join(a, b)] of [posixpath]. *)
Definition path_join (a b : text) : text :=
  if startswith b (of_string "/") then b
  else if bool_decide (a = []) || endswith a (of_string "/") then a ++ b
  else a ++ of_string "/" ++ b.

Definition in_range (lo hi c : N) : bool := ((lo <=? c) && (c <=? hi))%N.

(** The class [[A-Za-z0-9_.-]]. *)
Definition is_safe_char (c : N) : bool :=
  in_range 65 90 c || in_range 97 122 c || in_range 48 57 c
  || (c =? 95)%N || (c =? 46)%N || (c =? 45)%N.

(** [re.sub(r'[^A-Za-z0-9_.-]', '_', filename)] *)
Definition sanitize_filename (filename : text) : text :=
  map (fun c => if is_safe_char c then c else 95%N) filename.

(** [f"{n:03}"] *)
Definition format_03 (n : nat) : text := of_string (Py.format_03 n).

(** The value of [status_json.get("models", [])]: the key is absent, or its
    value is [null], or it is a list. *)
Inductive Field (A : Type) : Type :=
| Absent
| Null
| Listed (value : A).
Arguments Absent {A}.
Arguments Null {A}.
Arguments Listed {A} value.

(** The JSON value found under a URL key: a string, or anything else. *)
Inductive UrlValue : Type :=
| UrlText (url : list N)
| NotText.

(** One entry of the list: a JSON object; a key that is absent is [None]. *)
Record Entry := {
  modelcif_url : option UrlValue;
  coordinates_url : option UrlValue
}.

Record Summary := { models : Field (list Entry) }.

Inductive Event : Type :=
| EGet (url : list N)
| ESaved (filename : list N)
| EExtracted (filename : list N)
| EDownloadFailed (url : list N)
| ENoModels (seq_id : list N).

Record FileSystem := {
  dirs : gset (list N);
  files : gmap (list N) (list Byte.byte)
}.

Definition makedirs (parents : list (list N)) (leaf : text) (fs : FileSystem)
  : FileSystem :=
  {| dirs := dirs fs ∪ list_to_set parents ∪ {[ leaf ]}; files := files fs |}.

Definition write_file (path : text) (content : list Byte.byte) (fs : FileSystem)
  : FileSystem :=
  {| dirs := dirs fs; files := <[ path := content ]> (files fs) |}.

Definition remove_file (path : text) (fs : FileSystem) : FileSystem :=
  {| dirs := dirs fs; files := delete path (files fs) |}.

(** One tuple of [model_data]: [(seq_id, url, model_number, file_type)]. *)
Definition ModelData : Type := list N * UrlValue * nat * string.

Fixpoint collect_model_data (seq_id : text) (i : nat) (entries : list Entry)
  : list ModelData :=
  match entries with
  | [] => []
  | model :: later =>
      (match modelcif_url model with
       | Some url => [(seq_id, url, i, "modelcif")]
       | None => []
       end)
      ++ (match coordinates_url model with
          | Some url => [(seq_id, url, i, "coordinates")]
          | None => []
          end)
      ++ collect_model_data seq_id (S i) later
  end.

(** What a call of [fetch_model_results] comes to: it returns, or
    [enumerate(None)] raises. *)
Inductive Fetched : Type :=
| Returns (fs : FileSystem) (events : list Event)
| RaisesTypeError.

Section Fetcher.

(** [\d]: the decimal digits of the Unicode database. *)
Variable is_decimal : N -> bool.
Variable out_dir : list N.
Variable http_get : list N -> Reply (list Byte.byte).
Variable gunzip : list Byte.byte -> list Byte.byte * bool.
(** The order in which the calls handed to the pool take the lock. *)
Variable schedule : list ModelData -> list ModelData.

Fixpoint span_digits (s : text) : list N * list N :=
  match s with
  | [] => ([], [])
  | c :: s' =>
      if is_decimal c then
        let (ds, rest) := span_digits s' in (c :: ds, rest)
      else ([], s)
  end.

Definition match_cluster_here (s : text) : option text :=
  match strip_prefix (of_string "cluster_") s with
  | Some rest =>
      match fst (span_digits rest) with
      | [] => None
      | ds => Some ds
      end
  | None => None
  end.

(** [re.search(r'cluster_(\d+)', s)], the value being [group(1)]. *)
Fixpoint search_cluster (s : text) : option text :=
  match match_cluster_here s with
  | Some ds => Some ds
  | None =>
      match s with
      | [] => None
      | _ :: s' => search_cluster s'
      end
  end.

Definition cluster_number (seq_id : text) : text :=
  match search_cluster seq_id with
  | Some ds => ds
  | None => of_string "unknown"
  end.

(** Line 167 *)
Definition cluster_folder (seq_id : text) (file_type : string) : text :=
  path_join
    (path_join out_dir
       (of_string "cluster_" ++ cluster_number seq_id ++ of_string "_model"))
    (of_string (sub_folder file_type)).

(** Line 171 *)
Definition safe_filename (seq_id : text) (model_number : nat)
  (file_type : string) : text :=
  sanitize_filename
    (of_string "cluster_" ++ cluster_number seq_id ++ of_string "_model_"
       ++ format_03 model_number ++ of_string (file_extension file_type)).

(** Line 172 *)
Definition destination (seq_id : text) (model_number : nat)
  (file_type : string) : text :=
  path_join (cluster_folder seq_id file_type)
    (safe_filename seq_id model_number file_type).

(** A URL that is not a string has no [split]: line 152 raises
    [AttributeError], which ends the call before it has done anything and
    stays in the worker's future. *)
Definition _download_and_extract (fs : FileSystem) (model_data : ModelData)
  : FileSystem * list Event :=
  let '(seq_id, url, model_number, file_type) := model_data in
  match url with
  | NotText => (fs, [])
  | UrlText url =>
      let raw_filename := last_segment url in
      let folder := cluster_folder seq_id file_type in
      let fs := makedirs
                  [out_dir;
                   path_join out_dir
                     (of_string "cluster_" ++ cluster_number seq_id
                        ++ of_string "_model")]
                  folder fs in
      let filename := destination seq_id model_number file_type in
      let failed := (fs, [EGet url; EDownloadFailed url]) in
      match http_get url with
      | Raises => failed
      | Answers status_code content =>
          if raise_for_status status_code then failed
          else
            let fs := write_file filename content fs in
            if endswith filename (of_string ".gz") then
              let extracted_filename :=
                replace_with_empty filename (of_string ".gz") in
              let '(plain, complete) := gunzip content in
              let fs := write_file extracted_filename plain fs in
              if complete then
                (remove_file filename fs, [EGet url; EExtracted extracted_filename])
              else (fs, [EGet url])
            else (fs, [EGet url; ESaved filename])
      end
  end.

(** The calls, run one after another in the given order: each body runs
    under the lock of line 174. *)
Fixpoint download_all (fs : FileSystem) (order : list ModelData)
  : FileSystem * list Event :=
  match order with
  | [] => (fs, [])
  | item :: later =>
      let '(fs, events) := _download_and_extract fs item in
      let '(fs, rest) := download_all fs later in
      (fs, events ++ rest)
  end.

Definition fetch_model_results (fs : FileSystem) (seq_id : text)
  (status_json : Summary) : Fetched :=
  match models status_json with
  | Null => RaisesTypeError
  | Absent => Returns fs [ENoModels seq_id]
  | Listed entries =>
      match collect_model_data seq_id 1 entries with
      | [] => Returns fs [ENoModels seq_id]
      | model_data =>
          let '(fs, events) := download_all fs (schedule model_data) in
          Returns fs events
      end
  end.

End Fetcher.

(** A table of decimal digits that holds, beside [0-9], the ARABIC-INDIC
    digits U+0660 to U+0669. *)
Definition ascii_and_arabic_indic (c : N) : bool :=
  in_range 48 57 c || in_range 1632 1641 c.

End Wide.

(** * Properties *)

(** ** Specification vocabulary *)

Fixpoint all_chars (p : ascii -> bool) (s : string) : bool :=
  match s with
  | EmptyString => true
  | String c s' => p c && all_chars p s'
  end.

(** The characters of the class [[A-Za-z0-9_.-]], written out. *)
Definition safe_alphabet : list ascii :=
  list_ascii_of_string
    "ABCDEFGHIJKLMNOPQRSTUVWXYZabcdefghijklmnopqrstuvwxyz0123456789_.-".

(** A non-empty run of decimal digits. *)
Definition digit_run (ds : string) : Prop :=
  ds <> "" /\ all_chars Re.is_digit ds = true.

Definition head_not_digit (s : string) : Prop :=
  match s with
  | EmptyString => True
  | String c _ => Re.is_digit c = false
  end.

(** [id] reads [pre], then the literal [cluster_], then the digits [ds], then
    [rest]. *)
Definition cluster_at (pre ds rest id : string) : Prop :=
  id = pre +:+ "cluster_" +:+ ds +:+ rest /\ digit_run ds.

Definition has_cluster_digits (id : string) : Prop :=
  exists pre ds rest, cluster_at pre ds rest id.

(** [ds] is the whole digit run after the leftmost [cluster_] that is
    followed by a digit. *)
Definition first_digit_run (id ds : string) : Prop :=
  exists pre rest,
    cluster_at pre ds rest id /\ head_not_digit rest /\
    forall pre' ds' rest', cluster_at pre' ds' rest' id ->
      (String.length pre <= String.length pre')%nat.

(** The events of [count] consecutive attempts, the first with loop value
    [attempt], each answered with status 429. *)
Fixpoint backoff_events (payload : SubmitPayload) (attempt : Z) (count : nat)
  : list Event :=
  match count with
  | O => []
  | S count' =>
      EPost payload :: EPrint (MsgRateLimit (attempt * 10))
        :: ESleep (attempt * 10) :: backoff_events payload (attempt + 1) count'
  end.

Definition is_post (e : Event) : bool :=
  match e with EPost _ => true | _ => false end.

(** The durations slept, in order. *)
Fixpoint sleeps (events : list Event) : list Z :=
  match events with
  | [] => []
  | ESleep seconds :: later => seconds :: sleeps later
  | _ :: later => sleeps later
  end.

Definition rate_limited {B : Type} (reply : Reply B) : Prop :=
  match reply with
  | Answers status_code _ => status_code = 429
  | Raises => False
  end.

(** The attempt raises a [RequestException]: the transport fails, or the
    response carries an error status that is not 429. *)
Definition attempt_fails {B : Type} (reply : Reply B) : Prop :=
  match reply with
  | Raises => True
  | Answers status_code _ =>
      status_code <> 429 /\ raise_for_status status_code = true
  end.

(** A reply after which the monitor keeps polling: a transport failure, an
    error status, or a status string that is neither [COMPLETED] nor
    [FAILED]. *)
Definition non_terminal (reply : Reply StatusJson) : Prop :=
  match reply with
  | Raises => True
  | Answers status_code status_json =>
      raise_for_status status_code = true
      \/ (status_or_unknown status_json <> "COMPLETED"
          /\ status_or_unknown status_json <> "FAILED")
  end.

(** The reply is a summary whose status string is [s]. *)
Definition observed (reply : Reply StatusJson) (s : string)
  (status_json : StatusJson) : Prop :=
  exists status_code,
    reply = Answers status_code status_json
    /\ raise_for_status status_code = false
    /\ status status_json = Some s.

(** The line the monitor prints for a reply. *)
Definition poll_line (project seq_id : string) (reply : Reply StatusJson)
  : Event :=
  match reply with
  | Raises => EPrint (MsgStatusError project)
  | Answers status_code status_json =>
      if raise_for_status status_code then EPrint (MsgStatusError project)
      else EPrint (MsgJobStatus project seq_id (status_or_unknown status_json))
  end.

(** [a] as the front of a joined path: with a separator unless [a] is
    empty or already ends with one. *)
Definition dir_prefix (a : string) : string :=
  if String.eqb a "" || Py.endswith a "/" then a else a +:+ "/".

(** A digit or a lower-case letter. *)
Definition plain_char (c : ascii) : bool :=
  Re.is_digit c || Re.in_range 97 122 c.

Definition is_not (c : ascii) (d : ascii) : bool := negb (Ascii.eqb d c).

(** [int(s)] for a string of decimal digits. *)
Definition parse_nat (s : string) : option nat :=
  match NilEmpty.uint_of_string s with
  | Some d => Some (Nat.of_uint d)
  | None => None
  end.

(** What tells two artifacts of a run apart on disk. *)
Definition artifact_key (model_data : ModelData) : string * string * nat :=
  let '(seq_id, _, model_number, file_type) := model_data in
  (cluster_number seq_id, sub_folder file_type, model_number).

(** All the downloads of a run whose completed jobs are [jobs]. *)
Definition run_model_data (jobs : list (string * StatusJson)) : list ModelData :=
  flat_map (fun job => model_data_of job.1 job.2) jobs.

(** [requests.get] or [raise_for_status] raises. *)
Definition download_fails (reply : Reply (list Byte.byte)) : Prop :=
  match reply with
  | Raises => True
  | Answers status_code _ => raise_for_status status_code = true
  end.

(** The tuples one manifest entry contributes at index [i]. *)
Definition entry_refs (seq_id : string) (i : nat) (model : Model)
  : list ModelData :=
  (match modelcif_url model with
   | Some url => [(seq_id, url, i, "modelcif")]
   | None => []
   end)
  ++ (match coordinates_url model with
      | Some url => [(seq_id, url, i, "coordinates")]
      | None => []
      end).

Definition model_number_of (model_data : ModelData) : nat := model_data.1.2.

(** The tuples of a list that carry model number [i]. *)
Definition refs_of_index (i : nat) (l : list ModelData) : list ModelData :=
  filter (fun model_data => model_number_of model_data = i) l.

Definition count_posts (events : list Event) : nat :=
  length (List.filter is_post events).

Definition is_status_poll (e : Event) : Prop :=
  match e with EGetStatus _ => True | _ => False end.

Definition is_download (e : Event) : Prop :=
  match e with EGet _ => True | _ => False end.

(** What one pass of the [as_completed] loop leaves in the trace for the
    sequence [seq_id]: events of that sequence only, the status polls before
    the downloads. *)
Definition pipeline_block (seq_id : string) (block : list Tagged) : Prop :=
  exists monitoring fetching,
    block = tag seq_id (monitoring ++ fetching)
    /\ Forall (fun e => ~ is_download e) monitoring
    /\ Forall (fun e => ~ is_status_poll e) fetching.

(** The trace is a sequence of blocks, one per item and in the order of the
    items: the block of an item ends before the block of the next begins. *)
Fixpoint in_blocks (items : list (string * string)) (trace : list Tagged)
  : Prop :=
  match items with
  | [] => trace = []
  | item :: later =>
      exists block rest,
        trace = block ++ rest /\ pipeline_block item.1 block
        /\ in_blocks later rest
  end.

(** ** Concrete services and inputs of the examples *)

Module Scenario.

(** The first bytes of a gzip stream. *)
Definition gz_bytes : list Byte.byte :=
  [Byte.x1f; Byte.x8b; Byte.x08; Byte.x00].

Definition cif_bytes : list Byte.byte := [Byte.x64; Byte.x61; Byte.x74; Byte.x61].

Definition gz_url : string :=
  "https://swissmodel.expasy.org/project/abc123/models/01.cif.gz".

(** A file server that answers every download with the gzip stream. *)
Definition serve_gz (url : string) : Reply (list Byte.byte) :=
  Answers 200 gz_bytes.

Definition gunzip_ok (content : list Byte.byte) : list Byte.byte * bool :=
  (cif_bytes, true).

(** A completed job with one model that has a structure file. *)
Definition one_cif_model : StatusJson :=
  {| status := Some "COMPLETED";
     models := Some [{| modelcif_url := Some gz_url; coordinates_url := None |}] |}.

(** Two submitted sequences. *)
Definition two_sequences : list (string * string) :=
  [("cluster_1_medoid", "MKTAYIAKQR"); ("cluster_2_medoid", "MSDNELQERL")].

(** The submission endpoint answers 429 to the first sequence every time and
    accepts the second. *)
Definition busy_for_first (seq_id : string) (attempt : Z) : Reply SubmitJson :=
  if String.eqb seq_id "cluster_1_medoid"
  then Answers 429 {| project_id := None |}
  else Answers 200 {| project_id := Some "P2" |}.

(** The submission endpoint accepts every sequence at once. *)
Definition accepts_all (seq_id : string) (attempt : Z) : Reply SubmitJson :=
  Answers 200
    {| project_id :=
         Some (if String.eqb seq_id "cluster_1_medoid" then "P1" else "P2") |}.

(** The submission endpoint is rate-limited twice and then breaks. *)
Definition breaks_on_third (attempt : Z) : Reply SubmitJson :=
  if attempt <? 3 then Answers 429 {| project_id := None |}
  else Answers 503 {| project_id := None |}.

(** Every job is running at the first tick and completed at the second. *)
Definition completes_on_second (project : string) : list (Reply StatusJson) :=
  [Answers 200 {| status := Some "RUNNING"; models := None |};
   Answers 200 one_cif_model].

(** Two completed jobs whose identifiers differ and carry the same cluster
    number. *)
Definition same_cluster_jobs : list (string * StatusJson) :=
  [("cluster_3_chainA", one_cif_model); ("cluster_3_chainB", one_cif_model)].

Definition distinct_cluster_jobs : list (string * StatusJson) :=
  [("cluster_1_medoid", one_cif_model); ("cluster_2_medoid", one_cif_model)].

(** A manifest whose second model has both a structure file and a
    coordinate file. *)
Definition second_has_both : StatusJson :=
  {| status := Some "COMPLETED";
     models :=
       Some [{| modelcif_url := Some "https://host/m/01.cif";
                coordinates_url := None |};
             {| modelcif_url := Some "https://host/m/02.cif";
                coordinates_url := Some "https://host/m/02.pdb" |}] |}.

(** A file server that cannot be reached. *)
Definition unreachable (url : string) : Reply (list Byte.byte) := Raises.

(** The run of [two_sequences], completing in the order of submission, with
    the submission replies [post_of]. *)
Definition run_with (post_of : string -> Z -> Reply SubmitJson) : Run :=
  process_sequences "out" serve_gz gunzip_ok "TEMPLATE" post_of
    completes_on_second two_sequences two_sequences empty_fs.

Definition payload_of (item : string * string) : SubmitPayload :=
  submit_payload "TEMPLATE" item.1 item.2.

End Scenario.

(** ** Vocabulary of the further properties *)

(** The stripped line starts with [>]. *)
Definition is_header (line : string) : Prop :=
  Py.startswith (Text.strip line) ">" = true.

(** The identifier a header line introduces. *)
Definition header_id (line : string) : string := Text.tail (Text.strip line).

(** What a sequence line contributes. *)
Definition cleaned (line : string) : string :=
  Text.sub_invalid (Text.strip line).

Fixpoint join_all (parts : list string) : string :=
  match parts with
  | [] => EmptyString
  | part :: later => part +:+ join_all later
  end.

Definition keys (d : Dict) : list string := map fst d.

(** The characters of the class [[A-Za-z?-]], written out. *)
Definition residue_alphabet : list ascii :=
  list_ascii_of_string
    "ABCDEFGHIJKLMNOPQRSTUVWXYZabcdefghijklmnopqrstuvwxyz?-".

(** What the loader keeps true between two lines: the current identifier,
    when it is not empty, is a key; keys are distinct; values are cleaned. *)
Definition loader_invariant (state : LoaderState) : Prop :=
  (forall id, state.1 = Some id -> id <> "" -> is_Some (dict_get id state.2))
  /\ NoDup (keys state.2)
  /\ Forall (fun item => all_chars Text.is_residue_char item.2 = true) state.2.

(** The seconds slept in total. *)
Definition total_sleep (events : list Event) : Z :=
  fold_right Z.add 0 (sleeps events).

(** The submission endpoint is rate-limited once and then accepts. *)
Definition accepts_second_attempt (attempt : Z) : Reply SubmitJson :=
  if attempt =? 1 then Answers 429 {| project_id := None |}
  else Answers 201 {| project_id := Some "P7" |}.

(** What one tick of the monitor does for a reply: sleep, poll, print. *)
Definition tick (project seq_id : string) (reply : Reply StatusJson)
  : list Event :=
  [ESleep 10; EGetStatus project; poll_line project seq_id reply].

(** The URLs requested by [requests.get], in order. *)
Fixpoint requested (events : list Event) : list string :=
  match events with
  | [] => []
  | EGet url :: later => url :: requested later
  | _ :: later => requested later
  end.

Definition url_of (model_data : ModelData) : string := model_data.1.1.2.

(** A job that fails at the second tick. *)
Definition fails_on_second (project : string) : list (Reply StatusJson) :=
  [Raises; Answers 200 {| status := Some "FAILED"; models := None |};
   Answers 200 {| status := Some "COMPLETED"; models := None |}].

(** A file server on which the structure file of the second model is
    missing. *)
Definition second_cif_missing (url : string) : Reply (list Byte.byte) :=
  if String.eqb url "https://host/m/02.cif" then Answers 404 []
  else Answers 200 Scenario.cif_bytes.

(** A manifest whose entries carry no URL. *)
Definition no_urls : StatusJson :=
  {| status := Some "COMPLETED";
     models := Some [{| modelcif_url := None; coordinates_url := None |}] |}.

(** The status endpoint reports the job of every project as failed. *)
Definition always_failed (project : string) : list (Reply StatusJson) :=
  [Answers 200 {| status := Some "FAILED"; models := None |}].

(** A single file already on disk. *)
Definition old_fs : FileSystem :=
  {| dirs := {[ "out" ]}; files := {[ "out/notes.txt" := Scenario.cif_bytes ]} |}.

(** The submission endpoint answers with a redirect status and a body that
    names a project. *)
Definition moved_permanently (attempt : Z) : Reply SubmitJson :=
  Answers 301 {| project_id := Some "P301" |}.

(** Two sequences of cluster 3, each accepted under a project of its own,
    each job completed at the first tick with one structure file, the two
    files differing in content. *)
Definition chains : list (string * string) :=
  [("cluster_3_chainA", "MKTAYIAKQR"); ("cluster_3_chainB", "MSDNELQERL")].

Definition accepts_chains (seq_id : string) (attempt : Z) : Reply SubmitJson :=
  Answers 200
    {| project_id :=
         Some (if String.eqb seq_id "cluster_3_chainA" then "PA" else "PB") |}.

Definition completed_at_once (project : string) : list (Reply StatusJson) :=
  [Answers 200
     {| status := Some "COMPLETED";
        models :=
          Some [{| modelcif_url := Some ("https://host/" +:+ project +:+ "/01.cif");
                   coordinates_url := None |}] |}].

Definition serve_chains (url : string) : Reply (list Byte.byte) :=
  if String.eqb url "https://host/PA/01.cif"
  then Answers 200 Scenario.cif_bytes
  else Answers 200 Scenario.gz_bytes.

(** Every summary with status [COMPLETED] that the status endpoint gives
    carries a list under [models]. *)
Definition summaries_list_models
  (polls_of : string -> list (Reply StatusJson)) : Prop :=
  forall project status_code status_json,
    In (Answers status_code status_json) (polls_of project) ->
    status status_json = Some "COMPLETED" ->
    exists entries, models status_json = Some entries.

(** ** The loop over the completed futures, as a relation *)

Section LoopSpecification.

Variable out_dir : string.
Variable http_get : string -> Reply (list Byte.byte).
Variable gunzip : list Byte.byte -> list Byte.byte * bool.
Variable template : string.
Variable post_of : string -> Z -> Reply SubmitJson.
Variable polls_of : string -> list (Reply StatusJson).

(** Fetching the manifest [j] of [seq_id] from the output tree [fs]: one
    printed line when the manifest names no artifact; otherwise the downloads
    of all its artifacts, one after another in some order. *)
Inductive fetches (fs : FileSystem) (seq_id : string) (j : StatusJson)
  : FileSystem -> list Event -> Prop :=
| fetches_nothing :
    model_data_of seq_id j = [] ->
    fetches fs seq_id j fs [EPrint (MsgNoModels seq_id)]
| fetches_all (order : list ModelData) :
    model_data_of seq_id j <> [] ->
    Permutation order (model_data_of seq_id j) ->
    fetches fs seq_id j
      (download_all out_dir http_get gunzip fs order).1
      (download_all out_dir http_get gunzip fs order).2.

(** [follows arrival fs outcome fs' trace]: the calling thread takes the
    completed submissions in the order [arrival]; a submission that came back
    as [None] ends the run; one without a project identifier is passed over;
    for the others the thread itself monitors the job and, when the job
    completed, fetches its manifest, before it turns to the next one. *)
Inductive follows
  : list (string * string) -> FileSystem -> RunResult -> FileSystem
    -> list Tagged -> Prop :=
| follows_end (fs : FileSystem) :
    follows [] fs Finished fs []
| follows_unpack_error (item : string * string) (later : list (string * string))
    (fs : FileSystem) :
    (pool_task template post_of item).1 = ReturnsNone ->
    follows (item :: later) fs RaisesTypeError fs []
| follows_no_project (item : string * string) (later : list (string * string))
    (fs fs' : FileSystem) (project : option string) (outcome : RunResult)
    (trace : list Tagged) :
    (pool_task template post_of item).1 = ReturnsPair item.1 project ->
    truthy project = false ->
    follows later fs outcome fs' trace ->
    follows (item :: later) fs outcome fs' trace
| follows_polling (item : string * string) (later : list (string * string))
    (fs : FileSystem) (p : string) (polled : list Event) :
    (pool_task template post_of item).1 = ReturnsPair item.1 (Some p) ->
    p <> "" ->
    monitor_job_status item.1 p (polls_of p) = (StillPolling, polled) ->
    follows (item :: later) fs PollsForever fs
      (tag item.1 (EPrint (MsgStarted p item.1) :: polled))
| follows_failed_job (item : string * string) (later : list (string * string))
    (fs fs' : FileSystem) (p : string) (polled : list Event)
    (outcome : RunResult) (trace : list Tagged) :
    (pool_task template post_of item).1 = ReturnsPair item.1 (Some p) ->
    p <> "" ->
    monitor_job_status item.1 p (polls_of p) = (Returned None, polled) ->
    follows later fs outcome fs' trace ->
    follows (item :: later) fs outcome fs'
      (tag item.1 (EPrint (MsgStarted p item.1) :: polled) ++ trace)
| follows_completed_job (item : string * string)
    (later : list (string * string)) (fs fs1 fs' : FileSystem) (p : string)
    (polled downloads : list Event) (j : StatusJson) (outcome : RunResult)
    (trace : list Tagged) :
    (pool_task template post_of item).1 = ReturnsPair item.1 (Some p) ->
    p <> "" ->
    monitor_job_status item.1 p (polls_of p) = (Returned (Some j), polled) ->
    fetches fs item.1 j fs1 downloads ->
    follows later fs1 outcome fs' trace ->
    follows (item :: later) fs outcome fs'
      (tag item.1 (EPrint (MsgStarted p item.1) :: polled ++ downloads)
         ++ trace).

End LoopSpecification.

(** ** Vocabulary for the fetcher over code points *)

Module WideSpec.

(** [out_dir] with the separator [os.path.join] puts after it. *)
Definition dir_prefix (out_dir : list N) : list N :=
  if bool_decide (out_dir = []) || Wide.endswith out_dir (Wide.of_string "/")
  then out_dir
  else out_dir ++ Wide.of_string "/".

(** All the characters are of the class [[A-Za-z0-9_.-]]. *)
Definition safe (s : list N) : Prop :=
  Forall (fun c => Wide.is_safe_char c = true) s.

Definition model_number_of (model_data : Wide.ModelData) : nat :=
  model_data.1.2.

Definition file_type_of (model_data : Wide.ModelData) : string :=
  model_data.2.

(** The tuples of a list that carry model number [i]. *)
Definition refs_of_index (i : nat) (l : list Wide.ModelData)
  : list Wide.ModelData :=
  filter (fun model_data => model_number_of model_data = i) l.

(** The URLs requested in a trace, in the order of the requests. *)
Definition requested (events : list Wide.Event) : list (list N) :=
  omap (fun e => match e with Wide.EGet url => Some url | _ => None end)
    events.

(** The URLs of the tuples whose URL is a string. *)
Definition text_urls (l : list Wide.ModelData) : list (list N) :=
  omap (fun model_data =>
          match model_data.1.1.2 with
          | Wide.UrlText url => Some url
          | Wide.NotText => None
          end) l.

(** What the download of a tuple brings: the body of the answer, when the
    URL is a string and neither [requests.get] nor [raise_for_status]
    raises. *)
Definition delivered (http_get : list N -> Reply (list Byte.byte))
  (model_data : Wide.ModelData) : option (list Byte.byte) :=
  match model_data.1.1.2 with
  | Wide.UrlText url =>
      match http_get url with
      | Answers status_code content =>
          if raise_for_status status_code then None else Some content
      | Raises => None
      end
  | Wide.NotText => None
  end.

(** The path line 172 computes for a tuple. *)
Definition destination_of (is_decimal : N -> bool) (out_dir : list N)
  (model_data : Wide.ModelData) : list N :=
  Wide.destination is_decimal out_dir model_data.1.1.1
    (model_number_of model_data) (file_type_of model_data).

(** The pool may run the downloads in any order: it runs each of them
    once. *)
Definition reorders (schedule : list Wide.ModelData -> list Wide.ModelData)
  : Prop :=
  forall l, Permutation (schedule l) l.

(** An identifier whose cluster number is written with the ARABIC-INDIC
    DIGIT THREE, U+0663. *)
Definition arabic_indic_id : list N :=
  Wide.of_string "cluster_" ++ [1635%N] ++ Wide.of_string "_medoid".

Definition cif_url : list N := Wide.of_string "https://host/m/02.cif".
Definition pdb_url : list N := Wide.of_string "https://host/m/02.pdb".

(** A manifest whose first model has a structure file only and whose second
    model has both files. *)
Definition second_has_both : Wide.Summary :=
  {| Wide.models :=
       Wide.Listed
         [{| Wide.modelcif_url :=
               Some (Wide.UrlText (Wide.of_string "https://host/m/01.cif"));
             Wide.coordinates_url := None |};
          {| Wide.modelcif_url := Some (Wide.UrlText cif_url);
             Wide.coordinates_url := Some (Wide.UrlText pdb_url) |}] |}.

(** A file server that has the coordinate files only: a structure file is
    answered 404. *)
Definition serves_pdb_only (url : list N) : Reply (list Byte.byte) :=
  if Wide.endswith url (Wide.of_string ".pdb")
  then Answers 200 Scenario.cif_bytes
  else Answers 404 [].

(** A file server that has every file. *)
Definition serves_all (url : list N) : Reply (list Byte.byte) :=
  Answers 200 Scenario.cif_bytes.

Definition empty_fs : Wide.FileSystem :=
  {| Wide.dirs := ∅; Wide.files := ∅ |}.

End WideSpec.

Module Sample.

(** A file with a stray line, two records, the first of them repeated. *)
Definition fasta_lines : list string :=
  ["; comment";
   ">cluster_1_medoid"; "MKT AY*"; "iakqr ";
   ">cluster_2_medoid"; "MSDNE-LQ?";
   ">cluster_1_medoid"; " ACD1"].

End Sample.

(** ** The primitives on small inputs *)

Example cluster_number_medoid : cluster_number "cluster_3_medoid" = "3".
Proof. reflexivity. Qed.

Example cluster_number_second : cluster_number "cluster_x|cluster_12a" = "12".
Proof. reflexivity. Qed.

Example cluster_number_absent : cluster_number "sp|P12345" = "unknown".
Proof. reflexivity. Qed.

Example format_03_1 : Py.format_03 1 = "001".
Proof. reflexivity. Qed.

Example format_03_1000 : Py.format_03 1000 = "1000".
Proof. reflexivity. Qed.

Example path_join_plain : Py.path_join "out" "CIF" = "out/CIF".
Proof. reflexivity. Qed.

Example path_join_slash : Py.path_join "out/" "CIF" = "out/CIF".
Proof. reflexivity. Qed.

Example endswith_gz : Py.endswith "model.cif.gz" ".gz" = true.
Proof. reflexivity. Qed.

Example replace_gz : Py.replace_with_empty "a.gz/b.cif.gz" ".gz" = "a/b.cif".
Proof. reflexivity. Qed.

Example endswith_cif : Py.endswith "out/cluster_3_model/CIF/cluster_3_model_001.cif" ".gz" = false.
Proof. reflexivity. Qed.

Example last_segment_url : Py.last_segment Scenario.gz_url = "01.cif.gz".
Proof. reflexivity. Qed.

(** ** Strings *)

Local Arguments String.append : simpl nomatch.

Lemma append_empty_r (s : string) : s +:+ "" = s.
Proof. induction s as [|c s IH]; simpl; [reflexivity | now rewrite IH]. Qed.

Lemma append_assoc (a b c : string) : (a +:+ b) +:+ c = a +:+ b +:+ c.
Proof. induction a as [|x a IH]; simpl; [reflexivity | now rewrite IH]. Qed.

Lemma length_append (a b : string) :
  String.length (a +:+ b) = (String.length a + String.length b)%nat.
Proof. induction a as [|x a IH]; simpl; [reflexivity | now rewrite IH]. Qed.

Lemma strip_prefix_append (p r : string) : Py.strip_prefix p (p +:+ r) = Some r.
Proof.
  induction p as [|c p IH]; simpl; [now destruct r |].
  now rewrite Ascii.eqb_refl.
Qed.

Lemma strip_prefix_inv (p s r : string) :
  Py.strip_prefix p s = Some r -> s = p +:+ r.
Proof.
  revert s; induction p as [|c p IH]; intros s H.
  - destruct s; simpl in H; now inversion H.
  - destruct s as [|d s]; simpl in H; [discriminate |].
    destruct (Ascii.eqb_spec c d) as [->|]; [|discriminate].
    simpl. f_equal. now apply IH.
Qed.

Lemma append_same_length (a a' b b' : string) :
  a +:+ b = a' +:+ b' -> String.length a = String.length a' ->
  a = a' /\ b = b'.
Proof.
  revert a'; induction a as [|x a IH]; intros [|y a'] H L; simpl in *;
    try discriminate; [now split |].
  injection H as -> H. destruct (IH a' H) as [-> ->]; [lia | now split].
Qed.

Lemma all_chars_append (p : ascii -> bool) (a b : string) :
  all_chars p (a +:+ b) = all_chars p a && all_chars p b.
Proof.
  induction a as [|x a IH]; simpl; [reflexivity |].
  now rewrite IH, andb_assoc.
Qed.

Lemma all_chars_impl (p q : ascii -> bool) (s : string) :
  (forall c, p c = true -> q c = true) ->
  all_chars p s = true -> all_chars q s = true.
Proof.
  intros Hpq. induction s as [|c s IH]; simpl; [reflexivity |].
  intros [Hc Hs]%andb_true_iff. rewrite (Hpq c Hc). now apply IH.
Qed.

(** ** sanitize_filename *)

Lemma is_safe_char_alphabet (c : ascii) :
  Re.is_safe_char c = true <-> In c safe_alphabet.
Proof.
  destruct c as [[] [] [] [] [] [] [] []]; vm_compute; split; intros H;
    try discriminate; try reflexivity; try tauto;
    repeat (destruct H as [H|H]; [discriminate H |]); contradiction.
Qed.

Lemma is_digit_safe (c : ascii) : Re.is_digit c = true -> Re.is_safe_char c = true.
Proof.
  unfold Re.is_safe_char, Re.is_digit. intros ->.
  now rewrite !orb_true_r.
Qed.

Lemma sub_unsafe_append (a b : string) :
  Re.sub_unsafe (a +:+ b) = Re.sub_unsafe a +:+ Re.sub_unsafe b.
Proof. induction a as [|x a IH]; simpl; [reflexivity | now rewrite IH]. Qed.

Lemma sub_unsafe_all_safe (s : string) :
  all_chars Re.is_safe_char (Re.sub_unsafe s) = true.
Proof.
  induction s as [|c s IH]; simpl; [reflexivity |].
  rewrite IH, andb_true_r.
  destruct (Re.is_safe_char c) eqn:E; [exact E | reflexivity].
Qed.

Lemma sub_unsafe_fixes_safe (s : string) :
  all_chars Re.is_safe_char s = true -> Re.sub_unsafe s = s.
Proof.
  induction s as [|c s IH]; simpl; [reflexivity |].
  intros [Hc Hs]%andb_true_iff. now rewrite Hc, IH.
Qed.

Lemma all_chars_In (p : ascii -> bool) (s : string) (c : ascii) :
  all_chars p s = true -> In c (list_ascii_of_string s) -> p c = true.
Proof.
  induction s as [|x s IH]; simpl; [contradiction |].
  intros [Hx Hs]%andb_true_iff [<-|Hin]; [exact Hx | now apply IH].
Qed.

(** C9: [sanitize_filename] is idempotent, and every character of its output
    is one of [A-Z], [a-z], [0-9], [_], [.], [-]. *)
Theorem C9_sanitize_idempotent_and_safe (filename : string) :
  sanitize_filename (sanitize_filename filename) = sanitize_filename filename
  /\ forall c, In c (list_ascii_of_string (sanitize_filename filename)) ->
       In c safe_alphabet.
Proof.
  unfold sanitize_filename. split.
  - apply sub_unsafe_fixes_safe, sub_unsafe_all_safe.
  - intros c Hc. apply is_safe_char_alphabet.
    exact (all_chars_In _ _ _ (sub_unsafe_all_safe filename) Hc).
Qed.

(** ** The cluster number *)

Lemma span_digits_spec (s : string) :
  s = (Re.span_digits s).1 +:+ (Re.span_digits s).2
  /\ all_chars Re.is_digit (Re.span_digits s).1 = true
  /\ head_not_digit (Re.span_digits s).2.
Proof.
  induction s as [|c s (IH1 & IH2 & IH3)]; simpl; [easy |].
  destruct (Re.is_digit c) eqn:E.
  - destruct (Re.span_digits s) as [ds rest]; simpl in *.
    rewrite E, IH2. now rewrite <- IH1.
  - simpl. easy.
Qed.

Lemma span_digits_append (ds rest : string) :
  all_chars Re.is_digit ds = true -> head_not_digit rest ->
  Re.span_digits (ds +:+ rest) = (ds, rest).
Proof.
  intros Hds Hrest. induction ds as [|c ds IH]; simpl in *.
  - destruct rest as [|r rest]; simpl in *; [reflexivity | now rewrite Hrest].
  - apply andb_true_iff in Hds as [Hc Hds]. now rewrite Hc, IH.
Qed.

Lemma span_digits_nonempty (ds rest : string) :
  digit_run ds -> (Re.span_digits (ds +:+ rest)).1 <> "".
Proof.
  intros [Hne Hds]. destruct ds as [|c ds]; [contradiction |].
  simpl in *. apply andb_true_iff in Hds as [-> _].
  now destruct (Re.span_digits (ds +:+ rest)).
Qed.

Lemma match_cluster_here_some (s ds : string) :
  Re.match_cluster_here s = Some ds ->
  exists rest, cluster_at "" ds rest s /\ head_not_digit rest.
Proof.
  unfold Re.match_cluster_here.
  destruct (Py.strip_prefix "cluster_" s) as [tail|] eqn:Hp; [|discriminate].
  apply strip_prefix_inv in Hp. subst s.
  destruct (span_digits_spec tail) as (Heq & Hds & Hrest).
  destruct (Re.span_digits tail) as [ds' rest]; simpl in *.
  destruct ds' as [|c ds']; [discriminate |].
  intros [= <-]. exists rest. split; [|exact Hrest].
  split; [now rewrite Heq | split; [discriminate | exact Hds]].
Qed.

Lemma match_cluster_here_none (s ds rest : string) :
  Re.match_cluster_here s = None -> ~ cluster_at "" ds rest s.
Proof.
  unfold Re.match_cluster_here. intros H [-> Hrun].
  change ("" +:+ "cluster_" +:+ ds +:+ rest)
    with ("cluster_" +:+ ds +:+ rest) in H.
  rewrite strip_prefix_append in H.
  pose proof (span_digits_nonempty ds rest Hrun) as Hne.
  destruct (Re.span_digits (ds +:+ rest)).1; [contradiction | discriminate].
Qed.

Lemma cluster_at_cons (c : ascii) (pre ds rest s : string) :
  cluster_at pre ds rest s -> cluster_at (String c pre) ds rest (String c s).
Proof. intros [-> H]. now split. Qed.

Lemma search_cluster_some (id ds : string) :
  Re.search_cluster id = Some ds -> first_digit_run id ds.
Proof.
  induction id as [|c id IH]; simpl.
  - destruct (Re.match_cluster_here "") eqn:E; [discriminate E | discriminate].
  - destruct (Re.match_cluster_here (String c id)) as [ds0|] eqn:E.
    + intros [= ->]. apply match_cluster_here_some in E as (rest & Hat & Hrest).
      exists "", rest. split; [exact Hat | split; [exact Hrest |]].
      intros; simpl; lia.
    + intros H. destruct (IH H) as (pre & rest & Hat & Hrest & Hmin).
      exists (String c pre), rest.
      split; [now apply cluster_at_cons | split; [exact Hrest |]].
      intros [|c' pre'] ds' rest' Hat'.
      * exfalso. exact (match_cluster_here_none _ _ _ E Hat').
      * destruct Hat' as [Heq Hrun]. simpl in Heq. injection Heq as _ Heq.
        simpl. apply le_n_S. apply (Hmin pre' ds' rest'). now split.
Qed.

Lemma search_cluster_none (id : string) :
  Re.search_cluster id = None -> ~ has_cluster_digits id.
Proof.
  induction id as [|c id IH]; simpl.
  - intros _ (pre & ds & rest & Heq & Hrun).
    destruct pre; simpl in Heq; discriminate.
  - destruct (Re.match_cluster_here (String c id)) eqn:E; [discriminate |].
    intros H (pre & ds & rest & Hat).
    destruct pre as [|c' pre].
    + exact (match_cluster_here_none _ _ _ E Hat).
    + destruct Hat as [Heq Hrun]. simpl in Heq. injection Heq as _ Heq.
      apply (IH H). exists pre, ds, rest. now split.
Qed.

Lemma search_cluster_unfold (s : string) :
  Re.search_cluster s =
  match Re.match_cluster_here s with
  | Some ds => Some ds
  | None =>
      match s with
      | EmptyString => None
      | String _ s' => Re.search_cluster s'
      end
  end.
Proof. now destruct s. Qed.

Lemma first_digit_run_search (id ds : string) :
  first_digit_run id ds -> Re.search_cluster id = Some ds.
Proof.
  intros (pre & rest & Hat & Hrest & Hmin).
  revert id Hat Hmin. induction pre as [|c pre IH]; intros id [-> Hrun] Hmin.
  - change ("" +:+ "cluster_" +:+ ds +:+ rest)
      with ("cluster_" +:+ ds +:+ rest).
    assert (Re.match_cluster_here ("cluster_" +:+ ds +:+ rest) = Some ds) as E.
    { unfold Re.match_cluster_here. rewrite strip_prefix_append.
      rewrite span_digits_append by (apply Hrun || exact Hrest).
      simpl. destruct ds; [now destruct Hrun | reflexivity]. }
    now rewrite search_cluster_unfold, E.
  - change (String c pre +:+ "cluster_" +:+ ds +:+ rest)
      with (String c (pre +:+ "cluster_" +:+ ds +:+ rest)) in *.
    assert (Re.match_cluster_here
              (String c (pre +:+ "cluster_" +:+ ds +:+ rest)) = None) as E.
    { destruct (Re.match_cluster_here _) as [ds0|] eqn:E; [|reflexivity].
      apply match_cluster_here_some in E as (rest0 & Hat0 & _).
      specialize (Hmin "" ds0 rest0 Hat0). simpl in Hmin. lia. }
    rewrite search_cluster_unfold, E. apply IH; [now split |].
    intros pre' ds' rest' Hat'.
    specialize (Hmin (String c pre') ds' rest' (cluster_at_cons c _ _ _ _ Hat')).
    simpl in Hmin. lia.
Qed.

(** C5: when the identifier contains [cluster_] immediately followed by
    digits, the cluster number is the whole digit run after the leftmost such
    place; for every other identifier it is the sentinel [unknown]. *)
Theorem C5_cluster_number (seq_id : string) :
  (has_cluster_digits seq_id -> exists ds, first_digit_run seq_id ds)
  /\ (forall ds, first_digit_run seq_id ds -> cluster_number seq_id = ds)
  /\ (~ has_cluster_digits seq_id -> cluster_number seq_id = "unknown").
Proof.
  unfold cluster_number. repeat split.
  - intros Hhas. destruct (Re.search_cluster seq_id) as [ds|] eqn:E.
    + exists ds. now apply search_cluster_some.
    + now apply search_cluster_none in E.
  - intros ds Hrun. now rewrite (first_digit_run_search _ _ Hrun).
  - intros Hno. destruct (Re.search_cluster seq_id) as [ds|] eqn:E; [|reflexivity].
    exfalso. apply Hno. apply search_cluster_some in E as (pre & rest & Hat & _).
    now exists pre, ds, rest.
Qed.

(** ** submit_request *)

Section SubmitFacts.

Variable template : string.
Variable post : Z -> Reply SubmitJson.
Variables seq_id sequence : string.

Let payload := submit_payload template seq_id sequence.
Let loop := submit_loop template post seq_id sequence.

Lemma submit_loop_body (attempt : Z) :
  loop attempt =
  if decide (attempt <= 5) then
    match post attempt with
    | Raises =>
        (ReturnsPair seq_id None, [EPost payload; EPrint (MsgRequestError seq_id)])
    | Answers status_code body =>
        if status_code =? 429 then
          let '(result, events) := loop (attempt + 1) in
          (result,
           EPost payload :: EPrint (MsgRateLimit (attempt * 10))
             :: ESleep (attempt * 10) :: events)
        else if raise_for_status status_code then
          (ReturnsPair seq_id None,
           [EPost payload; EPrint (MsgRequestError seq_id)])
        else (ReturnsPair seq_id (project_id body), [EPost payload])
    end
  else (ReturnsNone, []).
Proof.
  unfold loop. rewrite submit_loop_equation_1.
  destruct (decide (attempt <= 5)); simpl; [|reflexivity].
  destruct (post attempt); reflexivity.
Qed.

(** While the service answers 429 the loop sleeps and tries again. *)
Lemma submit_loop_backoff (count : nat) (attempt : Z) :
  attempt + Z.of_nat count <= 6 ->
  (forall k, attempt <= k < attempt + Z.of_nat count -> rate_limited (post k)) ->
  loop attempt =
  ((loop (attempt + Z.of_nat count)).1,
   backoff_events payload attempt count ++ (loop (attempt + Z.of_nat count)).2).
Proof.
  revert attempt. induction count as [|count IH]; intros attempt Hle H429.
  - rewrite Z.add_0_r. simpl. now destruct (loop attempt).
  - rewrite submit_loop_body. destruct (decide (attempt <= 5)); [|lia].
    pose proof (H429 attempt ltac:(lia)) as Hnow.
    destruct (post attempt) as [|code body]; [contradiction |].
    simpl in Hnow. subst code. simpl.
    rewrite (IH (attempt + 1)) by (intros; try apply H429; lia).
    replace (attempt + 1 + Z.of_nat count) with (attempt + Z.of_nat (S count))
      by lia.
    reflexivity.
Qed.

(** The value is the pair with the caller's identifier, or [None]. *)
Lemma submit_loop_value (attempt : Z) :
  (loop attempt).1 = ReturnsNone
  \/ exists project, (loop attempt).1 = ReturnsPair seq_id project.
Proof.
  remember (Z.to_nat (6 - attempt)) as fuel eqn:Hfuel.
  revert attempt Hfuel.
  induction fuel as [|fuel IH]; intros attempt Hfuel;
    rewrite submit_loop_body; destruct (decide (attempt <= 5)); try lia;
    try (now left).
  destruct (post attempt) as [|code body]; [right; now eexists |].
  destruct (code =? 429).
  - destruct (IH (attempt + 1) ltac:(lia)) as [H|[p H]];
      destruct (loop (attempt + 1)); simpl in *; subst; eauto.
  - destruct (raise_for_status code); right; now eexists.
Qed.

(** A pooled submission never polls the status endpoint and never
    downloads. *)
Lemma submit_loop_events (attempt : Z) :
  Forall (fun e =>
            match e with EGetStatus _ | EGet _ => False | _ => True end)
    (loop attempt).2.
Proof.
  remember (Z.to_nat (6 - attempt)) as fuel eqn:Hfuel.
  revert attempt Hfuel.
  induction fuel as [|fuel IH]; intros attempt Hfuel;
    rewrite submit_loop_body; destruct (decide (attempt <= 5)); try lia;
    try (now constructor).
  destruct (post attempt) as [|code body]; [now repeat constructor |].
  destruct (code =? 429).
  - specialize (IH (attempt + 1) ltac:(lia)).
    destruct (loop (attempt + 1)); simpl in *. now repeat constructor.
  - destruct (raise_for_status code); now repeat constructor.
Qed.

(** Five answers of 429 in a row end the loop, after sleeping 10, 20, 30, 40
    and 50 seconds, and the function ends without a [return]. *)
Lemma submit_request_exhausted :
  (forall k, 1 <= k <= 5 -> rate_limited (post k)) ->
  submit_request template post seq_id sequence
  = (ReturnsNone, backoff_events payload 1 5).
Proof.
  intros H429. unfold submit_request. fold loop.
  rewrite (submit_loop_backoff 5 1) by (intros; try apply H429; lia).
  change (1 + Z.of_nat 5) with 6.
  rewrite (submit_loop_body 6). destruct (decide (6 <= 5)); [lia |].
  reflexivity.
Qed.

(** The first attempt that fails otherwise ends the call at once. *)
Lemma submit_request_fails (k : nat) :
  Z.of_nat k < 5 ->
  (forall j, 1 <= j < 1 + Z.of_nat k -> rate_limited (post j)) ->
  attempt_fails (post (1 + Z.of_nat k)) ->
  submit_request template post seq_id sequence
  = (ReturnsPair seq_id None,
     backoff_events payload 1 k
       ++ [EPost payload; EPrint (MsgRequestError seq_id)]).
Proof.
  intros Hk H429 Hfail. unfold submit_request. fold loop.
  rewrite (submit_loop_backoff k 1) by (intros; try apply H429; lia).
  rewrite (submit_loop_body (1 + Z.of_nat k)).
  destruct (decide (1 + Z.of_nat k <= 5)); [|lia].
  destruct (post (1 + Z.of_nat k)) as [|code body]; simpl; [reflexivity |].
  destruct Hfail as [Hne ->]. apply Z.eqb_neq in Hne. now rewrite Hne.
Qed.

End SubmitFacts.

(** ** monitor_job_status *)

Section MonitorFacts.

Variables seq_id project : string.

Let monitor := monitor_job_status seq_id project.

Lemma monitor_polls_again (reply : Reply StatusJson)
  (later : list (Reply StatusJson)) :
  non_terminal reply ->
  monitor (reply :: later)
  = ((monitor later).1,
     ESleep 10 :: EGetStatus project :: poll_line project seq_id reply
       :: (monitor later).2).
Proof.
  unfold monitor. intros Hnt. simpl.
  destruct (monitor_job_status seq_id project later) as [outcome rest].
  destruct reply as [|code j]; simpl in *; [reflexivity |].
  destruct (raise_for_status code); [reflexivity |].
  destruct Hnt as [Hbad|[Hc Hf]]; [discriminate Hbad |].
  apply String.eqb_neq in Hc, Hf. now rewrite Hc, Hf.
Qed.

Lemma monitor_returns (reply : Reply StatusJson)
  (later : list (Reply StatusJson)) (s : string) (j : StatusJson) :
  observed reply s j -> s = "COMPLETED" \/ s = "FAILED" ->
  monitor (reply :: later)
  = (Returned (if String.eqb s "COMPLETED" then Some j else None),
     [ESleep 10; EGetStatus project; EPrint (MsgJobStatus project seq_id s)]).
Proof.
  unfold monitor. intros (code & -> & Hok & Hs) Hterm. simpl.
  destruct (monitor_job_status seq_id project later) as [outcome rest].
  rewrite Hok. unfold status_or_unknown. rewrite Hs.
  now destruct Hterm as [-> | ->].
Qed.

Lemma monitor_skips (early later : list (Reply StatusJson)) :
  Forall non_terminal early -> (monitor (early ++ later)).1 = (monitor later).1.
Proof.
  induction 1 as [|reply early Hnt _ IH]; [reflexivity |].
  change ((reply :: early) ++ later) with (reply :: early ++ later).
  now rewrite monitor_polls_again.
Qed.

Lemma terminal_or_not (reply : Reply StatusJson) :
  non_terminal reply
  \/ exists s j, observed reply s j /\ (s = "COMPLETED" \/ s = "FAILED").
Proof.
  destruct reply as [|code j]; [now left |]. simpl.
  destruct (raise_for_status code) eqn:Hcode; [now left; left |].
  unfold status_or_unknown.
  destruct (status j) as [s|] eqn:Hs; [|left; right; split; discriminate].
  destruct (String.eqb_spec s "COMPLETED") as [->|Hc].
  { right. exists "COMPLETED", j. split; [now exists code | now left]. }
  destruct (String.eqb_spec s "FAILED") as [->|Hf].
  { right. exists "FAILED", j. split; [now exists code | now right]. }
  left; right. now split.
Qed.

Lemma monitor_manifest_inv (replies : list (Reply StatusJson)) (j : StatusJson) :
  (monitor replies).1 = Returned (Some j) ->
  exists early reply later,
    replies = early ++ reply :: later /\ Forall non_terminal early
    /\ observed reply "COMPLETED" j.
Proof.
  induction replies as [|reply replies IH]; [discriminate |].
  destruct (terminal_or_not reply) as [Hnt | (s & j' & Hobs & Hterm)].
  - rewrite monitor_polls_again by exact Hnt. simpl. intros H.
    destruct (IH H) as (early & r & later & -> & Hearly & Hobs).
    exists (reply :: early), r, later. now repeat split; [constructor |].
  - rewrite (monitor_returns _ _ s j') by assumption. simpl.
    destruct Hterm as [-> | ->]; simpl; [|discriminate].
    intros [= ->]. now exists [], reply, replies.
Qed.

(** C6: the monitor returns the summary exactly when the first status that
    ends the polling is [COMPLETED]; it returns no result when that status is
    [FAILED]; a missing or unrecognized status string, an error status and a
    transport failure are logged and followed by the next tick, so that a job
    is never given up. *)
Theorem C6_monitor_job_status :
  (forall replies j,
     (monitor replies).1 = Returned (Some j) <->
     exists early reply later,
       replies = early ++ reply :: later /\ Forall non_terminal early
       /\ observed reply "COMPLETED" j)
  /\ (forall early reply later j,
        Forall non_terminal early -> observed reply "FAILED" j ->
        (monitor (early ++ reply :: later)).1 = Returned None)
  /\ (forall status_code entries,
        non_terminal (Answers status_code {| status := None; models := entries |}))
  /\ (forall reply later,
        non_terminal reply ->
        monitor (reply :: later)
        = ((monitor later).1,
           ESleep 10 :: EGetStatus project :: poll_line project seq_id reply
             :: (monitor later).2))
  /\ (forall replies,
        Forall non_terminal replies -> (monitor replies).1 = StillPolling).
Proof.
  repeat split.
  - apply monitor_manifest_inv.
  - intros (early & reply & later & -> & Hearly & Hobs).
    rewrite monitor_skips by exact Hearly.
    now rewrite (monitor_returns _ _ "COMPLETED" j) by (auto).
  - intros early reply later j Hearly Hobs.
    rewrite monitor_skips by exact Hearly.
    now rewrite (monitor_returns _ _ "FAILED" j) by (auto).
  - intros code entries. right. split; discriminate.
  - apply monitor_polls_again.
  - intros replies Hall.
    rewrite <- (app_nil_r replies). now rewrite monitor_skips.
Qed.

End MonitorFacts.

(** ** Paths and file names *)

Lemma eqb_length_neq (s t : string) :
  String.length s <> String.length t -> String.eqb s t = false.
Proof. intros H. apply String.eqb_neq. congruence. Qed.

Lemma endswith_append_short (a b suf : string) :
  (String.length suf <= String.length b)%nat ->
  Py.endswith (a +:+ b) suf = Py.endswith b suf.
Proof.
  intros Hlen. induction a as [|x a IH]; [reflexivity |].
  change (String x a +:+ b) with (String x (a +:+ b)).
  cbn [Py.endswith]. rewrite IH, eqb_length_neq; [reflexivity |].
  simpl. rewrite length_append. lia.
Qed.

Lemma path_join_relative (a b : string) :
  Py.startswith b "/" = false -> Py.path_join a b = dir_prefix a +:+ b.
Proof.
  intros Hb. unfold Py.path_join, dir_prefix. rewrite Hb.
  destruct (String.eqb a "" || Py.endswith a "/"); [reflexivity |].
  now rewrite append_assoc.
Qed.

Lemma dir_prefix_append (a b : string) :
  b <> "" -> Py.endswith b "/" = false ->
  dir_prefix (a +:+ b) = a +:+ b +:+ "/".
Proof.
  intros Hne Hb. unfold dir_prefix.
  rewrite endswith_append_short, Hb.
  - rewrite eqb_length_neq; [now rewrite append_assoc |].
    rewrite length_append. destruct b; [contradiction | simpl; lia].
  - destruct b; [contradiction | simpl; lia].
Qed.

Lemma append_split_char (c : ascii) (a a' x y : string) :
  all_chars (is_not c) a = true -> all_chars (is_not c) a' = true ->
  a +:+ String c x = a' +:+ String c y -> a = a' /\ x = y.
Proof.
  revert a'. induction a as [|d a IH]; intros [|d' a'] Ha Ha' H;
    simpl in *.
  - now injection H.
  - injection H as <- _. apply andb_true_iff in Ha' as [Hd _].
    unfold is_not in Hd. now rewrite Ascii.eqb_refl in Hd.
  - injection H as -> _. apply andb_true_iff in Ha as [Hd _].
    unfold is_not in Hd. now rewrite Ascii.eqb_refl in Hd.
  - injection H as -> H.
    apply andb_true_iff in Ha as [_ Ha]. apply andb_true_iff in Ha' as [_ Ha'].
    destruct (IH a' Ha Ha' H) as [-> ->]. now split.
Qed.

(** *** The decimal rendering of the model number *)

Lemma string_of_uint_digits (d : Decimal.uint) :
  all_chars Re.is_digit (NilEmpty.string_of_uint d) = true.
Proof. induction d; simpl; try rewrite IHd; reflexivity. Qed.

Lemma zeros_digits (k : nat) : all_chars Re.is_digit (Py.zeros k) = true.
Proof. induction k as [|k IH]; simpl; [reflexivity | exact IH]. Qed.

Lemma format_03_digits (n : nat) : all_chars Re.is_digit (Py.format_03 n) = true.
Proof.
  unfold Py.format_03, Py.str_of_nat.
  now rewrite all_chars_append, zeros_digits, string_of_uint_digits.
Qed.

Lemma parse_nat_zeros (k : nat) (s : string) :
  parse_nat (Py.zeros k +:+ s) = parse_nat s.
Proof.
  induction k as [|k IH]; [reflexivity |].
  change (Py.zeros (S k) +:+ s) with (String "0" (Py.zeros k +:+ s)).
  unfold parse_nat in *. simpl.
  destruct (NilEmpty.uint_of_string (Py.zeros k +:+ s)) as [d|];
    destruct (NilEmpty.uint_of_string s) as [d'|]; simpl in *;
    try discriminate; try reflexivity.
  injection IH as IH. f_equal. rewrite <- IH. reflexivity.
Qed.

Lemma parse_nat_format_03 (n : nat) : parse_nat (Py.format_03 n) = Some n.
Proof.
  unfold Py.format_03. rewrite parse_nat_zeros.
  unfold parse_nat, Py.str_of_nat.
  now rewrite NilEmpty.usu, DecimalNat.Unsigned.of_to.
Qed.

Lemma format_03_inj (n m : nat) : Py.format_03 n = Py.format_03 m -> n = m.
Proof.
  intros H. pose proof (parse_nat_format_03 n) as Hn.
  rewrite H, parse_nat_format_03 in Hn. now injection Hn.
Qed.

(** *** The cluster number as a path component *)

Lemma cluster_number_plain (seq_id : string) :
  all_chars plain_char (cluster_number seq_id) = true.
Proof.
  unfold cluster_number.
  destruct (Re.search_cluster seq_id) as [ds|] eqn:E; [|reflexivity].
  apply search_cluster_some in E as (pre & rest & [_ [_ Hds]] & _).
  revert Hds. apply all_chars_impl. intros c Hc.
  unfold plain_char. now rewrite Hc.
Qed.

Lemma plain_char_safe (c : ascii) : plain_char c = true -> Re.is_safe_char c = true.
Proof.
  unfold plain_char, Re.is_safe_char, Re.is_digit.
  intros [->| ->]%orb_true_iff; now rewrite ?orb_true_r.
Qed.

Lemma plain_char_is_not (x c : ascii) :
  plain_char x = false -> plain_char c = true -> is_not x c = true.
Proof.
  intros Hx Hc. unfold is_not.
  destruct (Ascii.eqb_spec c x) as [->|]; [congruence | reflexivity].
Qed.

Lemma is_digit_is_not (x c : ascii) :
  Re.is_digit x = false -> Re.is_digit c = true -> is_not x c = true.
Proof.
  intros Hx Hc. unfold is_not.
  destruct (Ascii.eqb_spec c x) as [->|]; [congruence | reflexivity].
Qed.

(** *** Where an artifact is written *)

Section DestinationFacts.

Variable out_dir : string.

Lemma sub_folder_cases (file_type : string) :
  (sub_folder file_type = "CIF" /\ file_extension file_type = ".cif")
  \/ (sub_folder file_type = "PDB" /\ file_extension file_type = ".pdb").
Proof.
  unfold sub_folder, file_extension.
  destruct (String.eqb file_type "modelcif"); [left | right]; now split.
Qed.

Lemma safe_filename_plain (seq_id : string) (n : nat) (file_type : string) :
  safe_filename seq_id n file_type
  = "cluster_" +:+ cluster_number seq_id +:+ "_model_"
      +:+ Py.format_03 n +:+ file_extension file_type.
Proof.
  unfold safe_filename, sanitize_filename. apply sub_unsafe_fixes_safe.
  rewrite !all_chars_append.
  rewrite (all_chars_impl _ _ _ plain_char_safe (cluster_number_plain seq_id)).
  rewrite (all_chars_impl _ _ _ is_digit_safe (format_03_digits n)).
  destruct (sub_folder_cases file_type) as [[_ ->] | [_ ->]]; reflexivity.
Qed.

Lemma cluster_folder_flat (seq_id file_type : string) :
  cluster_folder out_dir seq_id file_type
  = dir_prefix out_dir +:+ "cluster_" +:+ cluster_number seq_id +:+ "_model"
      +:+ "/" +:+ sub_folder file_type.
Proof.
  unfold cluster_folder.
  rewrite (path_join_relative out_dir) by reflexivity.
  rewrite path_join_relative
    by (destruct (sub_folder_cases file_type) as [[-> _] | [-> _]]; reflexivity).
  rewrite <- !append_assoc.
  rewrite dir_prefix_append by (reflexivity || discriminate).
  now rewrite !append_assoc.
Qed.

Lemma destination_flat (seq_id url : string) (n : nat) (file_type : string) :
  destination out_dir (seq_id, url, n, file_type)
  = dir_prefix out_dir +:+ "cluster_" +:+ cluster_number seq_id +:+ "_model"
      +:+ "/" +:+ sub_folder file_type +:+ "/"
      +:+ "cluster_" +:+ cluster_number seq_id +:+ "_model_"
      +:+ Py.format_03 n +:+ file_extension file_type.
Proof.
  unfold destination.
  rewrite safe_filename_plain, cluster_folder_flat.
  rewrite path_join_relative by reflexivity.
  rewrite <- !append_assoc.
  rewrite dir_prefix_append
    by (destruct (sub_folder_cases file_type) as [[-> _] | [-> _]];
        reflexivity || discriminate).
  now rewrite !append_assoc.
Qed.

(** The path handed to [open] ends in [.cif] or [.pdb], whatever the URL: the
    test of line 181 is never true. *)
Lemma destination_not_gz (model_data : ModelData) :
  Py.endswith (destination out_dir model_data) ".gz" = false.
Proof.
  destruct model_data as [[[seq_id url] n] file_type].
  rewrite destination_flat, <- !append_assoc.
  rewrite endswith_append_short;
    destruct (sub_folder_cases file_type) as [[_ ->] | [_ ->]];
    reflexivity || (simpl; lia).
Qed.

(** Equal destinations mean equal cluster number, kind and model number. *)
Lemma destination_key (a b : ModelData) :
  destination out_dir a = destination out_dir b ->
  artifact_key a = artifact_key b.
Proof.
  destruct a as [[[id1 url1] n1] ft1], b as [[[id2 url2] n2] ft2].
  rewrite !destination_flat. unfold artifact_key.
  intros H. apply String.app_inj in H.
  change ("cluster_" +:+ ?x) with (String.append "cluster_" x) in H.
  apply (String.app_inj "cluster_") in H.
  apply (append_split_char "_") in H as [HN H];
    try (apply (all_chars_impl plain_char);
         [intros c; now apply plain_char_is_not | apply cluster_number_plain]).
  rewrite HN in *.
  apply (String.app_inj "model/") in H.
  assert (sub_folder ft1 = sub_folder ft2 /\
          Py.format_03 n1 +:+ file_extension ft1
          = Py.format_03 n2 +:+ file_extension ft2) as [Hsub Hrest].
  { destruct (sub_folder_cases ft1) as [[S1 E1] | [S1 E1]];
      destruct (sub_folder_cases ft2) as [[S2 E2] | [S2 E2]];
      rewrite S1, S2, E1, E2 in *;
      try discriminate H; split; try reflexivity.
    - apply (String.app_inj "CIF/cluster_") in H.
      apply (String.app_inj (cluster_number id2)) in H.
      now apply (String.app_inj "_model_") in H.
    - apply (String.app_inj "PDB/cluster_") in H.
      apply (String.app_inj (cluster_number id2)) in H.
      now apply (String.app_inj "_model_") in H. }
  rewrite Hsub. do 2 f_equal.
  apply format_03_inj.
  assert (exists ext, file_extension ft1 = String "." ext
                      /\ file_extension ft2 = String "." ext) as (ext & E1 & E2).
  { destruct (sub_folder_cases ft1) as [[S1 ->] | [S1 ->]];
      destruct (sub_folder_cases ft2) as [[S2 ->] | [S2 ->]];
      try (rewrite S1, S2 in Hsub; discriminate Hsub); eauto. }
  rewrite E1, E2 in Hrest.
  apply (append_split_char ".") in Hrest as [Hfmt _]; [exact Hfmt | |];
    (apply (all_chars_impl Re.is_digit);
     [intros c; now apply is_digit_is_not | apply format_03_digits]).
Qed.

End DestinationFacts.

(** ** _download_and_extract *)

Section DownloadFacts.

Variable out_dir : string.
Variable http_get : string -> Reply (list Byte.byte).
Variable gunzip : list Byte.byte -> list Byte.byte * bool.

Let download := _download_and_extract out_dir http_get gunzip.

(** A download that succeeds is written as it arrived, under the final name,
    and the decompressor is not consulted. *)
Lemma download_saved (fs : FileSystem) (model_data : ModelData)
  (status_code : Z) (content : list Byte.byte) :
  http_get model_data.1.1.2 = Answers status_code content ->
  raise_for_status status_code = false ->
  files (download fs model_data).1
  = <[ destination out_dir model_data := content ]> (files fs)
  /\ (download fs model_data).2
     = [EGet model_data.1.1.2; EPrint (MsgSaved (destination out_dir model_data))].
Proof.
  destruct model_data as [[[seq_id url] n] file_type]. cbn [fst snd].
  intros Hget Hok. unfold download, _download_and_extract.
  cbv beta iota zeta. rewrite Hget, Hok.
  now rewrite (destination_not_gz out_dir (seq_id, url, n, file_type)).
Qed.

(** C10: when the download fails (the request raises, or the response has an
    error status) no file is created, overwritten or removed: the files on
    disk are those from before the call, and the failure is logged. *)
Theorem C10_failed_download_leaves_files (fs : FileSystem)
  (seq_id url : string) (model_number : nat) (file_type : string) :
  download_fails (http_get url) ->
  files (download fs (seq_id, url, model_number, file_type)).1 = files fs
  /\ (download fs (seq_id, url, model_number, file_type)).2
     = [EGet url; EPrint (MsgDownloadFailed url)].
Proof.
  intros Hfail. unfold download, _download_and_extract.
  destruct (http_get url) as [|code content]; [now split |].
  simpl in Hfail. rewrite Hfail. now split.
Qed.

End DownloadFacts.

(** C3, on a URL that ends in [.gz]: the compressed bytes are written as they
    are to the final [.cif] path and reported as saved; nothing is
    decompressed and no temporary file is involved, whatever the
    decompressor would have produced. *)
Theorem C3_gzip_url_written_compressed
  (gunzip : list Byte.byte -> list Byte.byte * bool) :
  Py.endswith Scenario.gz_url ".gz" = true
  /\ files (_download_and_extract "out" Scenario.serve_gz gunzip empty_fs
              ("cluster_3_medoid", Scenario.gz_url, 1%nat, "modelcif")).1
     = {[ "out/cluster_3_model/CIF/cluster_3_model_001.cif" := Scenario.gz_bytes ]}
  /\ (_download_and_extract "out" Scenario.serve_gz gunzip empty_fs
        ("cluster_3_medoid", Scenario.gz_url, 1%nat, "modelcif")).2
     = [EGet Scenario.gz_url;
        EPrint (MsgSaved "out/cluster_3_model/CIF/cluster_3_model_001.cif")].
Proof.
  split; [reflexivity |].
  destruct (download_saved "out" Scenario.serve_gz gunzip empty_fs
              ("cluster_3_medoid", Scenario.gz_url, 1%nat, "modelcif")
              200 Scenario.gz_bytes eq_refl eq_refl) as [Hfiles Hevents].
  split; [rewrite Hfiles | rewrite Hevents]; reflexivity.
Qed.

(** ** fetch_model_results *)

Lemma collect_model_data_cons (seq_id : string) (i : nat) (model : Model)
  (later : list Model) :
  collect_model_data seq_id i (model :: later)
  = entry_refs seq_id i model ++ collect_model_data seq_id (S i) later.
Proof. unfold entry_refs. simpl. now rewrite <- app_assoc. Qed.

Lemma entry_refs_shape (seq_id : string) (i : nat) (model : Model)
  (model_data : ModelData) :
  In model_data (entry_refs seq_id i model) ->
  model_data.1.1.1 = seq_id /\ model_number_of model_data = i.
Proof.
  unfold entry_refs.
  destruct (modelcif_url model), (coordinates_url model); simpl;
    intuition (subst; auto).
Qed.

Lemma collect_model_data_shape (seq_id : string) (entries : list Model) (i : nat)
  (model_data : ModelData) :
  In model_data (collect_model_data seq_id i entries) ->
  model_data.1.1.1 = seq_id /\ (i <= model_number_of model_data)%nat.
Proof.
  revert i. induction entries as [|model later IH]; intros i; [contradiction |].
  rewrite collect_model_data_cons. intros [H|H]%in_app_or.
  - apply entry_refs_shape in H as [-> ->]. split; [reflexivity | lia].
  - apply IH in H as [-> H]. split; [reflexivity | lia].
Qed.

Lemma refs_of_index_all (i : nat) (l : list ModelData) :
  (forall model_data, In model_data l -> model_number_of model_data = i) ->
  refs_of_index i l = l.
Proof.
  unfold refs_of_index. induction l as [|x l IH]; intros H; [reflexivity |].
  rewrite filter_cons_True by (apply H; now left).
  f_equal. apply IH. intros y Hy. apply H. now right.
Qed.

Lemma refs_of_index_none (i : nat) (l : list ModelData) :
  (forall model_data, In model_data l -> model_number_of model_data <> i) ->
  refs_of_index i l = [].
Proof.
  unfold refs_of_index. induction l as [|x l IH]; intros H; [reflexivity |].
  rewrite filter_cons_False by (apply H; now left).
  apply IH. intros y Hy. apply H. now right.
Qed.

Lemma refs_of_index_app (i : nat) (l1 l2 : list ModelData) :
  refs_of_index i (l1 ++ l2) = refs_of_index i l1 ++ refs_of_index i l2.
Proof. apply filter_app. Qed.

(** The tuples with model number [i + k] are those of the entry at position
    [k]. *)
Lemma refs_of_index_collect (seq_id : string) (entries : list Model) (i k : nat)
  (model : Model) :
  entries !! k = Some model ->
  refs_of_index (i + k) (collect_model_data seq_id i entries)
  = entry_refs seq_id (i + k) model.
Proof.
  revert i k. induction entries as [|first later IH]; intros i k Hk;
    [discriminate |].
  rewrite collect_model_data_cons, refs_of_index_app.
  destruct k as [|k]; simpl in Hk.
  - injection Hk as ->. rewrite Nat.add_0_r.
    rewrite refs_of_index_all
      by (intros md Hmd; now apply entry_refs_shape in Hmd).
    rewrite refs_of_index_none; [apply app_nil_r |].
    intros md Hmd. apply collect_model_data_shape in Hmd. lia.
  - rewrite refs_of_index_none.
    + replace (i + S k)%nat with (S i + k)%nat by lia. now apply IH.
    + intros md Hmd. apply entry_refs_shape in Hmd. lia.
Qed.

(** For an identifier of characters below U+0100: a manifest entry at model
    index [i] with both URLs yields exactly the two tuples of that index, one
    per kind; their files are written under
    [<out>/cluster_<N>_model/CIF/cluster_<N>_model_<iii>.cif] and
    [<out>/cluster_<N>_model/PDB/cluster_<N>_model_<iii>.pdb], where [iii] is
    the index padded with zeros to three digits. *)
Lemma two_refs_and_layout_below_256 (out_dir seq_id : string)
  (status_json : StatusJson) (entries : list Model) (k : nat) (model : Model)
  (cif_url pdb_url : string) :
  models status_json = Some entries ->
  entries !! k = Some model ->
  modelcif_url model = Some cif_url ->
  coordinates_url model = Some pdb_url ->
  let i := S k in
  let N := cluster_number seq_id in
  let cif := (seq_id, cif_url, i, "modelcif") in
  let pdb := (seq_id, pdb_url, i, "coordinates") in
  refs_of_index i (model_data_of seq_id status_json) = [cif; pdb]
  /\ destination out_dir cif
     = dir_prefix out_dir +:+ "cluster_" +:+ N +:+ "_model/CIF/"
         +:+ "cluster_" +:+ N +:+ "_model_" +:+ Py.format_03 i +:+ ".cif"
  /\ destination out_dir pdb
     = dir_prefix out_dir +:+ "cluster_" +:+ N +:+ "_model/PDB/"
         +:+ "cluster_" +:+ N +:+ "_model_" +:+ Py.format_03 i +:+ ".pdb"
  /\ (forall http_get gunzip fs status_code content model_data,
        In model_data [cif; pdb] ->
        http_get model_data.1.1.2 = Answers status_code content ->
        raise_for_status status_code = false ->
        files (_download_and_extract out_dir http_get gunzip fs model_data).1
          !! destination out_dir model_data = Some content)
  /\ Py.format_03 1 = "001" /\ Py.format_03 23 = "023"
  /\ Py.format_03 104 = "104".
Proof.
  intros Hmodels Hk Hcif Hpdb i N cif pdb.
  split; [|split; [|split; [|split]]].
  - unfold model_data_of. rewrite Hmodels. simpl default.
    change i with (1 + k)%nat. rewrite (refs_of_index_collect _ _ _ _ model Hk).
    unfold entry_refs. now rewrite Hcif, Hpdb.
  - unfold cif. rewrite destination_flat.
    change (sub_folder "modelcif") with "CIF".
    change (file_extension "modelcif") with ".cif".
    reflexivity.
  - unfold pdb. rewrite destination_flat.
    change (sub_folder "coordinates") with "PDB".
    change (file_extension "coordinates") with ".pdb".
    reflexivity.
  - intros http_get gunzip fs code content md _ Hget Hok.
    destruct (download_saved out_dir http_get gunzip fs md code content Hget Hok)
      as [-> _].
    apply lookup_insert_eq.
  - now repeat split.
Qed.

(** ** Distinct destinations *)

Lemma NoDup_map_finer {A B C : Type} (f : A -> B) (g : A -> C) (l : list A) :
  (forall x y, f x = f y -> g x = g y) ->
  NoDup (map g l) -> NoDup (map f l).
Proof.
  intros Hfg. induction l as [|x l IH]; simpl; [constructor |].
  rewrite !NoDup_cons. intros [Hx Hl]. split; [|now apply IH].
  intros (y & Hy & Hin)%list_elem_of_In%in_map_iff.
  apply Hx, list_elem_of_In. rewrite <- (Hfg _ _ Hy). now apply in_map.
Qed.

Lemma entry_refs_keys (seq_id : string) (i : nat) (model : Model) :
  NoDup (map artifact_key (entry_refs seq_id i model)).
Proof.
  unfold entry_refs.
  destruct (modelcif_url model), (coordinates_url model); simpl;
    repeat (apply NoDup_cons; split); try apply NoDup_nil_2;
    rewrite ?list_elem_of_In; simpl; try tauto.
  intros [H|[]]. discriminate H.
Qed.

Lemma collect_model_data_keys (seq_id : string) (entries : list Model) (i : nat) :
  NoDup (map artifact_key (collect_model_data seq_id i entries)).
Proof.
  revert i. induction entries as [|model later IH]; intros i; [constructor |].
  rewrite collect_model_data_cons, map_app. apply NoDup_app.
  split; [apply entry_refs_keys | split; [|apply IH]].
  intros key. rewrite !list_elem_of_In.
  intros (a & <- & Ha)%in_map_iff (b & Hab & Hb)%in_map_iff.
  apply entry_refs_shape in Ha as [_ Ha].
  apply collect_model_data_shape in Hb as [_ Hb].
  destruct a as [[[? ?] na] ?], b as [[[? ?] nb] ?].
  unfold model_number_of in *. simpl in *. injection Hab as _ _ Hn. lia.
Qed.

Lemma run_model_data_owner (jobs : list (string * StatusJson))
  (model_data : ModelData) :
  In model_data (run_model_data jobs) ->
  exists job, In job jobs /\ model_data.1.1.1 = job.1.
Proof.
  unfold run_model_data. intros (job & Hjob & Hin)%in_flat_map.
  exists job. split; [exact Hjob |].
  now apply collect_model_data_shape in Hin as [-> _].
Qed.

Lemma run_model_data_keys (jobs : list (string * StatusJson)) :
  NoDup (map (fun job => cluster_number job.1) jobs) ->
  NoDup (map artifact_key (run_model_data jobs)).
Proof.
  induction jobs as [|job jobs IH]; [constructor |].
  simpl. rewrite NoDup_cons, map_app. intros [Hnew Hrest].
  apply NoDup_app.
  split; [apply collect_model_data_keys | split; [|now apply IH]].
  intros key. rewrite !list_elem_of_In.
  intros (a & <- & Ha)%in_map_iff (b & Hab & Hb)%in_map_iff.
  apply collect_model_data_shape in Ha as [Ha _].
  apply run_model_data_owner in Hb as (other & Hother & Hb).
  apply Hnew. rewrite list_elem_of_In. apply in_map_iff.
  exists other. split; [|exact Hother].
  destruct a as [[[ida ?] ?] ?], b as [[[idb ?] ?] ?].
  simpl in *. injection Hab as HN _ _. congruence.
Qed.

(** In a run whose completed sequences carry pairwise different cluster
    numbers (in particular within one sequence), no two downloads are written
    to the same path. *)
Lemma distinct_clusters_distinct_destinations (out_dir : string)
  (jobs : list (string * StatusJson)) :
  NoDup (map (fun job => cluster_number job.1) jobs) ->
  NoDup (map (destination out_dir) (run_model_data jobs)).
Proof.
  intros Hjobs.
  apply (NoDup_map_finer _ artifact_key); [apply destination_key |].
  now apply run_model_data_keys.
Qed.

(** Two sequences with different identifiers and the same cluster number
    have their first structure file written to one and the same path. *)
Lemma same_cluster_same_destination :
  NoDup (map fst Scenario.same_cluster_jobs)
  /\ ~ NoDup (map (destination "out")
                (run_model_data Scenario.same_cluster_jobs)).
Proof.
  split.
  - repeat (apply NoDup_cons; split); try apply NoDup_nil_2;
      rewrite ?list_elem_of_In; simpl; try tauto.
    intros [H|[]]. discriminate H.
  - intros H. vm_compute in H. apply NoDup_cons in H as [H _].
    apply H. now left.
Qed.

(** ** process_sequences *)

Lemma count_posts_app (a b : list Event) :
  count_posts (a ++ b) = (count_posts a + count_posts b)%nat.
Proof. unfold count_posts. now rewrite List.filter_app, length_app. Qed.

Lemma count_posts_backoff (payload : SubmitPayload) (count : nat) (attempt : Z) :
  count_posts (backoff_events payload attempt count) = count.
Proof.
  revert attempt. induction count as [|count IH]; intros attempt;
    [reflexivity |].
  unfold count_posts in *. simpl. now rewrite IH.
Qed.

Lemma monitor_never_downloads (seq_id project : string)
  (replies : list (Reply StatusJson)) :
  Forall (fun e => ~ is_download e)
    (monitor_job_status seq_id project replies).2.
Proof.
  induction replies as [|reply later IH]; simpl; [constructor |].
  destruct (monitor_job_status seq_id project later) as [outcome rest].
  simpl in IH.
  destruct reply as [|code j]; simpl;
    [|destruct (raise_for_status code); simpl;
      [|destruct (_ || _); simpl]];
    repeat (constructor; [now simpl |]); assumption || constructor.
Qed.

Section FetchNeverPolls.

Variable out_dir : string.
Variable http_get : string -> Reply (list Byte.byte).
Variable gunzip : list Byte.byte -> list Byte.byte * bool.

Lemma download_never_polls (fs : FileSystem) (model_data : ModelData) :
  Forall (fun e => ~ is_status_poll e)
    (_download_and_extract out_dir http_get gunzip fs model_data).2.
Proof.
  destruct model_data as [[[seq_id url] n] file_type].
  unfold _download_and_extract. cbv beta iota zeta.
  destruct (http_get url) as [|code content];
    [|destruct (raise_for_status code);
      [|destruct (Py.endswith _ _);
        [destruct (gunzip content) as [plain []] |]]];
    simpl; repeat (constructor; [now simpl |]); constructor.
Qed.

Lemma download_all_never_polls (model_data : list ModelData) (fs : FileSystem) :
  Forall (fun e => ~ is_status_poll e)
    (download_all out_dir http_get gunzip fs model_data).2.
Proof.
  revert fs. induction model_data as [|item later IH]; intros fs; simpl;
    [constructor |].
  pose proof (download_never_polls fs item) as Hitem.
  destruct (_download_and_extract out_dir http_get gunzip fs item) as [fs1 events].
  specialize (IH fs1).
  destruct (download_all out_dir http_get gunzip fs1 later) as [fs2 rest].
  simpl in *. now apply Forall_app.
Qed.

Lemma fetch_never_polls (fs : FileSystem) (seq_id : string)
  (status_json : StatusJson) :
  Forall (fun e => ~ is_status_poll e)
    (fetch_model_results out_dir http_get gunzip fs seq_id status_json).2.
Proof.
  unfold fetch_model_results.
  destruct (model_data_of seq_id status_json) as [|item later] eqn:E.
  - simpl. now repeat constructor.
  - apply download_all_never_polls.
Qed.

End FetchNeverPolls.

Section OrchestratorFacts.

Variable out_dir : string.
Variable http_get : string -> Reply (list Byte.byte).
Variable gunzip : list Byte.byte -> list Byte.byte * bool.
Variable template : string.
Variable post_of : string -> Z -> Reply SubmitJson.
Variable polls_of : string -> list (Reply StatusJson).

Let task := pool_task template post_of.
Let handle := handle_completed out_dir http_get gunzip template post_of polls_of.
Let process := process_sequences out_dir http_get gunzip template post_of polls_of.

Lemma pool_task_value (item : string * string) :
  (task item).1 = ReturnsNone
  \/ exists project, (task item).1 = ReturnsPair item.1 project.
Proof. apply submit_loop_value. Qed.

(** A submission that came back without a project identifier is passed
    over, and the loop goes on with the next future. *)
Lemma handle_completed_no_project (item : string * string)
  (later : list (string * string)) (fs : FileSystem) (seq_id : string) :
  (task item).1 = ReturnsPair seq_id None ->
  handle (item :: later) fs = handle later fs.
Proof. unfold handle, task. simpl. now intros ->. Qed.

(** A submission that evaluated to [None] cannot be unpacked. *)
Lemma handle_completed_none (item : string * string)
  (later : list (string * string)) (fs : FileSystem) :
  (task item).1 = ReturnsNone ->
  handle (item :: later) fs = (RaisesTypeError, fs, []).
Proof. unfold handle, task. simpl. now intros ->. Qed.

Lemma in_blocks_nil (items : list (string * string)) : in_blocks items [].
Proof.
  induction items as [|item later IH]; simpl; [reflexivity |].
  exists [], []. repeat split; [|exact IH].
  exists [], []. now repeat split.
Qed.

Lemma in_blocks_cons (item : string * string) (later : list (string * string))
  (monitoring fetching : list Event) (rest : list Tagged) :
  Forall (fun e => ~ is_download e) monitoring ->
  Forall (fun e => ~ is_status_poll e) fetching ->
  in_blocks later rest ->
  in_blocks (item :: later)
    (tag item.1 monitoring ++ tag item.1 fetching ++ rest).
Proof.
  intros Hm Hf Hrest. simpl.
  exists (tag item.1 (monitoring ++ fetching)), rest.
  split; [unfold tag; now rewrite map_app, <- app_assoc |].
  split; [now exists monitoring, fetching | exact Hrest].
Qed.

Lemma handle_completed_blocks (arrival : list (string * string))
  (fs : FileSystem) :
  in_blocks arrival (handle arrival fs).2.
Proof.
  revert fs. induction arrival as [|item later IH]; intros fs; [reflexivity |].
  unfold handle in *. cbn [handle_completed]. fold task.
  destruct (pool_task_value item) as [-> | [project ->]];
    [apply in_blocks_nil |].
  destruct (truthy project).
  2: { exact (in_blocks_cons item later [] [] _
                (Forall_nil_2 _) (Forall_nil_2 _) (IH fs)). }
  set (p := default "" project).
  pose proof (monitor_never_downloads item.1 p (polls_of p)) as Hmon.
  destruct (monitor_job_status item.1 p (polls_of p)) as [[status_json|] polled];
    simpl in Hmon.
  - destruct (truthy_json status_json).
    + destruct status_json as [j|].
      * pose proof (fetch_never_polls out_dir http_get gunzip fs item.1 j) as Hf.
        destruct (fetch_model_results out_dir http_get gunzip fs item.1 j)
          as [fs1 fetched].
        specialize (IH fs1).
        destruct (handle_completed _ _ _ _ _ _ later fs1) as [[outcome fs2] rest].
        simpl in *.
        apply (in_blocks_cons item later
                 (EPrint (MsgStarted p item.1) :: polled) fetched);
          [constructor; [now simpl | exact Hmon] | exact Hf | exact IH].
      * specialize (IH fs).
        destruct (handle_completed _ _ _ _ _ _ later fs) as [[outcome fs2] rest].
        simpl in *.
        apply (in_blocks_cons item later
                 (EPrint (MsgStarted p item.1) :: polled) []);
          [constructor; [now simpl | exact Hmon] | constructor | exact IH].
    + specialize (IH fs).
      destruct (handle_completed _ _ _ _ _ _ later fs) as [[outcome fs2] rest].
      simpl in *.
      apply (in_blocks_cons item later
               (EPrint (MsgStarted p item.1) :: polled) [] rest);
        [constructor; [now simpl | exact Hmon] | constructor | exact IH].
  - simpl.
    pose proof (in_blocks_cons item later
                  (EPrint (MsgStarted p item.1) :: polled) [] []) as H.
    simpl in H. rewrite app_nil_r in H.
    apply H; [constructor; [now simpl | exact Hmon] | constructor |].
    apply in_blocks_nil.
Qed.

(** The task handed to the pool never polls a job and never downloads; under
    the loop over the completed futures, within a sequence the polls come
    before the downloads, and the events of a sequence end before those of
    the next begin. *)
Lemma pool_submits_loop_in_blocks
  (sequences arrival : list (string * string)) (fs : FileSystem) :
  Forall (fun entry =>
            Forall (fun e => ~ is_status_poll e /\ ~ is_download e) entry.2)
    (pool_traces (process sequences arrival fs))
  /\ in_blocks arrival (loop_trace (process sequences arrival fs)).
Proof.
  unfold process, process_sequences.
  destruct sequences as [|first others]; [split; [constructor | apply in_blocks_nil] |].
  pose proof (handle_completed_blocks arrival fs) as Hblocks.
  unfold handle in Hblocks.
  destruct (handle_completed _ _ _ _ _ _ arrival fs) as [[outcome fs1] trace].
  cbn [pool_traces loop_trace]. split; [|exact Hblocks].
  apply Forall_forall. intros entry (item & <- & _)%list_elem_of_In%in_map_iff.
  cbn [snd]. unfold pool_task, submit_request.
  eapply Forall_impl; [apply submit_loop_events |].
  intros e He. now destruct e.
Qed.

(** C8: an attempt that raises for another reason than status 429 (the
    transport fails, or the response has an error status) ends the call: after
    the [k] rate-limited attempts before it and the failing request itself no
    further request is made, the error is logged, and the pair carries no
    project identifier; the loop over the completed futures passes it over
    and goes on with the others. *)
Theorem C8_other_failure_is_terminal (item : string * string)
  (later : list (string * string)) (fs : FileSystem) (k : nat) :
  Z.of_nat k < 5 ->
  (forall j, 1 <= j < 1 + Z.of_nat k -> rate_limited (post_of item.1 j)) ->
  attempt_fails (post_of item.1 (1 + Z.of_nat k)) ->
  task item
  = (ReturnsPair item.1 None,
     backoff_events (submit_payload template item.1 item.2) 1 k
       ++ [EPost (submit_payload template item.1 item.2);
           EPrint (MsgRequestError item.1)])
  /\ count_posts (task item).2 = S k
  /\ handle (item :: later) fs = handle later fs.
Proof.
  intros Hk H429 Hfail.
  assert (task item
          = (ReturnsPair item.1 None,
             backoff_events (submit_payload template item.1 item.2) 1 k
               ++ [EPost (submit_payload template item.1 item.2);
                   EPrint (MsgRequestError item.1)])) as Htask
    by (now apply submit_request_fails).
  split; [exact Htask | split].
  - rewrite Htask. cbn [snd].
    rewrite count_posts_app, count_posts_backoff.
    unfold count_posts. simpl. lia.
  - apply (handle_completed_no_project item later fs item.1).
    now rewrite Htask.
Qed.

End OrchestratorFacts.

(** ** The example runs *)

(** C1, on a service that answers 429 to every attempt of the first
    sequence: the submission sleeps 10, 20, 30, 40 and 50 seconds over its five
    attempts and then evaluates to [None] instead of a pair; unpacking it
    raises [TypeError] in the loop, so the run ends there: the second
    sequence, whose project was created, is never monitored, and the closing
    line is not printed. *)
Theorem C1_exhausted_rate_limit_aborts_run :
  let first := ("cluster_1_medoid", "MKTAYIAKQR") in
  let run := Scenario.run_with Scenario.busy_for_first in
  pool_task "TEMPLATE" Scenario.busy_for_first first
  = (ReturnsNone, backoff_events (Scenario.payload_of first) 1 5)
  /\ sleeps (backoff_events (Scenario.payload_of first) 1 5) = [10; 20; 30; 40; 50]
  /\ count_posts (backoff_events (Scenario.payload_of first) 1 5) = 5%nat
  /\ (pool_task "TEMPLATE" Scenario.busy_for_first
        ("cluster_2_medoid", "MSDNELQERL")).1
     = ReturnsPair "cluster_2_medoid" (Some "P2")
  /\ result run = RaisesTypeError
  /\ loop_trace run = []
  /\ summary run = [MsgLoaded 2].
Proof. repeat split; vm_compute; reflexivity. Qed.

(** With both submissions accepted at once, the pooled tasks consist of the
    POST alone, while both jobs are monitored and fetched under the loop, the
    second only after the first is on disk. *)
Lemma C2_monitoring_is_not_pooled :
  let first := ("cluster_1_medoid", "MKTAYIAKQR") in
  let second := ("cluster_2_medoid", "MSDNELQERL") in
  let url := Scenario.gz_url in
  let run := Scenario.run_with Scenario.accepts_all in
  result run = Finished
  /\ pool_traces run
     = [(first.1, [EPost (Scenario.payload_of first)]);
        (second.1, [EPost (Scenario.payload_of second)])]
  /\ loop_trace run
     = tag first.1
         [EPrint (MsgStarted "P1" first.1);
          ESleep 10; EGetStatus "P1";
          EPrint (MsgJobStatus "P1" first.1 "RUNNING");
          ESleep 10; EGetStatus "P1";
          EPrint (MsgJobStatus "P1" first.1 "COMPLETED");
          EGet url;
          EPrint (MsgSaved "out/cluster_1_model/CIF/cluster_1_model_001.cif")]
       ++ tag second.1
            [EPrint (MsgStarted "P2" second.1);
             ESleep 10; EGetStatus "P2";
             EPrint (MsgJobStatus "P2" second.1 "RUNNING");
             ESleep 10; EGetStatus "P2";
             EPrint (MsgJobStatus "P2" second.1 "COMPLETED");
             EGet url;
             EPrint (MsgSaved "out/cluster_2_model/CIF/cluster_2_model_001.cif")].
Proof. repeat split; vm_compute; reflexivity. Qed.

(** ** The theorems at concrete inputs *)

Lemma C5_cluster_number_witness :
  first_digit_run "cluster_3_medoid" "3"
  /\ cluster_number "cluster_3_medoid" = "3"
  /\ cluster_number "sp|P12345" = "unknown".
Proof.
  assert (first_digit_run "cluster_3_medoid" "3") as Hrun.
  { exists "", "_medoid". repeat split; try reflexivity; try discriminate.
    intros; simpl; lia. }
  split; [exact Hrun | split].
  - exact (proj1 (proj2 (C5_cluster_number "cluster_3_medoid")) "3" Hrun).
  - apply (proj2 (proj2 (C5_cluster_number "sp|P12345"))).
    apply search_cluster_none. reflexivity.
Defined.

Lemma C6_monitor_job_status_witness :
  (monitor_job_status "cluster_1_medoid" "P1"
     (Scenario.completes_on_second "P1")).1
  = Returned (Some Scenario.one_cif_model).
Proof.
  apply (proj1 (C6_monitor_job_status "cluster_1_medoid" "P1")).
  exists [Answers 200 {| status := Some "RUNNING"; models := None |}],
    (Answers 200 Scenario.one_cif_model), [].
  split; [reflexivity | split].
  - constructor; [|constructor]. right. split; discriminate.
  - exists 200. repeat split; reflexivity.
Defined.

Lemma two_refs_and_layout_below_256_example :
  refs_of_index 2 (model_data_of "cluster_7_medoid" Scenario.second_has_both)
  = [("cluster_7_medoid", "https://host/m/02.cif", 2%nat, "modelcif");
     ("cluster_7_medoid", "https://host/m/02.pdb", 2%nat, "coordinates")]
  /\ destination "out"
       ("cluster_7_medoid", "https://host/m/02.cif", 2%nat, "modelcif")
     = "out/cluster_7_model/CIF/cluster_7_model_002.cif"
  /\ destination "out"
       ("cluster_7_medoid", "https://host/m/02.pdb", 2%nat, "coordinates")
     = "out/cluster_7_model/PDB/cluster_7_model_002.pdb".
Proof.
  destruct (two_refs_and_layout_below_256 "out" "cluster_7_medoid"
              Scenario.second_has_both _ 1%nat _
              "https://host/m/02.cif" "https://host/m/02.pdb"
              eq_refl eq_refl eq_refl eq_refl) as (Hrefs & Hcif & Hpdb & _).
  split; [exact Hrefs | split; [exact Hcif | exact Hpdb]].
Defined.

Lemma C8_other_failure_is_terminal_witness :
  let item := ("cluster_1_medoid", "MKTAYIAKQR") in
  pool_task "TEMPLATE" (fun _ => Scenario.breaks_on_third) item
  = (ReturnsPair "cluster_1_medoid" None,
     backoff_events (Scenario.payload_of item) 1 2
       ++ [EPost (Scenario.payload_of item);
           EPrint (MsgRequestError "cluster_1_medoid")])
  /\ count_posts
       (pool_task "TEMPLATE" (fun _ => Scenario.breaks_on_third) item).2
     = 3%nat.
Proof.
  intros item.
  destruct (C8_other_failure_is_terminal "out" Scenario.serve_gz
              Scenario.gunzip_ok "TEMPLATE" (fun _ => Scenario.breaks_on_third)
              Scenario.completes_on_second item [] empty_fs 2)
    as (Htask & Hposts & _).
  - simpl. lia.
  - intros j Hj. unfold Scenario.breaks_on_third.
    destruct (Z.ltb_spec j 3); simpl; [reflexivity | lia].
  - simpl. split; [lia | reflexivity].
  - split; [exact Htask | exact Hposts].
Defined.

Lemma C10_failed_download_leaves_files_witness :
  files (_download_and_extract "out" Scenario.unreachable Scenario.gunzip_ok
           empty_fs ("cluster_3_medoid", Scenario.gz_url, 1%nat, "modelcif")).1
  = ∅.
Proof.
  exact (proj1 (C10_failed_download_leaves_files "out" Scenario.unreachable
                  Scenario.gunzip_ok empty_fs "cluster_3_medoid"
                  Scenario.gz_url 1 "modelcif" I)).
Defined.

Lemma distinct_clusters_distinct_destinations_example :
  NoDup (map (destination "out")
           (run_model_data Scenario.distinct_cluster_jobs)).
Proof.
  apply distinct_clusters_distinct_destinations.
  repeat (apply NoDup_cons; split); try apply NoDup_nil_2;
    rewrite ?list_elem_of_In; simpl; try tauto.
  intros [H|[]]. vm_compute in H. discriminate H.
Defined.

(** * Further properties *)

(** ** The dictionary *)

Lemma dict_get_set_eq (key value : string) (d : Dict) :
  dict_get key (dict_set key value d) = Some value.
Proof.
  induction d as [|[k v] d IH]; simpl.
  - now rewrite String.eqb_refl.
  - destruct (String.eqb k key) eqn:E; simpl; now rewrite E.
Qed.

Lemma dict_get_set_ne (key other value : string) (d : Dict) :
  key <> other -> dict_get other (dict_set key value d) = dict_get other d.
Proof.
  intros Hne. induction d as [|[k v] d IH]; simpl.
  - apply String.eqb_neq in Hne. now rewrite Hne.
  - destruct (String.eqb_spec k key) as [->|]; simpl.
    + apply String.eqb_neq in Hne. now rewrite Hne.
    + now rewrite IH.
Qed.

Lemma dict_get_keys (key : string) (d : Dict) :
  is_Some (dict_get key d) <-> In key (keys d).
Proof.
  induction d as [|[k v] d IH]; simpl.
  - split; [intros [? ?]; discriminate | contradiction].
  - destruct (String.eqb_spec k key) as [->|Hne].
    + split; [now left | now eexists].
    + rewrite IH. split; [now right | now intros [?|?]].
Qed.

Lemma keys_dict_set (key value : string) (d : Dict) :
  keys (dict_set key value d)
  = match dict_get key d with
    | Some _ => keys d
    | None => keys d ++ [key]
    end.
Proof.
  induction d as [|[k v] d IH]; simpl; [reflexivity |].
  destruct (String.eqb_spec k key) as [->|Hne]; simpl; [reflexivity |].
  rewrite IH. now destruct (dict_get key d).
Qed.

Lemma In_keys_dict_set (key value other : string) (d : Dict) :
  In other (keys (dict_set key value d)) <-> other = key \/ In other (keys d).
Proof.
  rewrite keys_dict_set. destruct (dict_get key d) eqn:E.
  - split; [now right | intros [->|H]; [|exact H]].
    apply dict_get_keys. now rewrite E.
  - rewrite in_app_iff. simpl. intuition.
Qed.

Lemma NoDup_keys_dict_set (key value : string) (d : Dict) :
  NoDup (keys d) -> NoDup (keys (dict_set key value d)).
Proof.
  intros Hd. rewrite keys_dict_set. destruct (dict_get key d) eqn:E; [exact Hd |].
  apply NoDup_app. split; [exact Hd | split].
  - intros k Hk [->|[]]%list_elem_of_In. apply list_elem_of_In in Hk.
    apply dict_get_keys in Hk as [v Hv]. congruence.
  - apply NoDup_singleton.
Qed.

Lemma In_dict_set (key value : string) (d : Dict) (item : string * string) :
  In item (dict_set key value d) -> item = (key, value) \/ In item d.
Proof.
  induction d as [|[k v] d IH]; simpl.
  - intros [<-|[]]. now left.
  - destruct (String.eqb_spec k key) as [->|Hne]; simpl.
    + intros [<-|H]; [now left | now right; right].
    + intros [<-|H]; [now right; left |].
      destruct (IH H) as [->|H']; [now left | now right; right].
Qed.

(** ** _load_fasta_sequences *)

Lemma sub_invalid_residues (s : string) :
  all_chars Text.is_residue_char (Text.sub_invalid s) = true.
Proof.
  induction s as [|c s IH]; simpl; [reflexivity |].
  destruct (Text.is_residue_char c) eqn:E; simpl; [now rewrite E |exact IH].
Qed.

Lemma is_residue_char_alphabet (c : ascii) :
  Text.is_residue_char c = true <-> In c residue_alphabet.
Proof.
  destruct c as [[] [] [] [] [] [] [] []]; vm_compute; split; intros H;
    try discriminate; try reflexivity; try tauto;
    repeat (destruct H as [H|H]; [discriminate H |]); contradiction.
Qed.

Lemma not_header_false (line : string) :
  ~ is_header line -> Py.startswith (Text.strip line) ">" = false.
Proof. unfold is_header. now destruct (Py.startswith _ _). Qed.

Lemma load_line_header (seq_id : option string) (d : Dict) (line : string) :
  is_header line ->
  load_line (seq_id, d) line
  = Some (Some (header_id line), dict_set (header_id line) "" d).
Proof. unfold load_line, is_header, header_id. now intros ->. Qed.

Lemma load_line_sequence (id : string) (d : Dict) (line sequence : string) :
  ~ is_header line -> id <> "" -> dict_get id d = Some sequence ->
  load_line (Some id, d) line
  = Some (Some id, dict_set id (sequence +:+ cleaned line) d).
Proof.
  intros Hline Hid Hget. unfold load_line, cleaned.
  rewrite (not_header_false _ Hline), Hget.
  apply String.eqb_neq in Hid. now rewrite Hid.
Qed.

Lemma load_line_ignored (seq_id : option string) (d : Dict) (line : string) :
  ~ is_header line -> seq_id = None \/ seq_id = Some "" ->
  load_line (seq_id, d) line = Some (seq_id, d).
Proof.
  intros Hline Hid. unfold load_line. rewrite (not_header_false _ Hline).
  now destruct Hid as [-> | ->].
Qed.

Lemma is_header_dec (line : string) : is_header line \/ ~ is_header line.
Proof.
  unfold is_header. destruct (Py.startswith _ _); [now left | right; discriminate].
Qed.

Lemma load_line_invariant (state : LoaderState) (line : string) :
  loader_invariant state ->
  exists state', load_line state line = Some state' /\ loader_invariant state'.
Proof.
  destruct state as [seq_id d]. intros (Hcur & Hkeys & Hvals).
  cbn [fst snd] in *.
  destruct (is_header_dec line) as [Hh|Hh].
  - rewrite load_line_header by exact Hh. eexists. split; [reflexivity |].
    repeat split; simpl.
    + intros id [= <-] _. rewrite dict_get_set_eq. now eexists.
    + now apply NoDup_keys_dict_set.
    + apply Forall_forall. intros item [->|Hin]%list_elem_of_In%In_dict_set;
        [reflexivity |].
      rewrite Forall_forall in Hvals. apply Hvals. now apply list_elem_of_In.
  - destruct seq_id as [id|];
      [destruct (String.eqb_spec id "") as [->|Hid] |].
    + rewrite load_line_ignored by auto. eexists. now repeat split.
    + destruct (Hcur id eq_refl Hid) as [sequence Hget].
      rewrite (load_line_sequence id d line sequence) by assumption.
      eexists. split; [reflexivity |]. repeat split; simpl.
      * intros ? [= <-] _. rewrite dict_get_set_eq. now eexists.
      * now apply NoDup_keys_dict_set.
      * apply Forall_forall.
        intros item [->|Hin]%list_elem_of_In%In_dict_set.
        -- simpl. rewrite all_chars_append. unfold cleaned.
           rewrite sub_invalid_residues, andb_true_r.
           rewrite Forall_forall in Hvals.
           assert (In (id, sequence) d) as Hin.
           { clear - Hget. induction d as [|[k v] d IH]; [discriminate |].
             simpl in Hget. destruct (String.eqb_spec k id) as [->|];
               [injection Hget as ->; now left | right; now apply IH]. }
           exact (Hvals (id, sequence) (proj2 (list_elem_of_In _ _) Hin)).
        -- rewrite Forall_forall in Hvals. apply Hvals. now apply list_elem_of_In.
    + rewrite load_line_ignored by auto. eexists. now repeat split.
Qed.

Lemma load_lines_invariant (lines : list string) (state : LoaderState) :
  loader_invariant state ->
  exists state', load_lines state lines = Some state' /\ loader_invariant state'.
Proof.
  revert state. induction lines as [|line later IH]; intros state Hinv; simpl.
  - now exists state.
  - destruct (load_line_invariant state line Hinv) as (state1 & -> & Hinv1).
    now apply IH.
Qed.

Lemma loader_invariant_start : loader_invariant (None, []).
Proof. repeat split; simpl; try constructor. intros id H. discriminate H. Qed.

Lemma load_lines_app (first second : list string) (state : LoaderState) :
  load_lines state (first ++ second)
  = match load_lines state first with
    | Some state' => load_lines state' second
    | None => None
    end.
Proof.
  revert state. induction first as [|line later IH]; intros state; simpl;
    [reflexivity |].
  destruct (load_line state line); [apply IH | reflexivity].
Qed.

Lemma load_line_keys (state state' : LoaderState) (line : string) (id : string) :
  load_line state line = Some state' ->
  In id (keys state'.2)
  <-> In id (keys state.2) \/ (is_header line /\ header_id line = id).
Proof.
  destruct state as [seq_id d].
  destruct (is_header_dec line) as [Hh|Hh].
  - rewrite load_line_header by exact Hh. intros [= <-]. simpl.
    rewrite In_keys_dict_set. intuition.
  - unfold load_line. rewrite (not_header_false _ Hh).
    assert (forall P : Prop, P \/ (is_header line /\ header_id line = id) <-> P)
      as Hdrop by (intros P; intuition).
    destruct seq_id as [cur|]; [|intros [= <-]; now rewrite Hdrop].
    destruct (negb (String.eqb cur "")); [|intros [= <-]; now rewrite Hdrop].
    destruct (dict_get cur d) as [sequence|] eqn:Hget; [|discriminate].
    intros [= <-]. simpl. rewrite In_keys_dict_set, Hdrop.
    split; [intros [->|H]; [|exact H] | now right].
    apply dict_get_keys. now rewrite Hget.
Qed.

Lemma load_lines_keys (lines : list string) (state state' : LoaderState)
  (id : string) :
  load_lines state lines = Some state' ->
  In id (keys state'.2)
  <-> In id (keys state.2)
      \/ exists line, In line lines /\ is_header line /\ header_id line = id.
Proof.
  revert state. induction lines as [|line later IH]; intros state; simpl.
  - intros [= <-]. split; [now left | intros [H|(? & [] & _)]; exact H].
  - destruct (load_line state line) as [state1|] eqn:Hline; [|discriminate].
    intros Hrest. rewrite (IH _ Hrest), (load_line_keys _ _ _ _ Hline).
    split.
    + intros [[H|[Hh Hid]]|(l & Hin & Hh & Hid)]; eauto 8.
    + intros [H|(l & [<-|Hin] & Hh & Hid)]; eauto 8.
Qed.

Lemma load_lines_no_header (lines : list string) (seq_id : option string)
  (d : Dict) :
  Forall (fun line => ~ is_header line) lines ->
  seq_id = None \/ seq_id = Some "" ->
  load_lines (seq_id, d) lines = Some (seq_id, d).
Proof.
  intros Hlines Hid. induction Hlines as [|line later Hline _ IH];
    cbn [load_lines]; [reflexivity |].
  now rewrite load_line_ignored.
Qed.

Lemma load_lines_body (body : list string) (id sequence : string) (d : Dict) :
  Forall (fun line => ~ is_header line) body -> id <> "" ->
  dict_get id d = Some sequence ->
  exists d',
    load_lines (Some id, d) body = Some (Some id, d')
    /\ dict_get id d' = Some (sequence +:+ join_all (map cleaned body)).
Proof.
  intros Hbody Hid. revert d sequence.
  induction Hbody as [|line later Hline _ IH]; intros d sequence Hget;
    cbn [load_lines map join_all].
  - exists d. now rewrite append_empty_r.
  - rewrite (load_line_sequence id d line sequence) by assumption.
    destruct (IH _ _ (dict_get_set_eq id (sequence +:+ cleaned line) d))
      as (d' & -> & Hd').
    exists d'. split; [reflexivity |]. now rewrite Hd', append_assoc.
Qed.

(** X1: loading never fails on a missing key, and the identifiers of the
    loaded mapping are pairwise distinct. *)
Theorem X1_load_returns_distinct_ids (lines : list string) :
  exists sequences,
    _load_fasta_sequences lines = Some sequences /\ NoDup (keys sequences).
Proof.
  unfold _load_fasta_sequences.
  destruct (load_lines_invariant lines _ loader_invariant_start)
    as ([seq_id d] & -> & _ & Hkeys & _).
  now exists d.
Qed.

(** X2: every character of every loaded sequence is a letter, [?] or [-]. *)
Theorem X2_loaded_sequences_are_cleaned (lines : list string) (sequences : Dict)
  (id sequence : string) (c : ascii) :
  _load_fasta_sequences lines = Some sequences ->
  In (id, sequence) sequences ->
  In c (list_ascii_of_string sequence) ->
  In c residue_alphabet.
Proof.
  unfold _load_fasta_sequences.
  destruct (load_lines_invariant lines _ loader_invariant_start)
    as ([seq_id d] & -> & _ & _ & Hvals).
  intros [= <-] Hitem Hc. apply is_residue_char_alphabet.
  rewrite Forall_forall in Hvals.
  apply (all_chars_In _ sequence); [|exact Hc].
  exact (Hvals (id, sequence) (proj2 (list_elem_of_In _ _) Hitem)).
Qed.

(** X3: the identifiers of the loaded mapping are exactly the texts that
    follow [>] on the header lines of the file. *)
Theorem X3_loaded_ids_are_the_headers (lines : list string) (sequences : Dict)
  (id : string) :
  _load_fasta_sequences lines = Some sequences ->
  In id (keys sequences)
  <-> exists line, In line lines /\ is_header line /\ header_id line = id.
Proof.
  unfold _load_fasta_sequences.
  destruct (load_lines (None, []) lines) as [[seq_id d]|] eqn:Hload;
    [|discriminate].
  intros [= <-]. rewrite (load_lines_keys _ _ _ id Hload). simpl.
  split; [now intros [[]|H] | now right].
Qed.

(** X4: the lines before the first header are dropped. *)
Theorem X4_lines_before_first_header_are_dropped (before rest : list string) :
  Forall (fun line => ~ is_header line) before ->
  _load_fasta_sequences (before ++ rest) = _load_fasta_sequences rest.
Proof.
  intros Hbefore. unfold _load_fasta_sequences.
  now rewrite load_lines_app, load_lines_no_header by auto.
Qed.

Lemma load_line_other (cur : option string) (d : Dict) (line id : string)
  (state' : LoaderState) :
  load_line (cur, d) line = Some state' ->
  cur <> Some id -> (is_header line -> header_id line <> id) ->
  state'.1 <> Some id /\ dict_get id state'.2 = dict_get id d.
Proof.
  intros Hload Hcur Hline.
  destruct (is_header_dec line) as [Hh|Hh].
  - rewrite load_line_header in Hload by exact Hh. injection Hload as <-.
    cbn [fst snd]. specialize (Hline Hh). split; [congruence |].
    now apply dict_get_set_ne.
  - unfold load_line in Hload. rewrite (not_header_false _ Hh) in Hload.
    destruct cur as [c|]; [|injection Hload as <-; now split].
    destruct (negb (String.eqb c "")); [|injection Hload as <-; now split].
    destruct (dict_get c d) as [sequence|]; [|discriminate].
    injection Hload as <-. cbn [fst snd]. split; [exact Hcur |].
    apply dict_get_set_ne. congruence.
Qed.

Lemma load_lines_other (lines : list string) (cur : option string) (d : Dict)
  (id : string) (state' : LoaderState) :
  load_lines (cur, d) lines = Some state' ->
  cur <> Some id ->
  Forall (fun line => is_header line -> header_id line <> id) lines ->
  dict_get id state'.2 = dict_get id d.
Proof.
  intros Hload Hcur Hlines. revert cur d Hload Hcur.
  induction Hlines as [|line later Hline _ IH]; intros cur d Hload Hcur;
    cbn [load_lines] in Hload.
  - now injection Hload as <-.
  - destruct (load_line (cur, d) line) as [[cur1 d1]|] eqn:E; [|discriminate].
    destruct (load_line_other _ _ _ id _ E Hcur Hline) as [Hcur1 <-].
    exact (IH cur1 d1 Hload Hcur1).
Qed.

(** X5: the sequence stored under an identifier is the concatenation of the
    cleaned lines between the last header carrying it and the next header (or
    the end of the file), whatever records come before and after; an earlier
    record of the same identifier is discarded. *)
Theorem X5_last_record_is_stored (before body after : list string)
  (header : string) :
  is_header header -> header_id header <> "" ->
  Forall (fun line => ~ is_header line) body ->
  match after with
  | [] => True
  | next :: _ => is_header next
  end ->
  Forall (fun line => is_header line -> header_id line <> header_id header)
    after ->
  exists sequences,
    _load_fasta_sequences (before ++ header :: body ++ after) = Some sequences
    /\ dict_get (header_id header) sequences
       = Some (join_all (map cleaned body)).
Proof.
  intros Hh Hid Hbody Hnext Hafter. unfold _load_fasta_sequences.
  change (header :: body ++ after) with ((header :: body) ++ after).
  rewrite app_assoc, (load_lines_app (before ++ header :: body)).
  destruct (load_lines_invariant (before ++ header :: body) _
              loader_invariant_start) as (state1 & Hload1 & Hinv1).
  rewrite Hload1.
  assert (dict_get (header_id header) state1.2
          = Some (join_all (map cleaned body))
          /\ (after = [] \/ state1.1 = Some (header_id header))) as [Hget Hcur].
  { rewrite load_lines_app in Hload1.
    destruct (load_lines (None, []) before) as [[seq_id d]|]; [|discriminate].
    cbn [load_lines] in Hload1. rewrite load_line_header in Hload1 by exact Hh.
    destruct (load_lines_body body (header_id header) "" _ Hbody Hid
                (dict_get_set_eq (header_id header) "" d)) as (d' & Hd & Hd').
    rewrite Hd in Hload1. injection Hload1 as <-. split; [exact Hd' | now right]. }
  destruct (load_lines_invariant after state1 Hinv1) as ([cur2 d2] & Hload2 & _).
  rewrite Hload2. exists d2. split; [reflexivity |].
  etransitivity; [|exact Hget].
  destruct after as [|next rest].
  - cbn [load_lines] in Hload2. now injection Hload2 as ->.
  - destruct state1 as [cur1 d1]. cbn [load_lines] in Hload2.
    rewrite load_line_header in Hload2 by exact Hnext.
    apply Forall_cons in Hafter as [Hfirst Hrest].
    etransitivity;
      [apply (load_lines_other rest _ _ (header_id header) (cur2, d2) Hload2);
       [intros [= E]; now apply (Hfirst Hnext) | exact Hrest] |].
    apply dict_get_set_ne. exact (Hfirst Hnext).
Qed.

(** X6: after a header with an empty identifier the lines up to the next
    header are dropped. *)
Theorem X6_empty_identifier_drops_its_lines (before body : list string)
  (header : string) :
  is_header header -> header_id header = "" ->
  Forall (fun line => ~ is_header line) body ->
  _load_fasta_sequences (before ++ header :: body)
  = _load_fasta_sequences (before ++ [header]).
Proof.
  intros Hh Hid Hbody. unfold _load_fasta_sequences.
  rewrite !load_lines_app.
  destruct (load_lines (None, []) before) as [[seq_id d]|]; [|reflexivity].
  cbn [load_lines]. rewrite load_line_header by exact Hh. rewrite Hid.
  now rewrite load_lines_no_header by auto.
Qed.

Lemma X2_loaded_sequences_are_cleaned_witness :
  _load_fasta_sequences Sample.fasta_lines
  = Some [("cluster_1_medoid", "ACD"); ("cluster_2_medoid", "MSDNE-LQ?")]
  /\ In "D"%char residue_alphabet.
Proof.
  split; [reflexivity |].
  apply (X2_loaded_sequences_are_cleaned Sample.fasta_lines _
           "cluster_1_medoid" "ACD" "D" eq_refl).
  - simpl. now left.
  - simpl. tauto.
Defined.

Lemma X3_loaded_ids_are_the_headers_witness :
  In "cluster_2_medoid"
    (keys [("cluster_1_medoid", "ACD"); ("cluster_2_medoid", "MSDNE-LQ?")]).
Proof.
  apply (proj2 (X3_loaded_ids_are_the_headers Sample.fasta_lines _
                  "cluster_2_medoid" eq_refl)).
  exists ">cluster_2_medoid". repeat split; simpl; tauto.
Defined.

Lemma X4_lines_before_first_header_are_dropped_witness :
  _load_fasta_sequences ["; comment"; "ACGT"; ">id"; "MKT"]
  = _load_fasta_sequences [">id"; "MKT"].
Proof.
  apply (X4_lines_before_first_header_are_dropped ["; comment"; "ACGT"]).
  repeat constructor; discriminate.
Defined.

Lemma X5_last_record_is_stored_witness :
  exists sequences,
    _load_fasta_sequences Sample.fasta_lines = Some sequences
    /\ dict_get "cluster_1_medoid" sequences = Some "ACD".
Proof.
  apply (X5_last_record_is_stored
           ["; comment"; ">cluster_1_medoid"; "MKT AY*"; "iakqr ";
            ">cluster_2_medoid"; "MSDNE-LQ?"]
           [" ACD1"] [] ">cluster_1_medoid").
  - reflexivity.
  - discriminate.
  - repeat constructor; discriminate.
  - exact I.
  - constructor.
Defined.

Lemma X6_empty_identifier_drops_its_lines_witness :
  _load_fasta_sequences [">a"; "MKT"; " > "; "ACD"; "EFG"]
  = _load_fasta_sequences [">a"; "MKT"; " > "].
Proof.
  apply (X6_empty_identifier_drops_its_lines [">a"; "MKT"] ["ACD"; "EFG"] " > ").
  - reflexivity.
  - reflexivity.
  - repeat constructor; discriminate.
Defined.

(** ** submit_request, for every behaviour of the service *)

Section SubmitShape.

Variable template : string.
Variable post : Z -> Reply SubmitJson.
Variables seq_id sequence : string.

Let payload := submit_payload template seq_id sequence.
Let loop := submit_loop template post seq_id sequence.

Lemma rate_limited_dec {B : Type} (reply : Reply B) :
  rate_limited reply \/ ~ rate_limited reply.
Proof.
  destruct reply as [|code body]; simpl; [now right |].
  destruct (Z.eq_dec code 429); [now left | now right].
Qed.

(** The trace of the loop: some rounds of backing off, then either nothing
    (the attempts are used up) or one last request. *)
Lemma submit_loop_shape (attempt : Z) :
  1 <= attempt <= 6 ->
  exists k : nat,
    (forall j, attempt <= j < attempt + Z.of_nat k -> rate_limited (post j))
    /\ ((attempt + Z.of_nat k = 6
         /\ loop attempt = (ReturnsNone, backoff_events payload attempt k))
        \/ (attempt + Z.of_nat k <= 5
            /\ ~ rate_limited (post (attempt + Z.of_nat k))
            /\ exists project logged,
                 loop attempt
                 = (ReturnsPair seq_id project,
                    backoff_events payload attempt k ++ EPost payload :: logged)
                 /\ Forall (fun e => is_post e = false /\ sleeps [e] = [])
                      logged)).
Proof.
  remember (Z.to_nat (6 - attempt)) as fuel eqn:Hfuel.
  revert attempt Hfuel.
  induction fuel as [|fuel IH]; intros attempt Hfuel Hrange.
  - exists 0%nat. split; [intros; lia |]. left. split; [lia |].
    unfold loop. rewrite submit_loop_body.
    destruct (decide (attempt <= 5)); [lia | reflexivity].
  - destruct (rate_limited_dec (post attempt)) as [Hnow|Hnow].
    + destruct (IH (attempt + 1) ltac:(lia) ltac:(lia)) as (k & H429 & Hk).
      exists (S k). split.
      { intros j Hj. destruct (Z.eq_dec j attempt) as [->|];
          [exact Hnow | apply H429; lia]. }
      assert (loop attempt
              = ((loop (attempt + 1)).1,
                 backoff_events payload attempt 1 ++ (loop (attempt + 1)).2))
        as Hstep.
      { apply (submit_loop_backoff template post seq_id sequence 1 attempt);
          [lia |]. intros j Hj. now replace j with attempt by lia. }
      replace (attempt + Z.of_nat (S k)) with (attempt + 1 + Z.of_nat k) by lia.
      destruct Hk as [[Hend Hloop] | (Hle & Hnot & project & logged & Hloop & Hlog)].
      * left. split; [exact Hend |]. now rewrite Hstep, Hloop.
      * right. split; [exact Hle | split; [exact Hnot |]].
        exists project, logged. split; [|exact Hlog]. now rewrite Hstep, Hloop.
    + exists 0%nat. rewrite Z.add_0_r. split; [intros; lia |]. right.
      split; [lia | split; [exact Hnow |]].
      unfold loop. rewrite submit_loop_body.
      destruct (decide (attempt <= 5)); [|lia].
      destruct (post attempt) as [|code body].
      * eexists _, _. split; [reflexivity |]. now repeat constructor.
      * simpl in Hnow. apply Z.eqb_neq in Hnow. rewrite Hnow.
        destruct (raise_for_status code); eexists _, _;
          (split; [reflexivity | now repeat constructor]).
Qed.

Lemma sleeps_app (a b : list Event) : sleeps (a ++ b) = sleeps a ++ sleeps b.
Proof.
  induction a as [|e a IH]; [reflexivity |].
  destruct e; simpl; now rewrite ?IH.
Qed.

Lemma sleeps_backoff (k : nat) (attempt : Z) :
  sleeps (backoff_events payload attempt k)
  = map (fun i => (attempt + Z.of_nat i) * 10) (seq 0 k).
Proof.
  revert attempt. induction k as [|k IH]; intros attempt; [reflexivity |].
  simpl. rewrite IH, Z.add_0_r. f_equal.
  rewrite <- seq_shift, map_map. apply map_ext. intros i. f_equal. lia.
Qed.

Lemma sleeps_logged (logged : list Event) :
  Forall (fun e => is_post e = false /\ sleeps [e] = []) logged ->
  sleeps logged = [] /\ count_posts logged = 0%nat.
Proof.
  induction 1 as [|e logged [Hpost Hsleep] _ [IHs IHp]]; [now split |].
  split.
  - change (e :: logged) with ([e] ++ logged). now rewrite sleeps_app, Hsleep.
  - unfold count_posts in *. simpl. now rewrite Hpost.
Qed.

(** X7: whatever the service answers, a submission makes at most five
    requests, and the waits between them are the first of 10, 20, 30, 40 and
    50 seconds: a wait follows every request but the last, unless all five
    are used up; in total it sleeps at most 150 seconds. *)
Theorem X7_submission_is_bounded :
  exists k : nat,
    (k <= 5)%nat
    /\ sleeps (submit_request template post seq_id sequence).2
       = take k [10; 20; 30; 40; 50]
    /\ count_posts (submit_request template post seq_id sequence).2
       = Nat.min (S k) 5
    /\ total_sleep (submit_request template post seq_id sequence).2 <= 150.
Proof.
  unfold submit_request, total_sleep. fold loop.
  destruct (submit_loop_shape 1 ltac:(lia)) as (k & _ & Hk).
  exists k.
  destruct Hk as [[Hend ->] | (Hle & _ & project & logged & -> & Hlog)];
    cbn [snd].
  - assert (k = 5%nat) as -> by lia.
    repeat split; try reflexivity; try lia; vm_compute; discriminate.
  - destruct (sleeps_logged logged Hlog) as [Hs Hp].
    change (EPost payload :: logged) with ([EPost payload] ++ logged).
    rewrite !sleeps_app, !count_posts_app, sleeps_backoff, count_posts_backoff.
    rewrite Hs, Hp.
    assert (k = 0 \/ k = 1 \/ k = 2 \/ k = 3 \/ k = 4)%nat
      as [->|[->|[->|[->| ->]]]] by lia;
      repeat split; try reflexivity; try lia; vm_compute; discriminate.
Qed.

(** X8: a submission evaluates to [None], the value that the loop over the
    futures cannot unpack, exactly when all of its five attempts are answered
    with status 429. *)
Theorem X8_none_iff_five_rate_limits :
  (submit_request template post seq_id sequence).1 = ReturnsNone
  <-> forall k, 1 <= k <= 5 -> rate_limited (post k).
Proof.
  split.
  - unfold submit_request. fold loop.
    destruct (submit_loop_shape 1 ltac:(lia)) as (k & H429 & Hk).
    destruct Hk as [[Hend _] | (_ & _ & project & logged & -> & _)];
      [|discriminate].
    intros _ j Hj. apply H429. lia.
  - intros H429. now rewrite submit_request_exhausted.
Qed.

(** X9: after [k] rate-limited attempts, a reply whose status is neither 429
    nor an error ends the call with the project identifier of its body (absent
    when the body has none); nothing is printed for it and no further request
    is made. *)
Theorem X9_accepted_submission (k : nat) (status_code : Z) (body : SubmitJson) :
  Z.of_nat k < 5 ->
  (forall j, 1 <= j < 1 + Z.of_nat k -> rate_limited (post j)) ->
  post (1 + Z.of_nat k) = Answers status_code body ->
  status_code <> 429 -> raise_for_status status_code = false ->
  submit_request template post seq_id sequence
  = (ReturnsPair seq_id (project_id body),
     backoff_events payload 1 k ++ [EPost payload]).
Proof.
  intros Hk H429 Hreply Hne Hok. unfold submit_request. fold loop.
  unfold loop.
  rewrite (submit_loop_backoff template post seq_id sequence k 1)
    by (intros; try apply H429; lia).
  rewrite (submit_loop_body template post seq_id sequence (1 + Z.of_nat k)).
  destruct (decide (1 + Z.of_nat k <= 5)); [|lia].
  rewrite Hreply, Hok. apply Z.eqb_neq in Hne. now rewrite Hne.
Qed.

End SubmitShape.

Lemma X9_accepted_submission_witness :
  submit_request "TEMPLATE" accepts_second_attempt "cluster_1_medoid" "MKT"
  = (ReturnsPair "cluster_1_medoid" (Some "P7"),
     backoff_events (submit_payload "TEMPLATE" "cluster_1_medoid" "MKT") 1 1
       ++ [EPost (submit_payload "TEMPLATE" "cluster_1_medoid" "MKT")]).
Proof.
  apply (X9_accepted_submission "TEMPLATE" accepts_second_attempt
           "cluster_1_medoid" "MKT" 1 201 {| project_id := Some "P7" |}).
  - simpl. lia.
  - intros j Hj. replace j with 1 by lia. reflexivity.
  - reflexivity.
  - lia.
  - reflexivity.
Defined.

(** ** monitor_job_status, tick by tick *)

Section MonitorTicks.

Variables seq_id project : string.

Let monitor := monitor_job_status seq_id project.

(** X10: the monitor works in ticks of one 10-second sleep, one status
    request and one printed line, one tick per reply it consumes; while it has
    not returned it has consumed every reply. *)
Theorem X10_monitor_ticks (replies : list (Reply StatusJson)) :
  exists n : nat,
    (n <= length replies)%nat
    /\ (monitor replies).2 = flat_map (tick project seq_id) (take n replies)
    /\ ((monitor replies).1 = StillPolling -> n = length replies).
Proof.
  induction replies as [|reply later (n & Hn & Hev & Hstill)].
  - exists 0%nat. now repeat split.
  - destruct (terminal_or_not reply) as [Hnt | (s & j & Hobs & Hterm)].
    + exists (S n). unfold monitor in *.
      rewrite monitor_polls_again by exact Hnt. cbn [fst snd length take flat_map].
      rewrite Hev. repeat split; [lia | ].
      intros H. now rewrite Hstill.
    + exists 1%nat. unfold monitor in *.
      rewrite (monitor_returns seq_id project reply later s j) by assumption.
      cbn [fst snd length take flat_map]. repeat split; [lia | | discriminate].
      rewrite app_nil_r. unfold tick. do 3 f_equal.
      destruct Hobs as (code & -> & Hok & Hs). simpl.
      unfold status_or_unknown. now rewrite Hok, Hs.
Qed.

(** X11: the replies after the first one that ends the polling play no
    part: no request is made for them. *)
Theorem X11_monitor_stops_at_terminal_reply
  (early later : list (Reply StatusJson)) (reply : Reply StatusJson) :
  ~ non_terminal reply ->
  monitor (early ++ reply :: later) = monitor (early ++ [reply]).
Proof.
  intros Hterm. unfold monitor.
  assert (forall rest other,
            monitor_job_status seq_id project (reply :: rest)
            = monitor_job_status seq_id project (reply :: other)) as Hstop.
  { intros rest other.
    destruct (terminal_or_not reply) as [Hnt | (s & j & Hobs & Hs)];
      [contradiction |].
    now rewrite !(monitor_returns seq_id project reply _ s j) by assumption. }
  induction early as [|first early IH]; [apply Hstop |].
  change ((first :: early) ++ ?l) with (first :: early ++ l).
  destruct (terminal_or_not first) as [Hnt | (s & j & Hobs & Hs)].
  - rewrite !(monitor_polls_again seq_id project first) by exact Hnt.
    now rewrite IH.
  - now rewrite !(monitor_returns seq_id project first _ s j) by assumption.
Qed.

(** X12: a summary is returned only with status [COMPLETED], so it always
    passes the test [if status_json:] of the caller. *)
Theorem X12_returned_summary_is_completed (replies : list (Reply StatusJson))
  (j : StatusJson) :
  (monitor replies).1 = Returned (Some j) ->
  status j = Some "COMPLETED" /\ truthy_json (Some j) = true.
Proof.
  intros H. apply monitor_manifest_inv in H
    as (early & reply & later & _ & _ & code & _ & _ & Hs).
  split; [exact Hs |]. simpl. now rewrite Hs.
Qed.

End MonitorTicks.

Lemma X11_monitor_stops_at_terminal_reply_witness :
  monitor_job_status "cluster_1_medoid" "P1" (fails_on_second "P1")
  = monitor_job_status "cluster_1_medoid" "P1"
      [Raises; Answers 200 {| status := Some "FAILED"; models := None |}].
Proof.
  apply (X11_monitor_stops_at_terminal_reply "cluster_1_medoid" "P1" [Raises]).
  simpl. intros [H|[_ H]]; [discriminate H | now apply H].
Defined.

Lemma X12_returned_summary_is_completed_witness :
  status Scenario.one_cif_model = Some "COMPLETED"
  /\ truthy_json (Some Scenario.one_cif_model) = true.
Proof.
  exact (X12_returned_summary_is_completed "cluster_1_medoid" "P1"
           (Scenario.completes_on_second "P1") Scenario.one_cif_model eq_refl).
Defined.

(** ** The fetcher and the output tree *)

Section FetcherFacts.

Variable out_dir : string.
Variable http_get : string -> Reply (list Byte.byte).
Variable gunzip : list Byte.byte -> list Byte.byte * bool.

Let download := _download_and_extract out_dir http_get gunzip.
Let every := download_all out_dir http_get gunzip.
Let fetch := fetch_model_results out_dir http_get gunzip.
Let dest := destination out_dir.

(** The call with the branch that is never taken left out. *)
Lemma download_result (fs : FileSystem) (model_data : ModelData) :
  download fs model_data
  = let folders :=
      makedirs
        [out_dir;
         Py.path_join out_dir
           ("cluster_" +:+ cluster_number model_data.1.1.1 +:+ "_model")]
        (cluster_folder out_dir model_data.1.1.1 model_data.2) fs in
    let failed :=
      (folders, [EGet (url_of model_data);
                 EPrint (MsgDownloadFailed (url_of model_data))]) in
    match http_get (url_of model_data) with
    | Raises => failed
    | Answers status_code content =>
        if raise_for_status status_code then failed
        else (write_file (dest model_data) content folders,
              [EGet (url_of model_data); EPrint (MsgSaved (dest model_data))])
    end.
Proof.
  destruct model_data as [[[seq_id url] n] file_type].
  unfold download, _download_and_extract, url_of, dest.
  cbv beta iota zeta. cbn [fst snd].
  destruct (http_get url) as [|code content]; [reflexivity |].
  destruct (raise_for_status code); [reflexivity |].
  now rewrite (destination_not_gz out_dir (seq_id, url, n, file_type)).
Qed.

Lemma download_requested (fs : FileSystem) (model_data : ModelData) :
  requested (download fs model_data).2 = [url_of model_data].
Proof.
  rewrite download_result. cbv zeta.
  destruct (http_get _) as [|code content]; [reflexivity |].
  now destruct (raise_for_status code).
Qed.

Lemma download_files (fs : FileSystem) (model_data : ModelData) :
  files (download fs model_data).1 = files fs
  \/ exists content,
       files (download fs model_data).1
       = <[ dest model_data := content ]> (files fs).
Proof.
  rewrite download_result. cbv zeta.
  destruct (http_get _) as [|code content]; [now left |].
  destruct (raise_for_status code); [now left | right; now exists content].
Qed.

Lemma requested_app (a b : list Event) :
  requested (a ++ b) = requested a ++ requested b.
Proof.
  induction a as [|e a IH]; [reflexivity |].
  destruct e; simpl; now rewrite ?IH.
Qed.

Lemma download_all_cons (fs : FileSystem) (item : ModelData)
  (later : list ModelData) :
  every fs (item :: later)
  = ((every (download fs item).1 later).1,
     (download fs item).2 ++ (every (download fs item).1 later).2).
Proof.
  unfold every, download. simpl.
  destruct (_download_and_extract out_dir http_get gunzip fs item) as [fs1 ev].
  simpl. now destruct (download_all out_dir http_get gunzip fs1 later).
Qed.

Lemma download_all_requested (model_data : list ModelData) (fs : FileSystem) :
  requested (every fs model_data).2 = map url_of model_data.
Proof.
  revert fs. induction model_data as [|item later IH]; intros fs;
    [reflexivity |].
  rewrite download_all_cons. cbn [snd].
  now rewrite requested_app, download_requested, IH.
Qed.

Lemma download_all_elsewhere (model_data : list ModelData) (fs : FileSystem)
  (path : string) :
  ~ In path (map dest model_data) ->
  files (every fs model_data).1 !! path = files fs !! path.
Proof.
  revert fs. induction model_data as [|item later IH]; intros fs Hpath;
    [reflexivity |].
  rewrite download_all_cons. cbn [fst].
  rewrite IH by (intros H; apply Hpath; now right).
  destruct (download_files fs item) as [-> | [content ->]]; [reflexivity |].
  apply lookup_insert_ne. intros Heq. apply Hpath. now left.
Qed.

Lemma download_all_keeps (model_data : list ModelData) (fs : FileSystem)
  (path : string) :
  is_Some (files fs !! path) ->
  is_Some (files (every fs model_data).1 !! path).
Proof.
  revert fs. induction model_data as [|item later IH]; intros fs Hpath;
    [exact Hpath |].
  rewrite download_all_cons. cbn [fst]. apply IH.
  destruct (download_files fs item) as [-> | [content ->]]; [exact Hpath |].
  destruct (decide (dest item = path)) as [->|Hne].
  - rewrite lookup_insert_eq. now eexists.
  - now rewrite lookup_insert_ne.
Qed.

Lemma download_all_stored (model_data : list ModelData) (fs : FileSystem)
  (item : ModelData) (status_code : Z) (content : list Byte.byte) :
  NoDup (map dest model_data) -> In item model_data ->
  http_get (url_of item) = Answers status_code content ->
  raise_for_status status_code = false ->
  files (every fs model_data).1 !! dest item = Some content.
Proof.
  revert fs. induction model_data as [|first later IH]; intros fs Hnd Hin Hget Hok;
    [contradiction |].
  simpl in Hnd. apply NoDup_cons in Hnd as [Hfirst Hlater].
  rewrite download_all_cons. cbn [fst].
  destruct Hin as [->|Hin]; [|now apply IH].
  rewrite download_all_elsewhere by (now rewrite <- list_elem_of_In).
  rewrite download_result. cbv zeta. rewrite Hget, Hok. cbn [fst].
  apply lookup_insert_eq.
Qed.

Lemma collect_model_data_no_urls (seq_id : string) (entries : list Model)
  (i : nat) :
  Forall (fun model => modelcif_url model = None
                       /\ coordinates_url model = None) entries ->
  collect_model_data seq_id i entries = [].
Proof.
  intros H. revert i. induction H as [|model later [Hc Hp] _ IH]; intros i;
    [reflexivity |].
  simpl. now rewrite Hc, Hp, IH.
Qed.

Lemma fetch_as_download_all (fs : FileSystem) (seq_id : string)
  (status_json : StatusJson) :
  model_data_of seq_id status_json <> [] ->
  fetch fs seq_id status_json
  = every fs (model_data_of seq_id status_json).
Proof.
  unfold fetch, fetch_model_results, every.
  now destruct (model_data_of seq_id status_json).
Qed.

Lemma fetch_nothing (fs : FileSystem) (seq_id : string)
  (status_json : StatusJson) :
  model_data_of seq_id status_json = [] ->
  fetch fs seq_id status_json = (fs, [EPrint (MsgNoModels seq_id)]).
Proof. unfold fetch, fetch_model_results. now intros ->. Qed.

(** X13: when no entry of the manifest carries a URL (or the manifest has no
    [models] key, or an empty list), nothing is requested and the output tree
    is left as it is; the fact is printed. *)
Theorem X13_manifest_without_urls (fs : FileSystem) (seq_id : string)
  (status_json : StatusJson) :
  Forall (fun model => modelcif_url model = None
                       /\ coordinates_url model = None)
    (default [] (models status_json)) ->
  fetch fs seq_id status_json = (fs, [EPrint (MsgNoModels seq_id)]).
Proof.
  intros H. apply fetch_nothing. unfold model_data_of.
  now apply collect_model_data_no_urls.
Qed.

(** When the workers take the lock in the order of the manifest, the URLs
    are requested in that order, whether or not earlier downloads failed. *)
Lemma fetch_requests_in_list_order (fs : FileSystem) (seq_id : string)
  (status_json : StatusJson) :
  requested (fetch fs seq_id status_json).2
  = map url_of (model_data_of seq_id status_json).
Proof.
  destruct (model_data_of seq_id status_json) as [|item later] eqn:E.
  - now rewrite fetch_nothing.
  - rewrite fetch_as_download_all by (rewrite E; discriminate).
    rewrite E. apply download_all_requested.
Qed.

(** X15: fetching only adds or overwrites files: a file that was there
    stays, and a path that is not the destination of one of the artifacts
    keeps its content. *)
Theorem X15_fetch_touches_only_destinations (fs : FileSystem) (seq_id : string)
  (status_json : StatusJson) (path : string) :
  (is_Some (files fs !! path) ->
   is_Some (files (fetch fs seq_id status_json).1 !! path))
  /\ (~ In path (map dest (model_data_of seq_id status_json)) ->
      files (fetch fs seq_id status_json).1 !! path = files fs !! path).
Proof.
  destruct (model_data_of seq_id status_json) as [|item later] eqn:E.
  - rewrite fetch_nothing by exact E. now split.
  - rewrite fetch_as_download_all by (rewrite E; discriminate). rewrite E.
    split; [apply download_all_keeps | apply download_all_elsewhere].
Qed.

(** X16: after fetching a manifest, every artifact whose download succeeded
    is on disk under its destination with the bytes received, whatever
    happened to the other downloads. *)
Theorem X16_successful_downloads_are_stored (fs : FileSystem) (seq_id : string)
  (status_json : StatusJson) (item : ModelData) (status_code : Z)
  (content : list Byte.byte) :
  In item (model_data_of seq_id status_json) ->
  http_get (url_of item) = Answers status_code content ->
  raise_for_status status_code = false ->
  files (fetch fs seq_id status_json).1 !! dest item = Some content.
Proof.
  intros Hin Hget Hok.
  rewrite fetch_as_download_all by (intros E; now rewrite E in Hin).
  apply (download_all_stored _ fs item status_code content); try assumption.
  apply (NoDup_map_finer _ artifact_key); [apply destination_key |].
  apply collect_model_data_keys.
Qed.

(** X17: the cluster directory and its kind subdirectory exist after the
    call even when the download fails, and no directory is ever removed. *)
Theorem X17_directories_are_created_first (fs : FileSystem)
  (model_data : ModelData) :
  cluster_folder out_dir model_data.1.1.1 model_data.2
    ∈ dirs (download fs model_data).1
  /\ dirs fs ⊆ dirs (download fs model_data).1.
Proof.
  rewrite download_result. cbv zeta.
  destruct (http_get _) as [|code content];
    [|destruct (raise_for_status code)]; simpl; set_solver.
Qed.

End FetcherFacts.

Lemma X13_manifest_without_urls_witness :
  fetch_model_results "out" Scenario.serve_gz Scenario.gunzip_ok old_fs
    "cluster_1_medoid" no_urls
  = (old_fs, [EPrint (MsgNoModels "cluster_1_medoid")]).
Proof.
  apply X13_manifest_without_urls. repeat constructor.
Defined.

Lemma X15_fetch_touches_only_destinations_witness :
  files (fetch_model_results "out" Scenario.serve_gz Scenario.gunzip_ok old_fs
           "cluster_1_medoid" Scenario.one_cif_model).1 !! "out/notes.txt"
  = Some Scenario.cif_bytes.
Proof.
  rewrite (proj2 (X15_fetch_touches_only_destinations "out" Scenario.serve_gz
                    Scenario.gunzip_ok old_fs "cluster_1_medoid"
                    Scenario.one_cif_model "out/notes.txt")).
  - reflexivity.
  - vm_compute. intros [H|[]]. discriminate H.
Defined.

Lemma X16_successful_downloads_are_stored_witness :
  files (fetch_model_results "out" second_cif_missing Scenario.gunzip_ok
           empty_fs "cluster_7_medoid" Scenario.second_has_both).1
    !! "out/cluster_7_model/PDB/cluster_7_model_002.pdb"
  = Some Scenario.cif_bytes.
Proof.
  apply (X16_successful_downloads_are_stored "out" second_cif_missing
           Scenario.gunzip_ok empty_fs "cluster_7_medoid"
           Scenario.second_has_both
           ("cluster_7_medoid", "https://host/m/02.pdb", 2%nat, "coordinates")
           200 Scenario.cif_bytes).
  - vm_compute. tauto.
  - reflexivity.
  - reflexivity.
Defined.

(** For an identifier of characters below U+0100, an artifact is written two
    levels below the output directory: into a cluster directory and a [CIF]
    or [PDB] subdirectory; directory name and file name start with [cluster_]
    and consist of the characters [A-Za-z0-9_.-] only. *)
Lemma destination_below_out_dir_below_256 (out_dir : string)
  (model_data : ModelData) :
  exists folder file,
    destination out_dir model_data
    = dir_prefix out_dir +:+ folder +:+ "/" +:+ sub_folder model_data.2
        +:+ "/" +:+ file
    /\ Py.startswith folder "cluster_" = true
    /\ Py.startswith file "cluster_" = true
    /\ all_chars Re.is_safe_char folder = true
    /\ all_chars Re.is_safe_char file = true
    /\ (sub_folder model_data.2 = "CIF" \/ sub_folder model_data.2 = "PDB").
Proof.
  destruct model_data as [[[seq_id url] n] file_type]. cbn [snd].
  exists ("cluster_" +:+ cluster_number seq_id +:+ "_model"),
    ("cluster_" +:+ cluster_number seq_id +:+ "_model_"
       +:+ Py.format_03 n +:+ file_extension file_type).
  pose proof (all_chars_impl _ _ _ plain_char_safe (cluster_number_plain seq_id))
    as HN.
  pose proof (all_chars_impl _ _ _ is_digit_safe (format_03_digits n)) as Hn.
  split; [rewrite destination_flat; now rewrite !append_assoc |].
  split; [unfold Py.startswith; now rewrite strip_prefix_append |].
  split; [unfold Py.startswith; now rewrite strip_prefix_append |].
  split; [now rewrite !all_chars_append, HN |].
  split.
  - rewrite !all_chars_append, HN, Hn.
    destruct (sub_folder_cases file_type) as [[_ ->] | [_ ->]]; reflexivity.
  - destruct (sub_folder_cases file_type) as [[-> _] | [-> _]]; auto.
Qed.

(** ** Decimal index and sanitized names *)

(** X24: the zero-padded index has at least three characters, all of them
    decimal digits, and reads back as the model number; it is never
    truncated. *)
Theorem X24_format_03_round_trip (n : nat) :
  (3 <= String.length (Py.format_03 n))%nat
  /\ all_chars Re.is_digit (Py.format_03 n) = true
  /\ parse_nat (Py.format_03 n) = Some n.
Proof.
  split; [|split; [apply format_03_digits | apply parse_nat_format_03]].
  unfold Py.format_03. rewrite length_append.
  assert (String.length (Py.zeros (3 - String.length (Py.str_of_nat n)))
          = (3 - String.length (Py.str_of_nat n))%nat) as ->; [|lia].
  generalize (3 - String.length (Py.str_of_nat n))%nat.
  intros k. induction k as [|k IH]; simpl; [reflexivity | now rewrite IH].
Qed.

(** X25: sanitizing keeps the length of a name, and leaves exactly those
    names unchanged that consist of the characters [A-Za-z0-9_.-] only. *)
Theorem X25_sanitize_keeps_length_and_safe_names (filename : string) :
  String.length (sanitize_filename filename) = String.length filename
  /\ (sanitize_filename filename = filename
      <-> all_chars Re.is_safe_char filename = true).
Proof.
  unfold sanitize_filename. split; [|split].
  - induction filename as [|c s IH]; simpl; [reflexivity | now rewrite IH].
  - intros H. rewrite <- H. apply sub_unsafe_all_safe.
  - apply sub_unsafe_fixes_safe.
Qed.

(** ** The loop over the completed futures, one future at a time *)

Lemma monitor_summary_completed (seq_id project : string)
  (replies : list (Reply StatusJson)) (j : StatusJson) :
  (monitor_job_status seq_id project replies).1 = Returned (Some j) ->
  status j = Some "COMPLETED" /\ truthy_json (Some j) = true.
Proof.
  intros H. apply monitor_manifest_inv in H
    as (early & reply & later & _ & _ & code & _ & _ & Hs).
  split; [exact Hs |]. simpl. now rewrite Hs.
Qed.

Lemma submit_none_inv (template : string) (post : Z -> Reply SubmitJson)
  (seq_id sequence : string) :
  (submit_request template post seq_id sequence).1 = ReturnsNone ->
  forall k, 1 <= k <= 5 -> rate_limited (post k).
Proof.
  unfold submit_request.
  destruct (submit_loop_shape template post seq_id sequence 1 ltac:(lia))
    as (k & H429 & Hk).
  destruct Hk as [[Hend _] | (_ & _ & project & logged & -> & _)];
    [|discriminate].
  intros _ j Hj. apply H429. lia.
Qed.

Lemma monitor_reaches_terminal (seq_id project : string)
  (replies : list (Reply StatusJson)) :
  (exists reply, In reply replies /\ ~ non_terminal reply) ->
  (monitor_job_status seq_id project replies).1 <> StillPolling.
Proof.
  induction replies as [|first later IH]; intros (reply & Hin & Hterm);
    [contradiction |].
  destruct (terminal_or_not first) as [Hnt | (s & j & Hobs & Hs)].
  - rewrite monitor_polls_again by exact Hnt. cbn [fst]. apply IH.
    exists reply. split; [|exact Hterm].
    destruct Hin as [->|Hin]; [contradiction | exact Hin].
  - now rewrite (monitor_returns seq_id project first later s j) by assumption.
Qed.

Lemma fetch_keeps (out_dir : string) (http_get : string -> Reply (list Byte.byte))
  (gunzip : list Byte.byte -> list Byte.byte * bool) (fs : FileSystem)
  (seq_id : string) (status_json : StatusJson) (path : string) :
  is_Some (files fs !! path) ->
  is_Some (files (fetch_model_results out_dir http_get gunzip fs seq_id
                    status_json).1 !! path).
Proof.
  destruct (model_data_of seq_id status_json) as [|item later] eqn:E.
  - now rewrite fetch_nothing by exact E.
  - rewrite fetch_as_download_all by (rewrite E; discriminate).
    apply download_all_keeps.
Qed.

Section LoopFacts.

Variable out_dir : string.
Variable http_get : string -> Reply (list Byte.byte).
Variable gunzip : list Byte.byte -> list Byte.byte * bool.
Variable template : string.
Variable post_of : string -> Z -> Reply SubmitJson.
Variable polls_of : string -> list (Reply StatusJson).

Let task := pool_task template post_of.
Let handle := handle_completed out_dir http_get gunzip template post_of polls_of.
Let process := process_sequences out_dir http_get gunzip template post_of polls_of.
Let fetch := fetch_model_results out_dir http_get gunzip.

(** What the loop does with the first future, by cases. *)
Lemma handle_step (item : string * string) (later : list (string * string))
  (fs : FileSystem) :
  ((task item).1 = ReturnsNone
   /\ handle (item :: later) fs = (RaisesTypeError, fs, []))
  \/ (exists project,
        (task item).1 = ReturnsPair item.1 project /\ truthy project = false
        /\ handle (item :: later) fs = handle later fs)
  \/ exists p,
       (task item).1 = ReturnsPair item.1 (Some p) /\ p <> ""
       /\ let started := (item.1, EPrint (MsgStarted p item.1)) in
          let polled := (monitor_job_status item.1 p (polls_of p)).2 in
          match (monitor_job_status item.1 p (polls_of p)).1 with
          | StillPolling =>
              handle (item :: later) fs
              = (PollsForever, fs, started :: tag item.1 polled)
          | Returned (Some j) =>
              handle (item :: later) fs
              = ((handle later (fetch fs item.1 j).1).1,
                 started :: tag item.1 polled
                   ++ tag item.1 (fetch fs item.1 j).2
                   ++ (handle later (fetch fs item.1 j).1).2)
          | Returned None =>
              handle (item :: later) fs
              = ((handle later fs).1,
                 started :: tag item.1 polled ++ (handle later fs).2)
          end.
Proof.
  unfold handle. cbn [handle_completed]. fold task.
  destruct (pool_task_value template post_of item) as [H | [project H]];
    fold task in H; rewrite H; [now left | right].
  destruct (truthy project) eqn:Htruthy; [right | left; now exists project].
  destruct project as [p|]; [|discriminate]. simpl in Htruthy.
  exists p. split; [reflexivity | split].
  { intros ->. discriminate Htruthy. }
  change (default "" (Some p)) with p. cbv zeta.
  pose proof (monitor_summary_completed item.1 p (polls_of p)) as Hdone.
  destruct (monitor_job_status item.1 p (polls_of p)) as [[[j|]|] polled];
    cbn [fst snd] in *; cbv beta iota zeta.
  - destruct (Hdone j eq_refl) as [_ ->]. unfold fetch.
    destruct (fetch_model_results out_dir http_get gunzip fs item.1 j)
      as [fs1 fetched].
    cbn [fst snd].
    now destruct (handle_completed _ _ _ _ _ _ later fs1) as [[outcome fs2] rest].
  - simpl truthy_json. cbv iota.
    now destruct (handle_completed _ _ _ _ _ _ later fs) as [[outcome fs2] rest].
  - reflexivity.
Qed.


Lemma process_nonempty (sequences arrival : list (string * string))
  (fs : FileSystem) :
  sequences <> [] ->
  result (process sequences arrival fs) = (handle arrival fs).1.1
  /\ disk (process sequences arrival fs) = (handle arrival fs).1.2
  /\ loop_trace (process sequences arrival fs) = (handle arrival fs).2
  /\ summary (process sequences arrival fs)
     = MsgLoaded (length sequences)
         :: match (handle arrival fs).1.1 with
            | Finished => [MsgAllProcessed]
            | _ => []
            end.
Proof.
  intros Hne. unfold process, process_sequences, handle.
  destruct sequences as [|first others]; [contradiction |].
  now destruct (handle_completed _ _ _ _ _ _ arrival fs) as [[outcome fs1] trace].
Qed.

Lemma handle_finishes (arrival : list (string * string)) (fs : FileSystem) :
  (forall item, In item arrival ->
     exists k, 1 <= k <= 5 /\ ~ rate_limited (post_of item.1 k)) ->
  (forall project, exists reply,
     In reply (polls_of project) /\ ~ non_terminal reply) ->
  (handle arrival fs).1.1 = Finished.
Proof.
  intros Hposts Hpolls. revert fs.
  induction arrival as [|item later IH]; intros fs; [reflexivity |].
  specialize (fun fs' => IH (fun i Hi => Hposts i (or_intror Hi)) fs').
  destruct (handle_step item later fs)
    as [[Hnone _] | [(project & _ & _ & ->) | (p & _ & _ & Hcase)]].
  - exfalso. destruct (Hposts item (or_introl eq_refl)) as (k & Hk & Hnot).
    apply Hnot. exact (submit_none_inv _ _ _ _ Hnone k Hk).
  - apply IH.
  - cbv zeta in Hcase.
    pose proof (monitor_reaches_terminal item.1 p (polls_of p) (Hpolls p))
      as Hterm.
    destruct (monitor_job_status item.1 p (polls_of p)).1 as [[j|]|];
      [| |contradiction]; rewrite Hcase; cbn [fst]; apply IH.
Qed.

(** X19: when every sequence has, among its five attempts, one that is not
    answered 429, the status endpoint eventually reports every project as
    completed or failed, and every completed summary it gives carries a list
    under [models], the run handles every future and ends with the closing
    line, also when submissions, polls or downloads fail on the way. *)
Theorem X19_run_finishes (sequences arrival : list (string * string))
  (fs : FileSystem) :
  sequences <> [] ->
  (forall item, In item arrival ->
     exists k, 1 <= k <= 5 /\ ~ rate_limited (post_of item.1 k)) ->
  (forall project, exists reply,
     In reply (polls_of project) /\ ~ non_terminal reply) ->
  summaries_list_models polls_of ->
  result (process sequences arrival fs) = Finished
  /\ summary (process sequences arrival fs)
     = [MsgLoaded (length sequences); MsgAllProcessed].
Proof.
  intros Hne Hposts Hpolls _.
  destruct (process_nonempty sequences arrival fs Hne) as (-> & _ & _ & ->).
  now rewrite (handle_finishes arrival fs Hposts Hpolls).
Qed.

Lemma In_tag (seq_id : string) (events : list Event) (entry : Tagged) :
  In entry (tag seq_id events) -> entry.1 = seq_id.
Proof. unfold tag. now intros (e & <- & _)%in_map_iff. Qed.

Lemma handle_owners (arrival : list (string * string)) (fs : FileSystem)
  (entry : Tagged) :
  In entry (handle arrival fs).2 ->
  exists item p,
    In item arrival /\ item.1 = entry.1
    /\ (task item).1 = ReturnsPair item.1 (Some p) /\ p <> "".
Proof.
  revert fs. induction arrival as [|item later IH]; intros fs; [contradiction |].
  assert (forall fs', In entry (handle later fs').2 ->
            exists item0 p, In item0 (item :: later) /\ item0.1 = entry.1
              /\ (task item0).1 = ReturnsPair item0.1 (Some p) /\ p <> "")
    as Hlater.
  { intros fs' H. destruct (IH fs' H) as (i & p & Hi & Hrest).
    exists i, p. split; [now right | exact Hrest]. }
  destruct (handle_step item later fs)
    as [[_ ->] | [(project & _ & _ & ->) | (p & Htask & Hp & Hcase)]];
    [contradiction | apply Hlater |].
  assert (entry.1 = item.1 ->
          exists item0 p0, In item0 (item :: later) /\ item0.1 = entry.1
            /\ (task item0).1 = ReturnsPair item0.1 (Some p0) /\ p0 <> "")
    as Hhere.
  { intros Heq. exists item, p. split; [now left | now split]. }
  cbv zeta in Hcase.
  destruct (monitor_job_status item.1 p (polls_of p)).1 as [[j|]|];
    rewrite Hcase; cbn [snd]; intros [<-|Hin]; try (now apply Hhere);
    repeat (apply in_app_or in Hin as [Hin|Hin]);
    try (apply Hhere; now apply In_tag in Hin); eauto.
Qed.

(** X20: everything that happens under the loop belongs to a sequence whose
    submission came back with a non-empty project identifier: a sequence
    whose submission failed is neither monitored nor fetched. *)
Theorem X20_only_submitted_sequences_are_followed
  (sequences arrival : list (string * string)) (fs : FileSystem)
  (entry : Tagged) :
  In entry (loop_trace (process sequences arrival fs)) ->
  exists item p,
    In item arrival /\ item.1 = entry.1
    /\ (task item).1 = ReturnsPair item.1 (Some p) /\ p <> "".
Proof.
  destruct sequences as [|first others]; [contradiction |].
  destruct (process_nonempty (first :: others) arrival fs ltac:(discriminate))
    as (_ & _ & -> & _).
  apply handle_owners.
Qed.

(** X21: a job that ends as [FAILED] is not fetched: nothing is requested
    for it, the output tree is passed on untouched, and the loop goes on with
    the next future. *)
Theorem X21_failed_job_is_not_fetched (item : string * string)
  (later : list (string * string)) (fs : FileSystem) (p : string) :
  (task item).1 = ReturnsPair item.1 (Some p) -> p <> "" ->
  (monitor_job_status item.1 p (polls_of p)).1 = Returned None ->
  handle (item :: later) fs
  = ((handle later fs).1,
     (item.1, EPrint (MsgStarted p item.1))
       :: tag item.1 (monitor_job_status item.1 p (polls_of p)).2
       ++ (handle later fs).2)
  /\ requested (monitor_job_status item.1 p (polls_of p)).2 = [].
Proof.
  intros Htask Hp Hmon. split.
  - destruct (handle_step item later fs)
      as [[Hnone _] | [(project & Hproj & Hfalse & _) | (p' & Hp' & _ & Hcase)]].
    + rewrite Htask in Hnone. discriminate Hnone.
    + rewrite Htask in Hproj. injection Hproj as <-. simpl in Hfalse.
      apply String.eqb_neq in Hp. now rewrite Hp in Hfalse.
    + rewrite Htask in Hp'. injection Hp' as <-.
      cbv zeta in Hcase. now rewrite Hmon in Hcase.
  - pose proof (monitor_never_downloads item.1 p (polls_of p)) as Hnever.
    induction Hnever as [|e events He _ IH]; [reflexivity |].
    destruct e; simpl in *; try exact IH. now contradiction He.
Qed.

Lemma handle_keeps (arrival : list (string * string)) (fs : FileSystem)
  (path : string) :
  is_Some (files fs !! path) ->
  is_Some (files (handle arrival fs).1.2 !! path).
Proof.
  revert fs. induction arrival as [|item later IH]; intros fs Hpath;
    [exact Hpath |].
  destruct (handle_step item later fs)
    as [[_ ->] | [(project & _ & _ & ->) | (p & _ & _ & Hcase)]];
    [exact Hpath | now apply IH |].
  cbv zeta in Hcase.
  destruct (monitor_job_status item.1 p (polls_of p)).1 as [[j|]|];
    rewrite Hcase; cbn [fst snd]; [|now apply IH | exact Hpath].
  apply IH. now apply fetch_keeps.
Qed.

(** X22: a run never removes a file from the output tree: what was on disk
    before the run is on disk after it, however the run ends. *)
Theorem X22_run_keeps_existing_files
  (sequences arrival : list (string * string)) (fs : FileSystem)
  (path : string) :
  is_Some (files fs !! path) ->
  is_Some (files (disk (process sequences arrival fs)) !! path).
Proof.
  destruct sequences as [|first others]; [now intros H |].
  destruct (process_nonempty (first :: others) arrival fs ltac:(discriminate))
    as (_ & -> & _).
  apply handle_keeps.
Qed.

(** X23: a file without a header line loads as the empty mapping, on which
    the run raises [ValueError] before anything is submitted or written. *)
Theorem X23_no_header_no_run (lines : list string)
  (arrival : list (string * string)) (fs : FileSystem) :
  Forall (fun line => ~ is_header line) lines ->
  exists sequences,
    _load_fasta_sequences lines = Some sequences
    /\ process sequences arrival fs
       = {| result := RaisesValueError; disk := fs; pool_traces := [];
            loop_trace := []; summary := [] |}.
Proof.
  intros Hlines. exists []. split; [|reflexivity].
  unfold _load_fasta_sequences. now rewrite load_lines_no_header by auto.
Qed.

Lemma tag_block (seq_id : string) (first : Event) (polled downloads : list Event)
  (trace : list Tagged) :
  (seq_id, first) :: tag seq_id polled ++ tag seq_id downloads ++ trace
  = tag seq_id (first :: polled ++ downloads) ++ trace.
Proof. unfold tag. simpl. now rewrite map_app, <- app_assoc. Qed.

Lemma fetch_fetches (fs : FileSystem) (seq_id : string) (j : StatusJson) :
  fetches out_dir http_get gunzip fs seq_id j
    (fetch fs seq_id j).1 (fetch fs seq_id j).2.
Proof.
  unfold fetch. destruct (model_data_of seq_id j) as [|item rest] eqn:E.
  - rewrite fetch_nothing by exact E. now constructor.
  - rewrite fetch_as_download_all by (rewrite E; discriminate).
    apply fetches_all; [rewrite E; discriminate | reflexivity].
Qed.

Lemma handle_follows (arrival : list (string * string)) (fs : FileSystem) :
  follows out_dir http_get gunzip template post_of polls_of arrival fs
    (handle arrival fs).1.1 (handle arrival fs).1.2 (handle arrival fs).2.
Proof.
  revert fs. induction arrival as [|item later IH]; intros fs; [constructor |].
  destruct (handle_step item later fs)
    as [[Hnone ->] | [(project & Htask & Hfalse & ->) | (p & Htask & Hp & Hcase)]].
  - now constructor.
  - eapply follows_no_project; [exact Htask | exact Hfalse | apply IH].
  - cbv zeta in Hcase.
    destruct (monitor_job_status item.1 p (polls_of p)) as [[[j|]|] polled] eqn:E;
      cbn [fst snd] in Hcase; rewrite Hcase; cbn [fst snd].
    + rewrite tag_block.
      eapply follows_completed_job;
        [exact Htask | exact Hp | exact E | apply fetch_fetches | apply IH].
    + rewrite <- (app_nil_r polled) at 1.
      change (?x :: tag item.1 (polled ++ []) ++ ?t)
        with (tag item.1 (snd x :: polled ++ []) ++ t).
      rewrite app_nil_r.
      eapply follows_failed_job; [exact Htask | exact Hp | exact E | apply IH].
    + now apply follows_polling.
Qed.

(** C2, as the code has it: the task handed to the pool is the submission
    alone and never polls a job or downloads.  The calling thread takes the
    completed submissions in the order of arrival and, for each one that came
    back with a project identifier, itself monitors the job and then, if the
    job completed, fetches its artifacts, before it turns to the next one: the
    events of a sequence end before those of the next begin.  ([follows] is
    stated for a run that has sequences and whose completed summaries list
    their models.) *)
Theorem C2_pool_submits_loop_serializes
  (sequences arrival : list (string * string)) (fs : FileSystem) :
  pool_traces (process sequences arrival fs)
  = map (fun item =>
           (item.1,
            (submit_request template (post_of item.1) item.1 item.2).2))
      sequences
  /\ Forall (fun entry =>
               Forall (fun e => ~ is_status_poll e /\ ~ is_download e) entry.2)
       (pool_traces (process sequences arrival fs))
  /\ in_blocks arrival (loop_trace (process sequences arrival fs))
  /\ (sequences <> [] -> summaries_list_models polls_of ->
      follows out_dir http_get gunzip template post_of polls_of arrival fs
        (result (process sequences arrival fs))
        (disk (process sequences arrival fs))
        (loop_trace (process sequences arrival fs))).
Proof.
  destruct (pool_submits_loop_in_blocks out_dir http_get gunzip template
              post_of polls_of sequences arrival fs) as [Hpool Hblocks].
  fold process in Hpool, Hblocks.
  split; [|split; [exact Hpool | split; [exact Hblocks |]]].
  - unfold process, process_sequences.
    destruct sequences as [|first others]; [reflexivity |].
    now destruct (handle_completed _ _ _ _ _ _ arrival fs) as [[outcome fs1] trace].
  - intros Hne _.
    destruct (process_nonempty sequences arrival fs Hne) as (-> & -> & -> & _).
    apply handle_follows.
Qed.

End LoopFacts.


Lemma X8_none_iff_five_rate_limits_witness :
  (submit_request "TEMPLATE" (Scenario.busy_for_first "cluster_1_medoid")
     "cluster_1_medoid" "MKTAYIAKQR").1 = ReturnsNone.
Proof.
  apply (proj2 (X8_none_iff_five_rate_limits "TEMPLATE"
                  (Scenario.busy_for_first "cluster_1_medoid")
                  "cluster_1_medoid" "MKTAYIAKQR")).
  intros k Hk. reflexivity.
Defined.

Lemma X19_run_finishes_witness :
  result (Scenario.run_with Scenario.accepts_all) = Finished
  /\ summary (Scenario.run_with Scenario.accepts_all)
     = [MsgLoaded 2; MsgAllProcessed].
Proof.
  apply (X19_run_finishes "out" Scenario.serve_gz Scenario.gunzip_ok "TEMPLATE"
           Scenario.accepts_all Scenario.completes_on_second
           Scenario.two_sequences Scenario.two_sequences empty_fs).
  - discriminate.
  - intros item Hitem. exists 1. split; [lia |]. simpl. lia.
  - intros project. exists (Answers 200 Scenario.one_cif_model). split.
    + simpl. tauto.
    + simpl. intros [H|[H _]]; [discriminate H | now apply H].
  - intros project code j [[= <- <-]|[[= <- <-]|[]]] Hdone;
      [discriminate Hdone | now eexists].
Defined.

Lemma X20_only_submitted_sequences_are_followed_witness :
  exists item p,
    In item Scenario.two_sequences /\ item.1 = "cluster_2_medoid"
    /\ (pool_task "TEMPLATE" Scenario.accepts_all item).1
       = ReturnsPair item.1 (Some p)
    /\ p <> "".
Proof.
  apply (X20_only_submitted_sequences_are_followed "out" Scenario.serve_gz
           Scenario.gunzip_ok "TEMPLATE" Scenario.accepts_all
           Scenario.completes_on_second Scenario.two_sequences
           Scenario.two_sequences empty_fs
           ("cluster_2_medoid", EGetStatus "P2")).
  vm_compute. tauto.
Defined.

Lemma X21_failed_job_is_not_fetched_witness :
  handle_completed "out" Scenario.serve_gz Scenario.gunzip_ok "TEMPLATE"
    Scenario.accepts_all always_failed [("cluster_1_medoid", "MKTAYIAKQR")]
    old_fs
  = (Finished, old_fs,
     tag "cluster_1_medoid"
       [EPrint (MsgStarted "P1" "cluster_1_medoid");
        ESleep 10; EGetStatus "P1";
        EPrint (MsgJobStatus "P1" "cluster_1_medoid" "FAILED")]).
Proof.
  destruct (X21_failed_job_is_not_fetched "out" Scenario.serve_gz
              Scenario.gunzip_ok "TEMPLATE" Scenario.accepts_all always_failed
              ("cluster_1_medoid", "MKTAYIAKQR") [] old_fs "P1")
    as [Hloop _].
  - reflexivity.
  - discriminate.
  - reflexivity.
  - rewrite Hloop. reflexivity.
Defined.

Lemma X22_run_keeps_existing_files_witness :
  is_Some
    (files (disk (process_sequences "out" Scenario.serve_gz Scenario.gunzip_ok
                    "TEMPLATE" Scenario.accepts_all Scenario.completes_on_second
                    Scenario.two_sequences Scenario.two_sequences old_fs))
       !! "out/notes.txt").
Proof.
  apply X22_run_keeps_existing_files. now eexists.
Defined.

Lemma X23_no_header_no_run_witness :
  exists sequences,
    _load_fasta_sequences ["; comment"; "ACGT"] = Some sequences
    /\ process_sequences "out" Scenario.serve_gz Scenario.gunzip_ok "TEMPLATE"
         Scenario.accepts_all Scenario.completes_on_second sequences [] empty_fs
       = {| result := RaisesValueError; disk := empty_fs; pool_traces := [];
            loop_trace := []; summary := [] |}.
Proof.
  apply X23_no_header_no_run. repeat constructor; discriminate.
Defined.

Lemma X10_monitor_ticks_witness :
  exists n : nat,
    (n <= 3)%nat
    /\ (monitor_job_status "cluster_1_medoid" "P1" (fails_on_second "P1")).2
       = flat_map (tick "P1" "cluster_1_medoid") (take n (fails_on_second "P1"))
    /\ ((monitor_job_status "cluster_1_medoid" "P1" (fails_on_second "P1")).1
        = StillPolling -> n = 3%nat).
Proof.
  exact (X10_monitor_ticks "cluster_1_medoid" "P1" (fails_on_second "P1")).
Defined.

(** ** Status codes and shared cluster numbers at concrete inputs *)

(** A response with status 301 is not a failure for the code: the project
    identifier of its body is returned, nothing is logged, and the job is
    monitored like any accepted one. *)
Lemma C8_redirect_status_is_not_a_failure :
  let item := ("cluster_1_medoid", "MKTAYIAKQR") in
  301 <> 429 /\ ~ 200 <= 301 < 300
  /\ pool_task "TEMPLATE" (fun _ => moved_permanently) item
     = (ReturnsPair "cluster_1_medoid" (Some "P301"),
        [EPost (Scenario.payload_of item)])
  /\ (handle_completed "out" Scenario.serve_gz Scenario.gunzip_ok "TEMPLATE"
        (fun _ => moved_permanently) always_failed [item] empty_fs).2
     = tag "cluster_1_medoid"
         [EPrint (MsgStarted "P301" "cluster_1_medoid");
          ESleep 10; EGetStatus "P301";
          EPrint (MsgJobStatus "P301" "cluster_1_medoid" "FAILED")].
Proof. repeat split; try lia; vm_compute; reflexivity. Qed.

(** C4, on two sequences of one cluster: both structure files are written to
    the same path, the second over the first, both reported as saved; at the
    end of the run the output tree holds one file, with the bytes of the
    second sequence. *)
Theorem C4_same_cluster_overwrites :
  let path := "out/cluster_3_model/CIF/cluster_3_model_001.cif" in
  let run :=
    process_sequences "out" serve_chains Scenario.gunzip_ok "TEMPLATE"
      accepts_chains completed_at_once chains chains empty_fs in
  NoDup (map fst chains)
  /\ result run = Finished
  /\ loop_trace run
     = tag "cluster_3_chainA"
         [EPrint (MsgStarted "PA" "cluster_3_chainA");
          ESleep 10; EGetStatus "PA";
          EPrint (MsgJobStatus "PA" "cluster_3_chainA" "COMPLETED");
          EGet "https://host/PA/01.cif"; EPrint (MsgSaved path)]
       ++ tag "cluster_3_chainB"
            [EPrint (MsgStarted "PB" "cluster_3_chainB");
             ESleep 10; EGetStatus "PB";
             EPrint (MsgJobStatus "PB" "cluster_3_chainB" "COMPLETED");
             EGet "https://host/PB/01.cif"; EPrint (MsgSaved path)]
  /\ serve_chains "https://host/PA/01.cif" = Answers 200 Scenario.cif_bytes
  /\ serve_chains "https://host/PB/01.cif" = Answers 200 Scenario.gz_bytes
  /\ files (disk run) = {[ path := Scenario.gz_bytes ]}.
Proof.
  repeat split; try (vm_compute; reflexivity).
  repeat (apply NoDup_cons; split); try apply NoDup_nil_2;
    rewrite ?list_elem_of_In; simpl; try tauto.
  intros [H|[]]. discriminate H.
Qed.

(** ** The fetcher over code points *)

Lemma wide_of_string_app (a b : string) :
  Wide.of_string (a +:+ b) = Wide.of_string a ++ Wide.of_string b.
Proof.
  unfold Wide.of_string. induction a as [|c a IH]; [reflexivity |].
  simpl. f_equal. exact IH.
Qed.

Lemma wide_of_string_inj (a b : string) :
  Wide.of_string a = Wide.of_string b -> a = b.
Proof.
  unfold Wide.of_string. revert b.
  induction a as [|c a IH]; intros [|d b] H; try discriminate H; [reflexivity |].
  simpl in H. injection H as Hc Hrest.
  f_equal; [|now apply IH].
  rewrite <- (ascii_N_embedding c), <- (ascii_N_embedding d). now f_equal.
Qed.

Lemma wide_sanitize_app (a b : list N) :
  Wide.sanitize_filename (a ++ b)
  = Wide.sanitize_filename a ++ Wide.sanitize_filename b.
Proof. apply map_app. Qed.

Lemma wide_sanitize_fixes_safe (s : list N) :
  WideSpec.safe s -> Wide.sanitize_filename s = s.
Proof.
  unfold WideSpec.safe, Wide.sanitize_filename.
  induction 1 as [|c s Hc _ IH]; [reflexivity |].
  simpl. now rewrite Hc, IH.
Qed.

Lemma wide_sanitize_is_safe (s : list N) :
  WideSpec.safe (Wide.sanitize_filename s).
Proof.
  unfold WideSpec.safe, Wide.sanitize_filename.
  induction s as [|c s IH]; constructor; [|exact IH].
  now destruct (Wide.is_safe_char c) eqn:E.
Qed.

Lemma wide_safe_app (a b : list N) :
  WideSpec.safe a -> WideSpec.safe b -> WideSpec.safe (a ++ b).
Proof. unfold WideSpec.safe. intros. now apply Forall_app. Qed.

Lemma wide_digits_safe (s : string) :
  all_chars Re.is_digit s = true -> WideSpec.safe (Wide.of_string s).
Proof.
  unfold WideSpec.safe, Wide.of_string.
  induction s as [|c s IH]; simpl; [constructor |].
  intros [Hc Hs]%andb_prop. constructor; [|now apply IH].
  unfold Re.is_digit, Re.in_range in Hc. unfold Wide.is_safe_char, Wide.in_range.
  cbv zeta in Hc. rewrite Hc. now rewrite !orb_true_r.
Qed.

Lemma wide_format_03_safe (n : nat) : WideSpec.safe (Wide.format_03 n).
Proof. apply wide_digits_safe, format_03_digits. Qed.

Lemma wide_format_03_inj (n m : nat) :
  Wide.format_03 n = Wide.format_03 m -> n = m.
Proof. intros H%wide_of_string_inj. now apply format_03_inj. Qed.

(** *** Joining paths *)

Lemma wide_startswith_slash (c : N) (s : list N) :
  c <> 47%N -> Wide.startswith (c :: s) (Wide.of_string "/") = false.
Proof.
  intros Hc. unfold Wide.startswith. apply bool_decide_eq_false.
  intros H%prefix_cons_inv_1. now apply Hc.
Qed.

Lemma wide_endswith_slash (s : list N) (c : N) :
  c <> 47%N -> Wide.endswith (s ++ [c]) (Wide.of_string "/") = false.
Proof.
  intros Hc. unfold Wide.endswith. apply bool_decide_eq_false.
  change (Wide.of_string "/") with ([] ++ [47%N]).
  intros H%suffix_snoc_inv_1. now apply Hc.
Qed.

Lemma wide_path_join_relative (a : list N) (c : N) (b : list N) :
  c <> 47%N ->
  Wide.path_join a (c :: b) = WideSpec.dir_prefix a ++ c :: b.
Proof.
  intros Hc. unfold Wide.path_join, WideSpec.dir_prefix.
  rewrite wide_startswith_slash by exact Hc.
  destruct (bool_decide (a = []) || Wide.endswith a (Wide.of_string "/"));
    [reflexivity |].
  now rewrite <- app_assoc.
Qed.

Lemma wide_path_join_cluster (a b : list N) :
  Wide.path_join a (Wide.of_string "cluster_" ++ b)
  = WideSpec.dir_prefix a ++ Wide.of_string "cluster_" ++ b.
Proof.
  apply (wide_path_join_relative a 99%N (Wide.of_string "luster_" ++ b)).
  discriminate.
Qed.

Lemma wide_dir_prefix_snoc (a : list N) (c : N) :
  c <> 47%N ->
  WideSpec.dir_prefix (a ++ [c]) = a ++ [c] ++ Wide.of_string "/".
Proof.
  intros Hc. unfold WideSpec.dir_prefix.
  rewrite wide_endswith_slash by exact Hc.
  rewrite bool_decide_eq_false_2 by (now destruct a).
  simpl. now rewrite <- app_assoc.
Qed.

Section WideFacts.

Variable is_decimal : N -> bool.
Variable out_dir : list N.
Variable http_get : list N -> Reply (list Byte.byte).
Variable gunzip : list Byte.byte -> list Byte.byte * bool.

Let cluster_number := Wide.cluster_number is_decimal.
Let destination := Wide.destination is_decimal out_dir.
Let destination_of := WideSpec.destination_of is_decimal out_dir.
Let download := Wide._download_and_extract is_decimal out_dir http_get gunzip.
Let every := Wide.download_all is_decimal out_dir http_get gunzip.

Lemma wide_span_digits_decimal (s : list N) :
  Forall (fun c => is_decimal c = true) (Wide.span_digits is_decimal s).1.
Proof.
  induction s as [|c s IH]; simpl; [constructor |].
  destruct (is_decimal c) eqn:E; [|constructor].
  destruct (Wide.span_digits is_decimal s) as [ds rest]. simpl in *.
  now constructor.
Qed.

Lemma wide_search_cluster_decimal (s ds : list N) :
  Wide.search_cluster is_decimal s = Some ds ->
  ds <> [] /\ Forall (fun c => is_decimal c = true) ds.
Proof.
  induction s as [|c s IH]; simpl.
  - unfold Wide.match_cluster_here. simpl. discriminate.
  - destruct (Wide.match_cluster_here is_decimal (c :: s)) as [ds'|] eqn:E;
      [|exact IH].
    intros [= <-]. unfold Wide.match_cluster_here in E.
    destruct (Wide.strip_prefix _ _) as [rest|]; [|discriminate E].
    pose proof (wide_span_digits_decimal rest) as Hds.
    destruct (Wide.span_digits is_decimal rest).1 as [|d ds0];
      [discriminate E |].
    injection E as <-. split; [discriminate | exact Hds].
Qed.

(** The cluster number is a run of decimal digits, or the word
    [unknown]. *)
Lemma wide_cluster_number_cases (seq_id : list N) :
  cluster_number seq_id = Wide.of_string "unknown"
  \/ (cluster_number seq_id <> []
      /\ Forall (fun c => is_decimal c = true) (cluster_number seq_id)).
Proof.
  unfold cluster_number, Wide.cluster_number.
  destruct (Wide.search_cluster is_decimal seq_id) as [ds|] eqn:E;
    [right; now apply (wide_search_cluster_decimal seq_id) | now left].
Qed.

(** *** The destination *)

Lemma wide_safe_filename_flat (seq_id : list N) (n : nat) (file_type : string) :
  Wide.safe_filename is_decimal seq_id n file_type
  = Wide.of_string "cluster_"
      ++ Wide.sanitize_filename (cluster_number seq_id)
      ++ Wide.of_string "_model_" ++ Wide.format_03 n
      ++ Wide.of_string (file_extension file_type).
Proof.
  unfold Wide.safe_filename. rewrite !wide_sanitize_app.
  rewrite (wide_sanitize_fixes_safe (Wide.format_03 n))
    by apply wide_format_03_safe.
  destruct (sub_folder_cases file_type) as [[_ ->] | [_ ->]]; reflexivity.
Qed.

Lemma wide_cluster_folder_flat (seq_id : list N) (file_type : string) :
  Wide.cluster_folder is_decimal out_dir seq_id file_type
  = WideSpec.dir_prefix out_dir ++ Wide.of_string "cluster_"
      ++ cluster_number seq_id ++ Wide.of_string "_model"
      ++ Wide.of_string "/" ++ Wide.of_string (sub_folder file_type).
Proof.
  unfold Wide.cluster_folder.
  rewrite wide_path_join_cluster.
  assert (forall a b : list N,
            Wide.path_join (a ++ Wide.of_string "_model")
              (Wide.of_string (sub_folder file_type))
            = a ++ Wide.of_string "_model" ++ Wide.of_string "/"
                ++ Wide.of_string (sub_folder file_type)) as Hjoin.
  { intros a _.
    change (Wide.of_string "_model") with (Wide.of_string "_mode" ++ [108%N]).
    rewrite !app_assoc.
    destruct (sub_folder_cases file_type) as [[-> _] | [-> _]];
      [change (Wide.of_string "CIF") with (67%N :: Wide.of_string "IF")
      |change (Wide.of_string "PDB") with (80%N :: Wide.of_string "DB")];
      (rewrite wide_path_join_relative by discriminate);
      (rewrite wide_dir_prefix_snoc by discriminate);
      now rewrite <- !app_assoc. }
  rewrite !app_assoc. rewrite Hjoin by exact [].
  now rewrite <- !app_assoc.
Qed.

(** The path of line 172: the folder carries the cluster number as it stands
    in the identifier, the file name carries it sanitized. *)
Lemma wide_destination_flat (seq_id : list N) (n : nat) (file_type : string) :
  destination seq_id n file_type
  = WideSpec.dir_prefix out_dir ++ Wide.of_string "cluster_"
      ++ cluster_number seq_id ++ Wide.of_string "_model"
      ++ Wide.of_string "/" ++ Wide.of_string (sub_folder file_type)
      ++ Wide.of_string "/" ++ Wide.of_string "cluster_"
      ++ Wide.sanitize_filename (cluster_number seq_id)
      ++ Wide.of_string "_model_" ++ Wide.format_03 n
      ++ Wide.of_string (file_extension file_type).
Proof.
  unfold destination, Wide.destination.
  rewrite wide_safe_filename_flat, wide_cluster_folder_flat.
  rewrite wide_path_join_cluster.
  rewrite !app_assoc.
  destruct (sub_folder_cases file_type) as [[-> _] | [-> _]].
  - change (Wide.of_string "CIF") with (Wide.of_string "CI" ++ [70%N]).
    rewrite !app_assoc, wide_dir_prefix_snoc by discriminate.
    now rewrite <- !app_assoc.
  - change (Wide.of_string "PDB") with (Wide.of_string "PD" ++ [66%N]).
    rewrite !app_assoc, wide_dir_prefix_snoc by discriminate.
    now rewrite <- !app_assoc.
Qed.

(** The path handed to [open] ends in [.cif] or [.pdb]: the test of line 181
    is never true. *)
Lemma wide_destination_not_gz (seq_id : list N) (n : nat) (file_type : string) :
  Wide.endswith (destination seq_id n file_type) (Wide.of_string ".gz") = false.
Proof.
  rewrite wide_destination_flat. unfold Wide.endswith.
  apply bool_decide_eq_false. rewrite !app_assoc.
  change (Wide.of_string ".gz") with (Wide.of_string ".g" ++ [122%N]).
  destruct (sub_folder_cases file_type) as [[_ ->] | [_ ->]].
  - change (Wide.of_string ".cif") with (Wide.of_string ".ci" ++ [102%N]).
    rewrite !app_assoc. intros H%suffix_snoc_inv_1. discriminate H.
  - change (Wide.of_string ".pdb") with (Wide.of_string ".pd" ++ [98%N]).
    rewrite !app_assoc. intros H%suffix_snoc_inv_1. discriminate H.
Qed.

(** For one identifier, equal destinations mean equal model number and equal
    kind. *)
Lemma wide_destination_inj (seq_id : list N) (n m : nat) (ft1 ft2 : string) :
  destination seq_id n ft1 = destination seq_id m ft2 ->
  n = m /\ sub_folder ft1 = sub_folder ft2.
Proof.
  rewrite !wide_destination_flat. intros H.
  do 5 apply app_inv_head in H.
  destruct (sub_folder_cases ft1) as [[S1 E1] | [S1 E1]];
    destruct (sub_folder_cases ft2) as [[S2 E2] | [S2 E2]];
    rewrite S1, S2, E1, E2 in *; try discriminate H;
    (split; [|reflexivity]);
    do 5 apply app_inv_head in H;
    apply app_inv_tail in H; now apply wide_format_03_inj.
Qed.

(** *** One download *)

(** The files after a download: the body is stored at the destination when
    the download delivers one, and nothing changes otherwise. *)
Lemma wide_download_files (fs : Wide.FileSystem) (model_data : Wide.ModelData) :
  Wide.files (download fs model_data).1
  = match WideSpec.delivered http_get model_data with
    | Some content =>
        <[ destination_of model_data := content ]> (Wide.files fs)
    | None => Wide.files fs
    end.
Proof.
  destruct model_data as [[[seq_id [url|]] n] file_type];
    unfold download, Wide._download_and_extract, WideSpec.delivered;
    cbn [fst snd]; [|reflexivity].
  pose proof (wide_destination_not_gz seq_id n file_type) as Hgz.
  unfold destination in Hgz. cbv zeta.
  destruct (http_get url) as [|code content]; [reflexivity |].
  destruct (raise_for_status code); [reflexivity |].
  now rewrite Hgz.
Qed.

Lemma wide_download_requested (fs : Wide.FileSystem)
  (model_data : Wide.ModelData) :
  WideSpec.requested (download fs model_data).2
  = WideSpec.text_urls [model_data].
Proof.
  destruct model_data as [[[seq_id [url|]] n] file_type];
    unfold download, Wide._download_and_extract, WideSpec.text_urls;
    cbn [fst snd omap list_omap]; [|reflexivity].
  pose proof (wide_destination_not_gz seq_id n file_type) as Hgz.
  unfold destination in Hgz. cbv zeta.
  destruct (http_get url) as [|code content]; [reflexivity |].
  destruct (raise_for_status code); [reflexivity |].
  now rewrite Hgz.
Qed.

(** *** The downloads of a manifest, in any order *)

Lemma wide_download_all_cons (fs : Wide.FileSystem) (item : Wide.ModelData)
  (later : list Wide.ModelData) :
  every fs (item :: later)
  = ((every (download fs item).1 later).1,
     (download fs item).2 ++ (every (download fs item).1 later).2).
Proof.
  unfold every, download. cbn [Wide.download_all].
  destruct (Wide._download_and_extract _ _ _ _ fs item) as [fs1 events].
  cbn [fst snd].
  now destruct (Wide.download_all _ _ _ _ fs1 later) as [fs2 rest].
Qed.

Lemma wide_download_all_requested (fs : Wide.FileSystem)
  (order : list Wide.ModelData) :
  WideSpec.requested (every fs order).2 = WideSpec.text_urls order.
Proof.
  revert fs. induction order as [|item later IH]; intros fs; [reflexivity |].
  rewrite wide_download_all_cons. cbn [snd].
  unfold WideSpec.requested in *. rewrite omap_app.
  fold (WideSpec.requested (download fs item).2).
  rewrite wide_download_requested, IH.
  unfold WideSpec.text_urls. now rewrite <- omap_app.
Qed.

(** A path that is the destination of none of the tuples keeps its
    content. *)
Lemma wide_download_all_elsewhere (fs : Wide.FileSystem)
  (order : list Wide.ModelData) (path : list N) :
  ~ In path (map destination_of order) ->
  Wide.files (every fs order).1 !! path = Wide.files fs !! path.
Proof.
  revert fs. induction order as [|item later IH]; intros fs Hpath;
    [reflexivity |].
  rewrite wide_download_all_cons. cbn [fst].
  rewrite IH by (intros H; apply Hpath; now right).
  rewrite wide_download_files.
  destruct (WideSpec.delivered http_get item); [|reflexivity].
  apply lookup_insert_ne. intros H. apply Hpath. now left.
Qed.

(** When no two tuples share a destination, the file at the destination of
    a tuple is the body its download delivered, or, when it delivered none,
    the file that was there before. *)
Lemma wide_download_all_lookup (fs : Wide.FileSystem)
  (order : list Wide.ModelData) (model_data : Wide.ModelData) :
  NoDup (map destination_of order) ->
  In model_data order ->
  Wide.files (every fs order).1 !! destination_of model_data
  = match WideSpec.delivered http_get model_data with
    | Some content => Some content
    | None => Wide.files fs !! destination_of model_data
    end.
Proof.
  revert fs. induction order as [|item later IH]; intros fs Hnodup Hin;
    [destruct Hin |].
  simpl in Hnodup. apply NoDup_cons in Hnodup as [Hitem Hlater].
  rewrite wide_download_all_cons. cbn [fst].
  destruct Hin as [-> | Hin].
  - rewrite wide_download_all_elsewhere
      by (intros H; apply Hitem; now apply list_elem_of_In).
    rewrite wide_download_files.
    destruct (WideSpec.delivered http_get model_data);
      [apply lookup_insert_eq | reflexivity].
  - rewrite IH by assumption.
    destruct (WideSpec.delivered http_get model_data); [reflexivity |].
    rewrite wide_download_files.
    destruct (WideSpec.delivered http_get item); [|reflexivity].
    apply lookup_insert_ne. intros H. apply Hitem, list_elem_of_In.
    rewrite H. now apply in_map.
Qed.

(** *** The tuples of a manifest *)

Lemma wide_collect_cons (seq_id : list N) (i : nat) (model : Wide.Entry)
  (later : list Wide.Entry) :
  Wide.collect_model_data seq_id i (model :: later)
  = Wide.collect_model_data seq_id i [model]
      ++ Wide.collect_model_data seq_id (S i) later.
Proof. simpl. now rewrite !app_nil_r, <- app_assoc. Qed.

Lemma wide_collect_one_shape (seq_id : list N) (i : nat) (model : Wide.Entry)
  (model_data : Wide.ModelData) :
  In model_data (Wide.collect_model_data seq_id i [model]) ->
  model_data.1.1.1 = seq_id /\ WideSpec.model_number_of model_data = i
  /\ (WideSpec.file_type_of model_data = "modelcif"
      \/ WideSpec.file_type_of model_data = "coordinates").
Proof.
  simpl.
  destruct (Wide.modelcif_url model), (Wide.coordinates_url model); simpl;
    intros H; repeat destruct H as [<- | H]; try destruct H; simpl; auto.
Qed.

Lemma wide_collect_shape (seq_id : list N) (entries : list Wide.Entry)
  (i : nat) (model_data : Wide.ModelData) :
  In model_data (Wide.collect_model_data seq_id i entries) ->
  model_data.1.1.1 = seq_id /\ (i <= WideSpec.model_number_of model_data)%nat
  /\ (WideSpec.file_type_of model_data = "modelcif"
      \/ WideSpec.file_type_of model_data = "coordinates").
Proof.
  revert i. induction entries as [|model later IH]; intros i; [intros [] |].
  rewrite wide_collect_cons. intros [H | H]%in_app_or.
  - apply wide_collect_one_shape in H as (? & ? & ?). repeat split; auto; lia.
  - apply IH in H as (? & ? & ?). repeat split; auto; lia.
Qed.

Lemma wide_collect_one_destinations (seq_id : list N) (i : nat)
  (model : Wide.Entry) :
  NoDup (map destination_of (Wide.collect_model_data seq_id i [model])).
Proof.
  simpl.
  destruct (Wide.modelcif_url model), (Wide.coordinates_url model); simpl;
    repeat (apply NoDup_cons; split); try apply NoDup_nil_2;
    rewrite ?list_elem_of_In; simpl; try tauto.
  intros [H|[]]. unfold destination_of, WideSpec.destination_of in H.
  cbn in H. apply wide_destination_inj in H as [_ H]. discriminate H.
Qed.

(** No two tuples of a manifest share a destination. *)
Lemma wide_collect_destinations (seq_id : list N) (entries : list Wide.Entry)
  (i : nat) :
  NoDup (map destination_of (Wide.collect_model_data seq_id i entries)).
Proof.
  revert i. induction entries as [|model later IH]; intros i; [constructor |].
  rewrite wide_collect_cons, map_app. apply NoDup_app.
  split; [apply wide_collect_one_destinations | split; [|apply IH]].
  intros path. rewrite !list_elem_of_In.
  intros (a & <- & Ha)%in_map_iff (b & Hab & Hb)%in_map_iff.
  apply wide_collect_one_shape in Ha as (Ha1 & Ha2 & _).
  apply wide_collect_shape in Hb as (Hb1 & Hb2 & _).
  unfold destination_of, WideSpec.destination_of in Hab.
  rewrite Ha1, Hb1 in Hab. apply wide_destination_inj in Hab as [Hn _]. lia.
Qed.

Lemma wide_refs_of_index_all (i : nat) (l : list Wide.ModelData) :
  (forall model_data, In model_data l ->
     WideSpec.model_number_of model_data = i) ->
  WideSpec.refs_of_index i l = l.
Proof.
  unfold WideSpec.refs_of_index. induction l as [|x l IH]; intros H;
    [reflexivity |].
  rewrite filter_cons_True by (apply H; now left).
  f_equal. apply IH. intros y Hy. apply H. now right.
Qed.

Lemma wide_refs_of_index_none (i : nat) (l : list Wide.ModelData) :
  (forall model_data, In model_data l ->
     WideSpec.model_number_of model_data <> i) ->
  WideSpec.refs_of_index i l = [].
Proof.
  unfold WideSpec.refs_of_index. induction l as [|x l IH]; intros H;
    [reflexivity |].
  rewrite filter_cons_False by (apply H; now left).
  apply IH. intros y Hy. apply H. now right.
Qed.

(** The tuples with model number [i + k] are those of the entry at position
    [k]. *)
Lemma wide_refs_of_index_collect (seq_id : list N) (entries : list Wide.Entry)
  (i k : nat) (model : Wide.Entry) :
  entries !! k = Some model ->
  WideSpec.refs_of_index (i + k) (Wide.collect_model_data seq_id i entries)
  = Wide.collect_model_data seq_id (i + k) [model].
Proof.
  revert i k. induction entries as [|first later IH]; intros i k Hk;
    [discriminate |].
  rewrite wide_collect_cons.
  unfold WideSpec.refs_of_index. rewrite filter_app.
  fold (WideSpec.refs_of_index (i + k)
          (Wide.collect_model_data seq_id i [first])).
  fold (WideSpec.refs_of_index (i + k)
          (Wide.collect_model_data seq_id (S i) later)).
  destruct k as [|k]; simpl in Hk.
  - injection Hk as ->. rewrite Nat.add_0_r.
    rewrite wide_refs_of_index_all
      by (intros md Hmd; now apply wide_collect_one_shape in Hmd as (_ & ? & _)).
    rewrite wide_refs_of_index_none; [apply app_nil_r |].
    intros md Hmd. apply wide_collect_shape in Hmd as (_ & ? & _). lia.
  - rewrite wide_refs_of_index_none.
    + replace (i + S k)%nat with (S i + k)%nat by lia. now apply IH.
    + intros md Hmd. apply wide_collect_one_shape in Hmd as (_ & ? & _). lia.
Qed.

(** *** The whole fetch *)

Lemma wide_search_cluster_chars (s ds : list N) (c : N) :
  Wide.search_cluster is_decimal s = Some ds -> In c ds -> In c s.
Proof.
  assert (forall p t rest, Wide.strip_prefix p t = Some rest ->
            In c rest -> In c t) as Hstrip.
  { induction p as [|a p IHp]; intros [|b t] rest; simpl;
      try discriminate; try (now intros [= <-]).
    destruct (a =? b)%N; [|discriminate]. intros H Hc. right.
    now apply (IHp t rest). }
  assert (forall t, In c (Wide.span_digits is_decimal t).1 -> In c t)
    as Hspan.
  { induction t as [|b t IHt]; simpl; [easy |].
    destruct (is_decimal b); [|intros []].
    destruct (Wide.span_digits is_decimal t) as [digits rest]. simpl in *.
    intros [-> | H]; [now left | right; now apply IHt]. }
  induction s as [|b s IH]; simpl.
  - unfold Wide.match_cluster_here. simpl. discriminate.
  - destruct (Wide.match_cluster_here is_decimal (b :: s)) as [ds'|] eqn:E.
    + intros [= <-] Hc. unfold Wide.match_cluster_here in E.
      destruct (Wide.strip_prefix _ _) as [rest|] eqn:Erest;
        [|discriminate E].
      apply (Hstrip _ _ _ Erest), Hspan.
      destruct (Wide.span_digits is_decimal rest).1; [discriminate E |].
      now injection E as ->.
    + intros H Hc. right. now apply IH.
Qed.

(** When the identifier is written in ASCII, the cluster number is made of
    the characters [0-9] or is the word [unknown]: sanitizing leaves it as
    it is. *)
Lemma wide_ascii_cluster_number_safe (seq_id : list N) :
  (forall c, (c < 128)%N -> is_decimal c = true ->
     Wide.in_range 48 57 c = true) ->
  Forall (fun c => (c < 128)%N) seq_id ->
  WideSpec.safe (cluster_number seq_id).
Proof.
  intros Htable Hascii. unfold cluster_number, Wide.cluster_number.
  destruct (Wide.search_cluster is_decimal seq_id) as [ds|] eqn:E.
  - destruct (wide_search_cluster_decimal seq_id ds E) as [_ Hds].
    unfold WideSpec.safe. apply List.Forall_forall. intros c Hc.
    rewrite List.Forall_forall in Hds, Hascii.
    pose proof (Htable c (Hascii c (wide_search_cluster_chars _ _ _ E Hc))
                  (Hds c Hc)) as Hdigit.
    unfold Wide.is_safe_char. rewrite Hdigit. now rewrite !orb_true_r.
  - unfold WideSpec.safe. repeat constructor.
Qed.

Variable schedule : list Wide.ModelData -> list Wide.ModelData.
Hypothesis schedule_reorders : WideSpec.reorders schedule.

Let fetch := Wide.fetch_model_results is_decimal out_dir http_get gunzip schedule.

(** A manifest that lists its models is fetched without an exception; the
    URLs requested are those of its tuples, each as often as it is listed;
    the file at the destination of a tuple is what its download
    delivered. *)
Lemma wide_fetch_listed (fs : Wide.FileSystem) (seq_id : list N)
  (status_json : Wide.Summary) (entries : list Wide.Entry) :
  Wide.models status_json = Wide.Listed entries ->
  exists fs' events,
    fetch fs seq_id status_json = Wide.Returns fs' events
    /\ Permutation (WideSpec.requested events)
         (WideSpec.text_urls (Wide.collect_model_data seq_id 1 entries))
    /\ forall model_data,
         In model_data (Wide.collect_model_data seq_id 1 entries) ->
         Wide.files fs' !! destination_of model_data
         = match WideSpec.delivered http_get model_data with
           | Some content => Some content
           | None => Wide.files fs !! destination_of model_data
           end.
Proof.
  intros Hmodels. unfold fetch, Wide.fetch_model_results. rewrite Hmodels.
  destruct (Wide.collect_model_data seq_id 1 entries) as [|item later] eqn:E.
  - exists fs, [Wide.ENoModels seq_id]. split; [reflexivity |].
    split; [reflexivity | intros md []].
  - rewrite <- E.
    pose proof (wide_download_all_requested fs
                  (schedule (Wide.collect_model_data seq_id 1 entries)))
      as Hrequested.
    pose proof (wide_download_all_lookup fs
                  (schedule (Wide.collect_model_data seq_id 1 entries)))
      as Hlookup.
    unfold every in Hrequested, Hlookup.
    destruct (Wide.download_all _ _ _ _ fs _) as [fs' events].
    exists fs', events. split; [reflexivity |]. cbn [fst snd] in *. split.
    + rewrite Hrequested. unfold WideSpec.text_urls.
      apply omap_Permutation, schedule_reorders.
    + intros md Hmd. apply Hlookup.
      * rewrite (Permutation_map _ (schedule_reorders _)).
        apply wide_collect_destinations.
      * apply (Permutation_in _ (Permutation_sym (schedule_reorders _)) Hmd).
Qed.

End WideFacts.

(** C7, as the code has it: a manifest entry at model index [i] with both
    URLs yields exactly the two tuples of that index, one per kind; the fetch
    requests both URLs and, whatever the order in which the pool runs the
    downloads, the body of each download that succeeds is the file at
    [<out>/cluster_<N>_model/CIF/cluster_<N'>_model_<iii>.cif] and
    [<out>/cluster_<N>_model/PDB/cluster_<N'>_model_<iii>.pdb], where [N] is
    the cluster number as it stands in the identifier, [N'] is [N] with every
    character outside [A-Za-z0-9_.-] replaced by an underscore, and [iii] is
    the index padded with zeros to three digits (1 gives 001, 23 gives 023,
    104 gives 104).  For an identifier written in ASCII, [N'] is [N]. *)
Theorem C7_two_refs_fetched_and_laid_out (is_decimal : N -> bool)
  (out_dir : list N) (http_get : list N -> Reply (list Byte.byte))
  (gunzip : list Byte.byte -> list Byte.byte * bool)
  (schedule : list Wide.ModelData -> list Wide.ModelData)
  (fs : Wide.FileSystem) (seq_id : list N) (status_json : Wide.Summary)
  (entries : list Wide.Entry) (k : nat) (model : Wide.Entry)
  (cif_url pdb_url : list N) :
  WideSpec.reorders schedule ->
  Wide.models status_json = Wide.Listed entries ->
  entries !! k = Some model ->
  Wide.modelcif_url model = Some (Wide.UrlText cif_url) ->
  Wide.coordinates_url model = Some (Wide.UrlText pdb_url) ->
  let i := S k in
  let number := Wide.cluster_number is_decimal seq_id in
  let cif := (seq_id, Wide.UrlText cif_url, i, "modelcif") in
  let pdb := (seq_id, Wide.UrlText pdb_url, i, "coordinates") in
  let path_of (sub ext : string) :=
    WideSpec.dir_prefix out_dir ++ Wide.of_string "cluster_" ++ number
      ++ Wide.of_string "_model/" ++ Wide.of_string sub
      ++ Wide.of_string "/cluster_" ++ Wide.sanitize_filename number
      ++ Wide.of_string "_model_" ++ Wide.format_03 i ++ Wide.of_string ext in
  WideSpec.refs_of_index i (Wide.collect_model_data seq_id 1 entries)
  = [cif; pdb]
  /\ WideSpec.destination_of is_decimal out_dir cif = path_of "CIF" ".cif"
  /\ WideSpec.destination_of is_decimal out_dir pdb = path_of "PDB" ".pdb"
  /\ (exists fs' events,
        Wide.fetch_model_results is_decimal out_dir http_get gunzip schedule
          fs seq_id status_json
        = Wide.Returns fs' events
        /\ In (Wide.EGet cif_url) events /\ In (Wide.EGet pdb_url) events
        /\ Wide.files fs' !! path_of "CIF" ".cif"
           = match WideSpec.delivered http_get cif with
             | Some content => Some content
             | None => Wide.files fs !! path_of "CIF" ".cif"
             end
        /\ Wide.files fs' !! path_of "PDB" ".pdb"
           = match WideSpec.delivered http_get pdb with
             | Some content => Some content
             | None => Wide.files fs !! path_of "PDB" ".pdb"
             end)
  /\ ((forall c, (c < 128)%N -> is_decimal c = true ->
         Wide.in_range 48 57 c = true) ->
      Forall (fun c => (c < 128)%N) seq_id ->
      Wide.sanitize_filename number = number)
  /\ Wide.format_03 1 = Wide.of_string "001"
  /\ Wide.format_03 23 = Wide.of_string "023"
  /\ Wide.format_03 104 = Wide.of_string "104".
Proof.
  intros Hschedule Hmodels Hk Hcif Hpdb i number cif pdb path_of.
  assert (WideSpec.refs_of_index i (Wide.collect_model_data seq_id 1 entries)
          = [cif; pdb]) as Hrefs.
  { change i with (1 + k)%nat.
    rewrite (wide_refs_of_index_collect _ _ _ _ model Hk).
    simpl. now rewrite Hcif, Hpdb. }
  assert (WideSpec.destination_of is_decimal out_dir cif = path_of "CIF" ".cif")
    as Hcif_path.
  { unfold WideSpec.destination_of, cif, path_of. cbn [fst snd].
    unfold WideSpec.model_number_of, WideSpec.file_type_of. cbn [fst snd].
    rewrite wide_destination_flat.
    change (sub_folder "modelcif") with "CIF".
    change (file_extension "modelcif") with ".cif".
    reflexivity. }
  assert (WideSpec.destination_of is_decimal out_dir pdb = path_of "PDB" ".pdb")
    as Hpdb_path.
  { unfold WideSpec.destination_of, pdb, path_of. cbn [fst snd].
    unfold WideSpec.model_number_of, WideSpec.file_type_of. cbn [fst snd].
    rewrite wide_destination_flat.
    change (sub_folder "coordinates") with "PDB".
    change (file_extension "coordinates") with ".pdb".
    reflexivity. }
  assert (In cif (Wide.collect_model_data seq_id 1 entries)
          /\ In pdb (Wide.collect_model_data seq_id 1 entries)) as [Hin_cif Hin_pdb].
  { assert (forall md, In md [cif; pdb] ->
              In md (Wide.collect_model_data seq_id 1 entries)) as Hsub.
    { intros md Hmd. rewrite <- Hrefs in Hmd.
      apply list_elem_of_In, list_elem_of_filter in Hmd as [_ Hmd].
      now apply list_elem_of_In. }
    split; apply Hsub; simpl; auto. }
  split; [exact Hrefs | split; [exact Hcif_path | split; [exact Hpdb_path |]]].
  split; [|split].
  - destruct (wide_fetch_listed is_decimal out_dir http_get gunzip schedule
                Hschedule fs seq_id status_json entries Hmodels)
      as (fs' & events & Hfetch & Hrequested & Hfiles).
    exists fs', events. split; [exact Hfetch |].
    assert (forall url md,
              In md (Wide.collect_model_data seq_id 1 entries) ->
              md.1.1.2 = Wide.UrlText url -> In (Wide.EGet url) events)
      as Hget.
    { intros url md Hmd Hurl.
      assert (In url (WideSpec.requested events)) as Hin.
      { apply (Permutation_in _ (Permutation_sym Hrequested)).
        apply list_elem_of_In, list_elem_of_omap. exists md.
        split; [now apply list_elem_of_In | now rewrite Hurl]. }
      apply list_elem_of_In, list_elem_of_omap in Hin as (e & He & Hurl').
      destruct e; try discriminate Hurl'. injection Hurl' as ->.
      now apply list_elem_of_In. }
    split; [now apply (Hget cif_url cif) |].
    split; [now apply (Hget pdb_url pdb) |].
    rewrite <- Hcif_path, <- Hpdb_path.
    split; now apply Hfiles.
  - intros Htable Hascii. apply wide_sanitize_fixes_safe.
    now apply wide_ascii_cluster_number_safe.
  - now repeat split.
Qed.




(** X14: every URL the manifest gives as a string is requested, each as often
    as the manifest lists it, whatever the order in which the pool runs the
    downloads and whether or not other downloads fail. *)
Theorem X14_every_url_is_requested_once (is_decimal : N -> bool)
  (out_dir : list N) (http_get : list N -> Reply (list Byte.byte))
  (gunzip : list Byte.byte -> list Byte.byte * bool)
  (schedule : list Wide.ModelData -> list Wide.ModelData)
  (fs : Wide.FileSystem) (seq_id : list N) (status_json : Wide.Summary)
  (entries : list Wide.Entry) :
  WideSpec.reorders schedule ->
  Wide.models status_json = Wide.Listed entries ->
  exists fs' events,
    Wide.fetch_model_results is_decimal out_dir http_get gunzip schedule
      fs seq_id status_json
    = Wide.Returns fs' events
    /\ Permutation (WideSpec.requested events)
         (WideSpec.text_urls (Wide.collect_model_data seq_id 1 entries)).
Proof.
  intros Hschedule Hmodels.
  destruct (wide_fetch_listed is_decimal out_dir http_get gunzip schedule
              Hschedule fs seq_id status_json entries Hmodels)
    as (fs' & events & Hfetch & Hrequested & _).
  now exists fs', events.
Qed.

(** X18: whatever the identifier, an artifact is written two levels below
    the output directory: into a cluster directory and a [CIF] or [PDB]
    subdirectory.  The directory name starts with [cluster_] and holds no
    separator; the file name starts with [cluster_] and consists of the
    characters [A-Za-z0-9_.-] only.  The URL does not enter the path. *)
Theorem X18_destination_stays_below_out_dir (is_decimal : N -> bool)
  (out_dir seq_id : list N) (model_number : nat) (file_type : string) :
  is_decimal 47%N = false ->
  exists folder file,
    Wide.destination is_decimal out_dir seq_id model_number file_type
    = WideSpec.dir_prefix out_dir ++ folder ++ Wide.of_string "/"
        ++ Wide.of_string (sub_folder file_type) ++ Wide.of_string "/" ++ file
    /\ Wide.of_string "cluster_" `prefix_of` folder
    /\ ~ In 47%N folder
    /\ Wide.of_string "cluster_" `prefix_of` file
    /\ WideSpec.safe file
    /\ (sub_folder file_type = "CIF" \/ sub_folder file_type = "PDB").
Proof.
  intros Hslash.
  exists (Wide.of_string "cluster_" ++ Wide.cluster_number is_decimal seq_id
            ++ Wide.of_string "_model"),
    (Wide.of_string "cluster_"
       ++ Wide.sanitize_filename (Wide.cluster_number is_decimal seq_id)
       ++ Wide.of_string "_model_" ++ Wide.format_03 model_number
       ++ Wide.of_string (file_extension file_type)).
  split; [rewrite wide_destination_flat; now rewrite <- !app_assoc |].
  split; [now apply prefix_app_r |].
  split; [|split; [now apply prefix_app_r | split]].
  - rewrite !in_app_iff. intros [H | [H | H]].
    + revert H. vm_compute. intuition discriminate.
    + destruct (wide_cluster_number_cases is_decimal seq_id)
        as [Hunknown | [_ Hdecimal]].
      * rewrite Hunknown in H. revert H. vm_compute. intuition discriminate.
      * rewrite List.Forall_forall in Hdecimal. apply Hdecimal in H.
        congruence.
    + revert H. vm_compute. intuition discriminate.
  - repeat apply wide_safe_app.
    + repeat constructor.
    + apply wide_sanitize_is_safe.
    + repeat constructor.
    + apply wide_format_03_safe.
    + destruct (sub_folder_cases file_type) as [[_ ->] | [_ ->]];
        repeat constructor.
  - destruct (sub_folder_cases file_type) as [[-> _] | [-> _]]; auto.
Qed.

(** ** The fetcher over code points at concrete inputs *)

(** On the identifier [cluster_<U+0663>_medoid], whose digit is the
    ARABIC-INDIC DIGIT THREE, the cluster number is that digit; the structure
    file of the second model is written into the folder that carries the
    digit, under a file name in which an underscore stands in its place; no
    file whose name carries the digit exists. *)
Lemma C7_unicode_digit_is_replaced_in_file_name :
  let number := [1635%N] in
  let folder :=
    Wide.of_string "out/cluster_" ++ number ++ Wide.of_string "_model/CIF/" in
  let claimed :=
    folder ++ Wide.of_string "cluster_" ++ number
      ++ Wide.of_string "_model_002.cif" in
  let written := folder ++ Wide.of_string "cluster___model_002.cif" in
  Wide.cluster_number Wide.ascii_and_arabic_indic WideSpec.arabic_indic_id
  = number
  /\ Wide.ascii_and_arabic_indic 1635 = true
  /\ match
       Wide.fetch_model_results Wide.ascii_and_arabic_indic
         (Wide.of_string "out") WideSpec.serves_all Scenario.gunzip_ok id
         WideSpec.empty_fs WideSpec.arabic_indic_id WideSpec.second_has_both
     with
     | Wide.Returns fs' events =>
         In (Wide.ESaved written) events
         /\ Wide.files fs' !! written = Some Scenario.cif_bytes
         /\ Wide.files fs' !! claimed = None
     | Wide.RaisesTypeError => False
     end.
Proof.
  vm_compute. tauto.
Qed.

Lemma C7_two_refs_fetched_and_laid_out_witness :
  let cif_path :=
    Wide.of_string "out/cluster_7_model/CIF/cluster_7_model_002.cif" in
  let pdb_path :=
    Wide.of_string "out/cluster_7_model/PDB/cluster_7_model_002.pdb" in
  exists fs' events,
    Wide.fetch_model_results Wide.ascii_and_arabic_indic
      (Wide.of_string "out") WideSpec.serves_pdb_only Scenario.gunzip_ok
      (@rev Wide.ModelData) WideSpec.empty_fs
      (Wide.of_string "cluster_7_medoid") WideSpec.second_has_both
    = Wide.Returns fs' events
    /\ In (Wide.EGet WideSpec.cif_url) events
    /\ In (Wide.EGet WideSpec.pdb_url) events
    /\ Wide.files fs' !! cif_path = None
    /\ Wide.files fs' !! pdb_path = Some Scenario.cif_bytes.
Proof.
  intros cif_path pdb_path.
  destruct (C7_two_refs_fetched_and_laid_out Wide.ascii_and_arabic_indic
              (Wide.of_string "out") WideSpec.serves_pdb_only
              Scenario.gunzip_ok (@rev Wide.ModelData) WideSpec.empty_fs
              (Wide.of_string "cluster_7_medoid") WideSpec.second_has_both
              _ 1%nat _ WideSpec.cif_url WideSpec.pdb_url
              (fun l => Permutation_sym (Permutation_rev l))
              eq_refl eq_refl eq_refl eq_refl)
    as (_ & _ & _ & (fs' & events & Hfetch & Hcif & Hpdb & Hfile1 & Hfile2)
        & Hascii & _).
  exists fs', events.
  assert (Wide.sanitize_filename
            (Wide.cluster_number Wide.ascii_and_arabic_indic
               (Wide.of_string "cluster_7_medoid"))
          = Wide.cluster_number Wide.ascii_and_arabic_indic
              (Wide.of_string "cluster_7_medoid")) as _.
  { apply Hascii.
    - intros c Hc H. unfold Wide.ascii_and_arabic_indic in H.
      apply orb_prop in H as [H | H]; [exact H |].
      unfold Wide.in_range in H. apply andb_prop in H as [H _].
      apply N.leb_le in H. lia.
    - vm_compute. repeat constructor. }
  split; [exact Hfetch | split; [exact Hcif | split; [exact Hpdb |]]].
  split; [exact Hfile1 | exact Hfile2].
Defined.

Lemma X14_every_url_is_requested_once_witness :
  exists fs' events,
    Wide.fetch_model_results Wide.ascii_and_arabic_indic
      (Wide.of_string "out") WideSpec.serves_pdb_only Scenario.gunzip_ok
      (@rev Wide.ModelData) WideSpec.empty_fs
      (Wide.of_string "cluster_7_medoid") WideSpec.second_has_both
    = Wide.Returns fs' events
    /\ Permutation (WideSpec.requested events)
         [Wide.of_string "https://host/m/01.cif"; WideSpec.cif_url;
          WideSpec.pdb_url].
Proof.
  apply (X14_every_url_is_requested_once Wide.ascii_and_arabic_indic
           (Wide.of_string "out") WideSpec.serves_pdb_only Scenario.gunzip_ok
           (@rev Wide.ModelData) WideSpec.empty_fs
           (Wide.of_string "cluster_7_medoid") WideSpec.second_has_both _
           (fun l => Permutation_sym (Permutation_rev l)) eq_refl).
Defined.

Lemma X18_destination_stays_below_out_dir_witness :
  exists folder file,
    Wide.destination Wide.ascii_and_arabic_indic (Wide.of_string "out")
      WideSpec.arabic_indic_id 2 "modelcif"
    = Wide.of_string "out/" ++ folder ++ Wide.of_string "/CIF/" ++ file
    /\ Wide.of_string "cluster_" `prefix_of` folder
    /\ ~ In 47%N folder
    /\ Wide.of_string "cluster_" `prefix_of` file
    /\ WideSpec.safe file.
Proof.
  destruct (X18_destination_stays_below_out_dir Wide.ascii_and_arabic_indic
              (Wide.of_string "out") WideSpec.arabic_indic_id 2 "modelcif"
              eq_refl)
    as (folder & file & Hpath & Hfolder & Hslash & Hfile & Hsafe & _).
  exists folder, file. repeat split; assumption.
Defined.

(** ** The loop over the completed futures at a concrete input *)

Lemma C2_pool_submits_loop_serializes_witness :
  follows "out" Scenario.serve_gz Scenario.gunzip_ok "TEMPLATE"
    Scenario.accepts_all Scenario.completes_on_second Scenario.two_sequences
    empty_fs
    (result (Scenario.run_with Scenario.accepts_all))
    (disk (Scenario.run_with Scenario.accepts_all))
    (loop_trace (Scenario.run_with Scenario.accepts_all)).
Proof.
  destruct (C2_pool_submits_loop_serializes "out" Scenario.serve_gz
              Scenario.gunzip_ok "TEMPLATE" Scenario.accepts_all
              Scenario.completes_on_second Scenario.two_sequences
              Scenario.two_sequences empty_fs) as (_ & _ & _ & Hfollows).
  apply Hfollows.
  - discriminate.
  - intros project code j [[= <- <-]|[[= <- <-]|[]]] Hdone;
      [discriminate Hdone | now eexists].
Defined.
